(** * da-cloud-commondatabase: the request-to-SQL core of the D1 worker

    A shallow embedding of [handleApiRequest] and [resolveTableName] as they
    are written in [src/index.js] (the worker) and in the code listing of
    [usage.md] (the management rack, which adds [exec], [batch_post] and the
    table and index actions), of the HTTP entry points [fetch] and
    [handleApi] around them, and of the handler of the earlier draft of the
    worker ([src/unnamed/part_000]), which keeps its table in a global;
    followed by the properties the specification states about them and by
    further properties of the code.

    Conventions of the embedding:
    - a JavaScript string is a [string] of code units below 256 (Latin-1);
      [trim] and [toLowerCase] are written out for that range;
    - a value that came out of [JSON.parse] is a [json]; [undefined] is the
      [None] of [value];
    - an object is the list of its own properties in [Object.keys] order;
      the [payload] of a request is such an object and its [action] a string,
      as [handleApi] passes them after parsing the envelope;
    - a number is the rational it denotes (every finite double is one);
    - [console.error]/[waitUntil] and the calls to the D1 binding are recorded
      as a trace of events; the binding itself is a record of oracles that
      answer each call with a result or with a thrown error message;
    - of the object [run()] resolves to, the handler reads [result.changes];
      [D1Result] is the object the D1 binding gives, with the count under
      [meta]. *)

From Stdlib Require Import String Ascii List ZArith NArith QArith Bool Lia.
From Stdlib Require Import DecimalString.
Import ListNotations.

Set Warnings "-register-all".
Local Open Scope list_scope.
Local Open Scope string_scope.

(** ** JavaScript strings *)

Module JsString.

Definition code (c : ascii) : N := N_of_ascii c.

(** WhiteSpace and LineTerminator code units below 256: TAB, LF, VT, FF,
    CR, SPACE and NO-BREAK SPACE. *)
Definition isWhiteSpace (c : ascii) : bool :=
  let n := code c in
  ((9 <=? n) && (n <=? 13) || (n =? 32) || (n =? 160))%N.

Fixpoint trimStart (s : string) : string :=
  match s with
  | EmptyString => EmptyString
  | String c r => if isWhiteSpace c then trimStart r else s
  end.

Fixpoint trimEnd (s : string) : string :=
  match s with
  | EmptyString => EmptyString
  | String c r =>
      match trimEnd r with
      | EmptyString => if isWhiteSpace c then EmptyString else String c EmptyString
      | r' => String c r'
      end
  end.

Definition trim (s : string) : string := trimEnd (trimStart s).

(** Upper-case letters below 256: A-Z, and the Latin-1 letters
    U+00C0-U+00DE without the multiplication sign U+00D7. *)
Definition isUpper (c : ascii) : bool :=
  let n := code c in
  ((65 <=? n) && (n <=? 90)
   || (192 <=? n) && (n <=? 214)
   || (216 <=? n) && (n <=? 222))%N.

Definition lowerChar (c : ascii) : ascii :=
  if isUpper c then ascii_of_N (code c + 32) else c.

Fixpoint toLowerCase (s : string) : string :=
  match s with
  | EmptyString => EmptyString
  | String c r => String (lowerChar c) (toLowerCase r)
  end.

Fixpoint startsWith (s pat : string) {struct pat} : bool :=
  match pat, s with
  | EmptyString, _ => true
  | String _ _, EmptyString => false
  | String p pat', String c s' => Ascii.eqb c p && startsWith s' pat'
  end.

(** [s.includes(pat)] *)
Fixpoint includes (s pat : string) : bool :=
  startsWith s pat
  || match s with
     | EmptyString => false
     | String _ r => includes r pat
     end.

(** [xs.join(sep)] on an array of strings *)
Definition join (sep : string) (xs : list string) : string :=
  String.concat sep xs.

(** Decimal digits of an integer, as [Number::toString] prints the
    integers it prints without an exponent. *)
Definition decimal (z : Z) : string :=
  NilZero.string_of_int (Z.to_int z).

End JsString.
Import JsString.

(** ** JSON values *)

Inductive json : Type :=
| JNull
| JBool (b : bool)
| JNum (q : Q)
| JStr (s : string)
| JArr (items : list json)
| JObj (props : list (string * json)).

(** A JavaScript value read from a parsed body: [None] is [undefined]. *)
Definition value : Type := option json.
Definition undefined : value := None.

Definition object : Type := list (string * json).

(** [o[k]] / [o.k] on an object built by [JSON.parse]: own properties only
    (none of the names the handler reads is defined on [Object.prototype]). *)
Fixpoint get (o : object) (k : string) : value :=
  match o with
  | [] => undefined
  | (k', v) :: rest => if String.eqb k' k then Some v else get rest k
  end.

(** [Object.keys(o)] *)
Definition Object_keys (o : object) : list string := map fst o.

(** ToBoolean *)
Definition truthy (v : value) : bool :=
  match v with
  | None => false
  | Some JNull => false
  | Some (JBool b) => b
  | Some (JNum q) => negb (Qnum q =? 0)%Z
  | Some (JStr s) => negb (s =? "")
  | Some (JArr _) => true
  | Some (JObj _) => true
  end.

(** [xs.includes(v)] on an array of strings: SameValueZero finds only a
    string equal to one of the elements. *)
Definition Array_includes (xs : list string) (v : value) : bool :=
  match v with
  | Some (JStr s) => existsb (String.eqb s) xs
  | _ => false
  end.

Definition includes_key (xs : list string) (k : string) : bool :=
  Array_includes xs (Some (JStr k)).

(** ** Completions: a call returns normally or throws [err.message] *)

Inductive completion (A : Type) : Type :=
| Normal (a : A)
| Throw (message : string).
Arguments Normal {A} a.
Arguments Throw {A} message.

(** ** Table safety ([src/index.js] 265-277, [usage.md] 576-588) *)

Definition FORBIDDEN_TABLES : list string :=
  [ "sqlite_master"; "sqlite_schema"; "sqlite_temp_master"; "sqlite_sequence" ].

Definition Set_has (xs : list string) (s : string) : bool :=
  existsb (String.eqb s) xs.

(** [resolveTableName(payload)]; [None] is the [null] it returns.  A truthy
    [table_name] that is not a string has no [trim] method, and the call
    throws a TypeError. *)
Definition resolveTableName (payload : object) : completion (option string) :=
  let table_name := get payload "table_name" in
  if negb (truthy table_name) then Normal None
  else
    match table_name with
    | Some (JStr s) =>
        if trim s =? "" then Normal None
        else
          let name := trim s in
          if Set_has FORBIDDEN_TABLES name then Normal None
          else Normal (Some name)
    | _ => Throw "payload.table_name.trim is not a function"
    end.

(** ** The D1 binding and the trace of a request *)

(** A prepared statement with its bound values:
    [db.prepare(sql).bind(...values)]. *)
Record statement : Type := Statement { sql : string; binds : list value }.

(** What the handler reads from the object [run()] resolves to. *)
Record RunResult : Type := { changes : option Z }.

(** What the handler reads from the object [all()] resolves to. *)
Record AllResult : Type := { results : option (list json); meta : value }.

(** The binding, as the oracle of one request: each call resolves to a
    result or rejects with an error whose [message] is given. *)
Record D1Database : Type := {
  d1_run : statement -> completion RunResult;
  d1_all : statement -> completion AllResult;
  d1_batch : list statement -> completion (list AllResult);
  d1_exec : string -> completion unit
}.

Inductive event : Type :=
| Log (msg : string)                (* errDelegate(msg) *)
| Run (st : statement)              (* db.prepare(..).bind(..).run() *)
| All (st : statement)              (* db.prepare(..).bind(..).all() *)
| Batch (sts : list statement)      (* db.batch([...]) *)
| Exec (text : string).             (* db.exec(sql) *)

Definition is_store_call (e : event) : bool :=
  match e with
  | Log _ => false
  | _ => true
  end.

(** The calls that reached the store adapter, in order. *)
Definition store_calls (tr : list event) : list event :=
  filter is_store_call tr.

(** An asynchronous computation of the handler: the events it performed and
    how it completed. *)
Definition M (A : Type) : Type := (list event * completion A)%type.

Definition ret {A} (a : A) : M A := ([], Normal a).

Definition throw {A} (message : string) : M A := ([], Throw message).

Definition bind {A B} (m : M A) (k : A -> M B) : M B :=
  match m with
  | (tr, Normal a) => let (tr', r) := k a in ((tr ++ tr')%list, r)
  | (tr, Throw e) => (tr, Throw e)
  end.

(** [try { m } catch (err) { handler(err.message) }] *)
Definition try_catch {A} (m : M A) (handler : string -> M A) : M A :=
  match m with
  | (tr, Normal a) => (tr, Normal a)
  | (tr, Throw e) => let (tr', r) := handler e in ((tr ++ tr')%list, r)
  end.

Declare Scope js_scope.
Delimit Scope js_scope with js.
Notation "x <- m ;; k" := (bind m (fun x => k))
  (at level 61, m at next level, right associativity) : js_scope.
Notation "m ;; k" := (bind m (fun _ => k))
  (at level 61, right associativity) : js_scope.
Local Open Scope js_scope.

Definition trace {A} (m : M A) : list event := fst m.
Definition outcome {A} (m : M A) : completion A := snd m.

(** [errDelegate(msg)]: [console.error] and an empty [waitUntil]. *)
Definition errDelegate (msg : string) : M unit := ([Log msg], Normal tt).

Definition await_run (db : D1Database) (st : statement) : M RunResult :=
  ([Run st], d1_run db st).
Definition await_all (db : D1Database) (st : statement) : M AllResult :=
  ([All st], d1_all db st).
Definition await_batch (db : D1Database) (sts : list statement)
  : M (list AllResult) :=
  ([Batch sts], d1_batch db sts).
Definition await_exec (db : D1Database) (text : string) : M unit :=
  ([Exec text], d1_exec db text).

(** The value [handleApiRequest] resolves to. *)
Inductive reply : Type :=
| Null                                              (* null *)
| Error (msg : string)                              (* { error } *)
| Rows (rows : list json)                           (* { rows } *)
| Deleted (n : Z)                                   (* { deleted } *)
| Indexed (col : string)                            (* { indexed } *)
| Message (msg : string)                            (* { message } *)
| ExecResult (rows : list json) (m : value)         (* { success, results, meta } *)
| Tables (count : nat) (tables : list value)        (* { count, tables } *)
| Inserted (n : nat)                                (* { inserted } *)
| Indices (rows : option (list json)).              (* { indices } *)

(** ** Globals ([src/index.js] 284-299, [usage.md] 593-609) *)

Definition allowedQueryOptions : list string :=
  [ "minId"; "offset"; "order"; "orderby"; "limit"; "table_name" ].

Definition dataColumns : list string :=
  [ "c1"; "c2"; "c3";
    "i1"; "i2"; "i3";
    "d1"; "d2"; "d3";
    "t1"; "t2"; "t3";
    "v1"; "v2"; "v3" ].

(** ** Conversions the handler applies to parsed values *)

(** [Number.isInteger(v)] *)
Definition Number_isInteger (v : value) : bool :=
  match v with
  | Some (JNum q) => (Qnum q mod Zpos (Qden q) =? 0)%Z
  | _ => false
  end.

(** The integer a number is, once [Number.isInteger] holds of it. *)
Definition integer_of (v : value) : Z :=
  match v with
  | Some (JNum q) => (Qnum q / Zpos (Qden q))%Z
  | _ => 0%Z
  end.

(** [v !== undefined] *)
Definition is_defined (v : value) : bool :=
  match v with
  | None => false
  | Some _ => true
  end.

(** [v != null]: neither [undefined] nor [null]. *)
Definition not_nullish (v : value) : bool :=
  match v with
  | None | Some JNull => false
  | Some _ => true
  end.

(** [v === "s"] *)
Definition is_string (v : value) (s : string) : bool :=
  match v with
  | Some (JStr s') => s' =? s
  | _ => false
  end.

(** The array index keys ["0"], ["1"], ... of an array or string of length [n]. *)
Definition index_keys (n : nat) : list string :=
  map (fun i => decimal (Z.of_nat i)) (seq 0 n).

(** The own enumerable properties [Object.keys(v)] ranges over, with their
    values; [Object.keys(null)] throws. *)
Definition own_properties (v : json) : completion object :=
  match v with
  | JObj o => Normal o
  | JArr items => Normal (combine (index_keys (length items)) items)
  | JStr s =>
      Normal (combine (index_keys (String.length s))
                      (map (fun c => JStr (String c EmptyString))
                           (list_ascii_of_string s)))
  | JNum _ | JBool _ => Normal []
  | JNull => Throw "Cannot convert undefined or null to object"
  end.

Section TemplateLiterals.

(** [Number::toString] on the numbers it does not print as the digits of
    a safe integer: fractions, and integers from 2^53 on, of which it
    prints the shortest digits that read back as the same double (2^60 is
    printed 1152921504606847000).  That printing is the engine's. *)
Variable DoubleToString : Q -> string.

Definition NumberToString (q : Q) : string :=
  let n := (Qnum q / Zpos (Qden q))%Z in
  if Number_isInteger (Some (JNum q)) && (Z.abs n <? 2 ^ 53)%Z
  then decimal n
  else DoubleToString q.

(** [`${v}`] for a parsed value.  An array prints its elements joined by
    commas, [null] as nothing.  An object prints as "[object Object]"
    through the inherited method, unless it has a property [toString] of
    its own: a parsed value is not callable, the inherited [valueOf] gives
    the object back, and the conversion throws. *)
Fixpoint ToStringJson (v : json) : completion string :=
  match v with
  | JNull => Normal "null"
  | JBool true => Normal "true"
  | JBool false => Normal "false"
  | JNum q => Normal (NumberToString q)
  | JStr s => Normal s
  | JArr items =>
      match (fix each (xs : list json) : completion (list string) :=
               match xs with
               | [] => Normal []
               | x :: rest =>
                   match match x with
                         | JNull => Normal ""
                         | _ => ToStringJson x
                         end with
                   | Throw e => Throw e
                   | Normal part =>
                       match each rest with
                       | Throw e => Throw e
                       | Normal parts => Normal (part :: parts)
                       end
                   end
               end) items with
      | Throw e => Throw e
      | Normal parts => Normal (join "," parts)
      end
  | JObj o =>
      if includes_key (Object_keys o) "toString"
      then Throw "Cannot convert object to primitive value"
      else Normal "[object Object]"
  end.

Definition ToString (v : value) : completion string :=
  match v with
  | None => Normal "undefined"
  | Some j => ToStringJson j
  end.

End TemplateLiterals.

(** The string a value is, once [includes] has found it in an array of
    strings. *)
Definition string_of (v : value) : string :=
  match v with
  | Some (JStr s) => s
  | _ => ""
  end.

(** ** The cases of [handleApiRequest] *)

Definition LF : string := String (ascii_of_nat 10) EmptyString.

(** [result.changes === 0] *)
Definition changes_is_zero (r : RunResult) : bool :=
  match changes r with
  | Some n => (n =? 0)%Z
  | None => false
  end.

(** [result.results || []] *)
Definition results_or_empty (r : AllResult) : list json :=
  match results r with
  | Some rows => rows
  | None => []
  end.

(** [row.name] for each row; reading a property of [null] throws. *)
Fixpoint row_names (rows : list json) : completion (list value) :=
  match rows with
  | [] => Normal []
  | JNull :: _ => Throw "Cannot read properties of null (reading 'name')"
  | row :: rest =>
      match row_names rest with
      | Normal names =>
          Normal (match row with
                  | JObj o => get o "name"
                  | _ => undefined
                  end :: names)
      | Throw e => Throw e
      end
  end.

(** A synchronous step that may throw, inside an asynchronous body. *)
Definition lift {A} (c : completion A) : M A := ([], c).

(** [records.map(f)] where [f] may throw: the first throw ends the map. *)
Fixpoint map_completion {A B} (f : A -> completion B) (xs : list A)
  : completion (list B) :=
  match xs with
  | [] => Normal []
  | x :: rest =>
      match f x with
      | Throw e => Throw e
      | Normal y =>
          match map_completion f rest with
          | Throw e => Throw e
          | Normal ys => Normal (y :: ys)
          end
      end
  end.

Section Cases.

Variable DoubleToString : Q -> string.
Variable allowedColumns : list string.
Variable db : D1Database.
Variable tableName : string.
Variable payload : object.

Definition not_table_name (k : string) : bool := negb (k =? "table_name").

Definition not_allowed (k : string) : bool :=
  negb (includes_key allowedColumns k).

(** case "post" ([src/index.js] 34-48, [usage.md] 343-357) *)
Definition case_post : M reply :=
  let keys := filter not_table_name (Object_keys payload) in
  let invalidKeys := filter not_allowed keys in
  if (0 <? length invalidKeys)%nat then
    ret (Error ("Invalid columns: " ++ join ", " invalidKeys))
  else
    let placeholders := join "," (map (fun _ => "?") keys) in
    let sql := "INSERT INTO " ++ tableName ++ " (" ++ join "," keys
               ++ ") VALUES (" ++ placeholders ++ ")" in
    let values := map (fun k => get payload k) keys in
    _ <- await_run db (Statement sql values) ;;
    ret Null.

(** case "put" ([src/index.js] 51-83, [usage.md] 360-392) *)
Definition case_put : M reply :=
  if negb (truthy (get payload "id")) then
    ret (Error "Missing 'id' for update")
  else
    let keysPut :=
      filter (fun k => not_table_name k && negb (k =? "id"))
             (Object_keys payload) in
    let invalidKeys := filter not_allowed keysPut in
    if (0 <? length invalidKeys)%nat then
      ret (Error ("Invalid columns: " ++ join ", " invalidKeys))
    else
      let '(sql, values) :=
        if (length keysPut =? 0)%nat then
          ("UPDATE " ++ tableName
           ++ " SET v2 = CURRENT_TIMESTAMP WHERE id = ?",
           [get payload "id"])
        else
          let setClause := join ", " (map (fun k => k ++ " = ?") keysPut) in
          ("UPDATE " ++ tableName ++ " SET " ++ setClause
           ++ ", v2 = CURRENT_TIMESTAMP WHERE id = ?",
           (map (fun k => get payload k) keysPut ++ [get payload "id"])%list)
      in
      result <- await_run db (Statement sql values) ;;
      if changes_is_zero result then
        id <- lift (ToString DoubleToString (get payload "id")) ;;
        ret (Error ("Record not found: id=" ++ id))
      else ret Null.

(** [Number.isInteger(limit) && limit > 0 ? Math.min(limit, 500) : 100] *)
Definition get_limit (limit : value) : Z :=
  if Number_isInteger limit && (0 <? integer_of limit)%Z
  then Z.min (integer_of limit) 500
  else 100%Z.

(** case "get" ([src/index.js] 86-140, [usage.md] 395-449) *)
Definition case_get : M reply :=
  let options := filter (fun kv => not_table_name (fst kv)) payload in
  let columnFilters :=
    filter (fun k => negb (includes_key allowedQueryOptions k))
           (Object_keys options) in
  match find not_allowed columnFilters with
  | Some k => ret (Error ("Invalid column in filters: " ++ k))
  | None =>
      let query := "SELECT * FROM " ++ tableName in
      let order :=
        if is_string (get options "order") "desc" then "DESC" else "ASC" in
      let orderBy :=
        if Array_includes allowedColumns (get options "orderby")
        then string_of (get options "orderby")
        else "id" in
      if is_defined (get options "minId") && is_defined (get options "offset")
      then ret (Error "Cannot use both 'minId' and 'offset' together.")
      else
        let conditions := map (fun k => k ++ " = ?") columnFilters in
        let params := map (fun k => get options k) columnFilters in
        let bound :=
          orderBy ++ " " ++ (if order =? "ASC" then ">" else "<") ++ " ?" in
        let '(conditions, params) :=
          if not_nullish (get options "offset") then
            ((conditions ++ [bound])%list,
             (params ++ [get options "offset"])%list)
          else if not_nullish (get options "minId") then
            ((conditions ++ [bound])%list,
             (params ++ [get options "minId"])%list)
          else (conditions, params) in
        let query :=
          if (0 <? length conditions)%nat
          then query ++ " WHERE " ++ join " AND " conditions
          else query in
        let query := query ++ " ORDER BY " ++ orderBy ++ " " ++ order in
        let limit := get_limit (get options "limit") in
        let query := query ++ " LIMIT " ++ decimal limit in
        result <- await_all db (Statement query params) ;;
        ret (Rows (results_or_empty result))
  end.

(** case "delete" ([src/index.js] 143-165, [usage.md] 452-474) *)
Definition case_delete : M reply :=
  let keys := filter not_table_name (Object_keys payload) in
  let invalidKeys := filter not_allowed keys in
  if (0 <? length invalidKeys)%nat then
    ret (Error ("Invalid columns: " ++ join ", " invalidKeys))
  else
    st <- (if (length keys =? 0)%nat then
             let sql := "DELETE FROM " ++ tableName in
             errDelegate ("DELETE ALL from " ++ tableName) ;;
             ret (Statement sql [])
           else
             let whereClause := join " AND " (map (fun k => k ++ " = ?") keys) in
             let sql := "DELETE FROM " ++ tableName ++ " WHERE " ++ whereClause in
             ret (Statement sql (map (fun k => get payload k) keys))) ;;
    result <- await_run db st ;;
    ret (Deleted (match changes result with
                  | Some n => n
                  | None => 0%Z
                  end)).

(** case "index" ([src/index.js] 168-186, [usage.md] 477-495) *)
Definition case_index : M reply :=
  let col := get payload "column" in
  match col with
  | Some (JStr c) =>
      if negb (truthy col) then
        ret (Error "Missing or invalid column for index")
      else if negb (Array_includes allowedColumns col) || (c =? "id") then
        ret (Error ("Index not allowed on column: " ++ c))
      else
        let indexName := "idx_" ++ tableName ++ "__" ++ c in
        let sql := "CREATE INDEX IF NOT EXISTS " ++ indexName ++ " ON "
                   ++ tableName ++ " (" ++ c ++ ")" in
        await_exec db sql ;;
        errDelegate ("INDEX created: " ++ tableName ++ "." ++ c) ;;
        ret (Indexed c)
  | _ => ret (Error "Missing or invalid column for index")
  end.

(** case "exec" ([usage.md] 187-216) *)
Definition case_exec : M reply :=
  let query := get payload "query" in
  let params := get payload "params" in
  if negb (truthy query) then ret (Error "Missing SQL query")
  else
    match query with
    | Some (JStr q) =>
        let lowerQuery := trim (toLowerCase q) in
        if includes lowerQuery "sqlite_master" || includes lowerQuery "_cf_"
        then ret (Error "Access to system tables via EXEC is forbidden.")
        else
          try_catch
            (let values := match params with
                           | Some (JArr ps) => map Some ps
                           | _ => []
                           end in
             result <- await_all db (Statement q values) ;;
             ret (ExecResult (results_or_empty result) (meta result)))
            (fun message => ret (Error ("SQL Execution Error: " ++ message)))
    | _ => throw "query.toLowerCase is not a function"
    end.

(** case "create_table" ([usage.md] 218-256) *)
Definition case_create_table : M reply :=
  let c1Unique := truthy (get payload "c1_unique") in
  let c1Constraint := if c1Unique then "UNIQUE" else "" in
  let tableSql :=
    LF ++ "          CREATE TABLE IF NOT EXISTS " ++ tableName ++ " ("
    ++ LF ++ "            id INTEGER PRIMARY KEY AUTOINCREMENT,"
    ++ LF ++ "            c1 VARCHAR(255) " ++ c1Constraint ++ ","
    ++ LF ++ "            c2 VARCHAR(255), c3 VARCHAR(255),"
    ++ LF ++ "            i1 INT, i2 INT, i3 INT,"
    ++ LF ++ "            d1 DOUBLE, d2 DOUBLE, d3 DOUBLE,"
    ++ LF ++ "            t1 TEXT, t2 TEXT, t3 TEXT,"
    ++ LF ++ "            v1 TIMESTAMP DEFAULT CURRENT_TIMESTAMP,"
    ++ LF ++ "            v2 TIMESTAMP DEFAULT CURRENT_TIMESTAMP,"
    ++ LF ++ "            v3 TIMESTAMP DEFAULT CURRENT_TIMESTAMP"
    ++ LF ++ "          );"
    ++ LF ++ "        " in
  let index_on (c : string) :=
    Statement ("CREATE INDEX IF NOT EXISTS idx_" ++ tableName ++ "_" ++ c
               ++ " ON " ++ tableName ++ "(" ++ c ++ ")") [] in
  let statements :=
    ([Statement tableSql []]
     ++ (if negb c1Unique then [index_on "c1"] else [])
     ++ [index_on "v2"])%list in
  _ <- await_batch db statements ;;
  ret (Message ("Table " ++ tableName ++ " is ready with indices on "
                ++ (if c1Unique then "v2" else "c1, v2") ++ ".")).

(** case "list_tables" ([usage.md] 259-277) *)
Definition case_list_tables : M reply :=
  let query :=
    LF ++ "          SELECT name "
    ++ LF ++ "          FROM sqlite_master "
    ++ LF ++ "          WHERE type='table' "
    ++ LF ++ "            AND name NOT LIKE 'sqlite_%' "
    ++ LF ++ "            AND name NOT LIKE '_cf_%'"
    ++ LF ++ "        " in
  result <- await_all db (Statement query []) ;;
  match results result with
  | None => throw "Cannot read properties of undefined (reading 'map')"
  | Some rows =>
      tableNames <- lift (row_names rows) ;;
      ret (Tables (length tableNames) tableNames)
  end.

(** The statement [batch_post] prepares for one record. *)
Definition insert_statement (record : json) : completion statement :=
  match own_properties record with
  | Throw e => Throw e
  | Normal props =>
      let keys :=
        filter (fun k => includes_key allowedColumns k) (Object_keys props) in
      let placeholders := join "," (map (fun _ => "?") keys) in
      let sql := "INSERT INTO " ++ tableName ++ " (" ++ join "," keys
                 ++ ") VALUES (" ++ placeholders ++ ")" in
      let values := map (fun k => get props k) keys in
      Normal (Statement sql values)
  end.

(** case "batch_post" ([usage.md] 280-294) *)
Definition case_batch_post : M reply :=
  match get payload "data" with
  | Some (JArr records) =>
      statements <- lift (map_completion insert_statement records) ;;
      results <- await_batch db statements ;;
      ret (Inserted (length results))
  | _ => ret (Error "Payload 'data' must be an array")
  end.

(** case "drop_table" ([usage.md] 297-305) *)
Definition case_drop_table : M reply :=
  if tableName =? "" then ret (Error "Invalid table name")
  else
    let sql := "DROP TABLE IF EXISTS " ++ tableName in
    _ <- await_run db (Statement sql []) ;;
    ret (Message ("Table " ++ tableName ++ " has been deleted.")).

(** case "create_index" ([usage.md] 307-323) *)
Definition case_create_index : M reply :=
  let col := get payload "column" in
  let isUnique := truthy (get payload "unique") in
  if negb (truthy col) || negb (Array_includes allowedColumns col) then
    c <- lift (ToString DoubleToString col) ;;
    ret (Error ("Invalid or missing column: " ++ c))
  else
    let c := string_of col in
    let indexName := "idx_" ++ tableName ++ "_" ++ c in
    let uniqueStr := if isUnique then "UNIQUE" else "" in
    let sql := "CREATE " ++ uniqueStr ++ " INDEX IF NOT EXISTS " ++ indexName
               ++ " ON " ++ tableName ++ " (" ++ c ++ ")" in
    _ <- await_run db (Statement sql []) ;;
    ret (Message ("Index " ++ indexName ++ " created.")).

(** case "list_indices" ([usage.md] 324-328) *)
Definition case_list_indices : M reply :=
  let sql := "PRAGMA index_list(" ++ tableName ++ ")" in
  result <- await_all db (Statement sql []) ;;
  ret (Indices (results result)).

(** case "drop_index" ([usage.md] 331-340) *)
Definition case_drop_index : M reply :=
  let col := get payload "column" in
  if negb (truthy col) then ret (Error "Missing column name to drop index")
  else
    c <- lift (ToString DoubleToString col) ;;
    let indexName := "idx_" ++ tableName ++ "_" ++ c in
    let sql := "DROP INDEX IF EXISTS " ++ indexName in
    _ <- await_run db (Statement sql []) ;;
    ret (Message ("Index " ++ indexName ++ " dropped.")).

(** The [catch] of the handler's [try] ([src/index.js] 191-194). *)
Definition on_error (message : string) : M reply :=
  errDelegate ("DB operation failed: " ++ message) ;;
  ret (Error message).

End Cases.

(** ** [handleApiRequest] of the worker ([src/index.js] 22-195) *)

Module IndexJs.

Definition allowedColumns : list string := dataColumns.

(** [G_DB] is the binding [handleApi] stored before the call. *)
Definition handleApiRequest (DoubleToString : Q -> string) (G_DB : D1Database)
           (action : string) (payload : object) : M reply :=
  let db := G_DB in
  tableName <- lift (resolveTableName payload) ;;
  match tableName with
  | None =>
      errDelegate "Invalid or missing table_name" ;;
      ret (Error "Invalid or missing table_name")
  | Some tableName =>
      try_catch
        (if action =? "post" then
           case_post allowedColumns db tableName payload
         else if action =? "put" then
           case_put DoubleToString allowedColumns db tableName payload
         else if action =? "get" then
           case_get allowedColumns db tableName payload
         else if action =? "delete" then
           case_delete allowedColumns db tableName payload
         else if action =? "index" then
           case_index allowedColumns db tableName payload
         else ret (Error ("Unknown action: " ++ action)))
        on_error
  end.

End IndexJs.

(** ** [handleApiRequest] of the management rack ([usage.md] 175-504) *)

Module UsageMd.

Definition allowedColumns : list string := "id" :: dataColumns.

Definition handleApiRequest (DoubleToString : Q -> string)
           (action : string) (payload : object) (db : D1Database) : M reply :=
  tableName <- lift (resolveTableName payload) ;;
  match tableName with
  | None =>
      errDelegate "Invalid or missing table_name" ;;
      ret (Error "Invalid or missing table_name")
  | Some tableName =>
      try_catch
        (if action =? "exec" then
           case_exec db payload
         else if action =? "create_table" then
           case_create_table db tableName payload
         else if action =? "list_tables" then
           case_list_tables db
         else if action =? "batch_post" then
           case_batch_post allowedColumns db tableName payload
         else if action =? "drop_table" then
           case_drop_table db tableName
         else if action =? "create_index" then
           case_create_index DoubleToString allowedColumns db tableName payload
         else if action =? "list_indices" then
           case_list_indices db tableName
         else if action =? "drop_index" then
           case_drop_index DoubleToString db tableName payload
         else if action =? "post" then
           case_post allowedColumns db tableName payload
         else if action =? "put" then
           case_put DoubleToString allowedColumns db tableName payload
         else if action =? "get" then
           case_get allowedColumns db tableName payload
         else if action =? "delete" then
           case_delete allowedColumns db tableName payload
         else if action =? "index" then
           case_index allowedColumns db tableName payload
         else ret (Error ("Unknown action: " ++ action)))
        on_error
  end.

End UsageMd.

(** The two listings of the handler, behind one name. *)
Inductive listing : Type := Worker | Rack.

Definition columns_of (src : listing) : list string :=
  match src with
  | Worker => IndexJs.allowedColumns
  | Rack => UsageMd.allowedColumns
  end.

Definition handle (src : listing) (DoubleToString : Q -> string)
           (db : D1Database) (action : string) (payload : object) : M reply :=
  match src with
  | Worker => IndexJs.handleApiRequest DoubleToString db action payload
  | Rack => UsageMd.handleApiRequest DoubleToString action payload db
  end.

(** ** The HTTP wrapper ([src/index.js] 2-19 and 197-257,
    [usage.md] 155-172 and 506-568) *)

(** What the worker reads of a request: the method, the path of its URL,
    the [Authorization] header ([None] when [headers.get] gives null) and
    what [request.json()] resolves to, or the message it rejects with. *)
Record Request : Type := {
  method : string;
  pathname : string;
  authorization : option string;
  json_body : completion json
}.

(** What the worker reads of its environment. *)
Record Env : Type := {
  DA_WRITE_TOKEN : option string;
  DB : D1Database;
  INSTANCEID : option string
}.

(** The object a response carries, before [JSON.stringify] prints it, or the
    plain text of the two transport-level answers.  [None] as the payload of
    an acknowledgment is the empty object [{}]. *)
Inductive content : Type :=
| Text (text : string)
| AckBody (request_id : json) (payload : option reply)
| NackBody (request_id : json) (code message : string)
| MetaBody (service version instance : string).

Record Response : Type := { status : Z; content_of : content }.

Definition C_SERVICE : string := "da-cloud-cfd1-rack".
Definition C_VERSION : string := "0.0.1".
Definition G_INSTANCE : string := "default".

(** [jsonResponse(obj, status)] *)
Definition jsonResponse (obj : content) (status : Z) : Response :=
  {| status := status; content_of := obj |}.

(** [ack(requestId, payload)] *)
Definition ack (requestId : json) (payload : option reply) : Response :=
  jsonResponse (AckBody requestId payload) 200.

(** [nack(requestId, code, message)] *)
Definition nack (requestId : json) (code message : string) : Response :=
  jsonResponse (NackBody requestId code message) 400.

(** [handleMeta(env)] *)
Definition handleMeta (env : Env) : Response :=
  jsonResponse
    (MetaBody C_SERVICE C_VERSION
              (match INSTANCEID env with
               | Some i => if i =? "" then G_INSTANCE else i
               | None => G_INSTANCE
               end))
    200.

(** [s.split(sep)] for a separator of one code unit. *)
Fixpoint split (sep : ascii) (s : string) : list string :=
  match s with
  | EmptyString => [EmptyString]
  | String c r =>
      if Ascii.eqb c sep then EmptyString :: split sep r
      else
        match split sep r with
        | first :: others => String c first :: others
        | [] => [String c EmptyString]
        end
  end.

(** [a !== b] between the second segment of the header and the secret. *)
Definition differs (a b : option string) : bool :=
  match a, b with
  | Some x, Some y => negb (x =? y)
  | None, None => false
  | _, _ => true
  end.

(** [body.k] on what [request.json()] gave: reading a property of [null]
    throws; an array, a string, a number or a boolean has none of the three
    properties [handleApi] reads. *)
Definition member (body : json) (k : string) : completion value :=
  match body with
  | JNull => Throw ("Cannot read properties of null (reading '" ++ k ++ "')")
  | JObj o => Normal (get o k)
  | _ => Normal undefined
  end.

(** The payload as [handleApiRequest] sees it.  A truthy payload that is not
    an object has no [table_name], and the handler returns at its gate
    without reading anything else of it, as it does for [{}]. *)
Definition payload_object (payload : json) : object :=
  match payload with
  | JObj o => o
  | _ => []
  end.

(** [handleApiRequest] for an action that is truthy but not a string: after
    the gate, no [case] of the [switch] is strictly equal to it, and the
    [default] prints it inside the [try]. *)
Definition no_case_matches (DoubleToString : Q -> string) (action : json)
           (payload : object) : M reply :=
  tableName <- lift (resolveTableName payload) ;;
  match tableName with
  | None =>
      errDelegate "Invalid or missing table_name" ;;
      ret (Error "Invalid or missing table_name")
  | Some _ =>
      try_catch
        (a <- lift (ToStringJson DoubleToString action) ;;
         ret (Error ("Unknown action: " ++ a)))
        on_error
  end.

(** [handleApiRequest(body.action || "", body.payload)] *)
Definition call_handler (src : listing) (DoubleToString : Q -> string)
           (db : D1Database) (action : value) (payload : json) : M reply :=
  if truthy action then
    match action with
    | Some (JStr a) => handle src DoubleToString db a (payload_object payload)
    | Some v => no_case_matches DoubleToString v (payload_object payload)
    | None => handle src DoubleToString db "" (payload_object payload)
    end
  else handle src DoubleToString db "" (payload_object payload).

(** [ret && ret.error ? nack(...) : ack(requestId, ret || {})] *)
Definition respond (requestId : json) (r : reply) : Response :=
  match r with
  | Null => ack requestId None
  | Error msg =>
      if msg =? "" then ack requestId (Some r)
      else nack requestId "REQUEST_FAILED" msg
  | _ => ack requestId (Some r)
  end.

(** [handleApi(request, env)]; the two listings differ only in how the
    binding reaches the handler. *)
Definition handleApi (src : listing) (DoubleToString : Q -> string)
           (request : Request) (env : Env) : M Response :=
  let auth := authorization request in
  if match auth with
     | None => true
     | Some a => (a =? "") || negb (startsWith a "Bearer ")
     end
  then ret (nack (JStr "unknown") "UNAUTHORIZED"
                 "Missing or invalid Authorization header")
  else if differs (match auth with
                   | Some a => nth_error (split " " a) 1
                   | None => None
                   end)
                  (DA_WRITE_TOKEN env)
  then ret (nack (JStr "unknown") "INVALID_TOKEN" "Token authentication failed")
  else
    match json_body request with
    | Throw _ => ret (nack (JStr "unknown") "INVALID_JSON" "Malformed JSON body")
    | Normal body =>
        request_id <- lift (member body "request_id") ;;
        let requestId :=
          match request_id with
          | Some id => if truthy request_id then id else JStr "unknown"
          | None => JStr "unknown"
          end in
        payload <- lift (member body "payload") ;;
        match payload with
        | Some p =>
            if negb (truthy payload) then
              ret (nack requestId "INVALID_FIELD" "Missing payload")
            else
              action <- lift (member body "action") ;;
              r <- call_handler src DoubleToString (DB env) action p ;;
              ret (respond requestId r)
        | None => ret (nack requestId "INVALID_FIELD" "Missing payload")
        end
    end.

(** [fetch(request, env, ctx)] *)
Definition fetch (src : listing) (DoubleToString : Q -> string)
           (request : Request) (env : Env) : M Response :=
  if negb (method request =? "POST") then
    ret {| status := 405; content_of := Text "Method Not Allowed" |}
  else if pathname request =? "/api" then
    handleApi src DoubleToString request env
  else if pathname request =? "/meta" then
    ret (handleMeta env)
  else ret {| status := 404; content_of := Text "Not Found" |}.

(** ** The first draft of the worker ([src/unnamed/part_000]) *)

Module Draft.

Definition allowedColumns : list string := dataColumns.

(** [errDelegate(msg)]: [console.error]; the post to the log gateway is
    handed to [waitUntil] and not awaited. *)
Definition errDelegate (msg : string) : M unit := ([Log msg], Normal tt).

(** [G_tableName] after the first statement of [handleApiRequest]. *)
Definition assigned_table (G_tableName : json) (payload : object) : json :=
  match get payload "table_name" with
  | Some v =>
      if truthy (Some v) && negb (is_string (Some v) "")
      then v
      else G_tableName
  | None => G_tableName
  end.

(** [!rows.results || rows.results.length === 0] *)
Definition no_rows (rows : AllResult) : bool :=
  match results rows with
  | Some (_ :: _) => false
  | _ => true
  end.

(** [handleApiRequest] ([src/unnamed/part_000] 19-97), from the value of the
    global [G_tableName] at the call: the value of the global after it, and
    the computation.  Each case prints the global into its statement text
    where the source has the template literal, inside the [try]. *)
Definition handleApiRequest (DoubleToString : Q -> string) (G_DB : D1Database)
           (G_tableName : json) (action : string) (payload : object)
  : json * M reply :=
  let db := G_DB in
  let G_tableName := assigned_table G_tableName payload in
  let keys := filter not_table_name (Object_keys payload) in
  let invalidKeys := filter (not_allowed allowedColumns) keys in
  (G_tableName,
   if (0 <? length invalidKeys)%nat then
     errDelegate ("Invalid columns in payload: " ++ join ", " invalidKeys) ;;
     ret (Error ("Invalid columns: " ++ join ", " invalidKeys))
   else
     try_catch
       (if action =? "post" then
          let placeholders := join "," (map (fun _ => "?") keys) in
          table <- lift (ToStringJson DoubleToString G_tableName) ;;
          let sql := "INSERT INTO " ++ table ++ " (" ++ join "," keys
                     ++ ") VALUES (" ++ placeholders ++ ")" in
          let values := map (fun k => get payload k) keys in
          _ <- await_run db (Statement sql values) ;;
          ret Null
        else if action =? "put" then
          if negb (truthy (get payload "id")) then
            errDelegate "Missing 'id' for update" ;;
            ret (Error "Missing 'id' for update")
          else if (length keys =? 0)%nat then
            errDelegate "No fields to update" ;;
            ret (Error "No fields to update")
          else
            let id := get payload "id" in
            let fields := filter (fun kv => negb (fst kv =? "id")) payload in
            let setClause := join ", " (map (fun k => k ++ " = ?") keys) in
            table <- lift (ToStringJson DoubleToString G_tableName) ;;
            let sql := "UPDATE " ++ table ++ " SET " ++ setClause
                       ++ ", v2 = CURRENT_TIMESTAMP WHERE id = ?" in
            let values := (map (fun k => get fields k) keys ++ [id])%list in
            _ <- await_run db (Statement sql values) ;;
            ret Null
        else if action =? "get" then
          table <- lift (ToStringJson DoubleToString G_tableName) ;;
          let sql := "SELECT * FROM " ++ table in
          let '(sql, values) :=
            if (0 <? length keys)%nat then
              let whereClause :=
                join " AND " (map (fun k => k ++ " = ?") keys) in
              (sql ++ " WHERE " ++ whereClause,
               map (fun k => get payload k) keys)
            else (sql, []) in
          rows <- await_all db (Statement sql values) ;;
          if no_rows rows then
            errDelegate ("No data found in " ++ table) ;;
            ret (Error "No data found")
          else ret Null
        else if action =? "delete" then
          if (length keys =? 0)%nat then
            errDelegate "No condition provided for delete" ;;
            ret (Error "Need at least one condition to delete")
          else
            let whereClause :=
              join " AND " (map (fun k => k ++ " = ?") keys) in
            table <- lift (ToStringJson DoubleToString G_tableName) ;;
            let sql := "DELETE FROM " ++ table ++ " WHERE " ++ whereClause in
            let values := map (fun k => get payload k) keys in
            _ <- await_run db (Statement sql values) ;;
            ret Null
        else
          errDelegate ("Unknown action: " ++ action) ;;
          ret (Error "Unknown action"))
       (fun message =>
          errDelegate ("DB operation failed: " ++ message) ;;
          ret (Error message))).

(** The global after a request, and what the request did. *)
Definition table_after (D : Q -> string) (db : D1Database) (G : json)
           (action : string) (payload : object) : json :=
  fst (handleApiRequest D db G action payload).

Definition run (D : Q -> string) (db : D1Database) (G : json)
           (action : string) (payload : object) : M reply :=
  snd (handleApiRequest D db G action payload).

End Draft.

(** ** Sample bindings and requests *)

(** A binding on which every statement succeeds and changes [n] rows. *)
Definition db_changing (n : option Z) : D1Database :=
  {| d1_run := fun _ => Normal {| changes := n |};
     d1_all := fun _ => Normal {| results := Some []; meta := undefined |};
     d1_batch := fun sts =>
       Normal (map (fun _ => {| results := Some []; meta := undefined |}) sts);
     d1_exec := fun _ => Normal tt |}.

(** A binding on which every call is rejected with [message]. *)
Definition db_failing (message : string) : D1Database :=
  {| d1_run := fun _ => Throw message;
     d1_all := fun _ => Throw message;
     d1_batch := fun _ => Throw message;
     d1_exec := fun _ => Throw message |}.

Definition no_exponent (q : Q) : string := "".

Definition num (z : Z) : json := JNum (inject_Z z).

(** The object the D1 binding resolves [run()] to when [rows_changed] rows
    changed, [{ success, meta: { changes }, results }]: the count is a
    property of [meta]. *)
Definition D1Result (rows_changed : Z) : object :=
  [("success", JBool true);
   ("meta", JObj [("changes", num rows_changed)]);
   ("results", JArr [])].

(** What the handler reads from a result object, [result.changes]: a count
    when the object has one of its own. *)
Definition read_changes (result : object) : RunResult :=
  {| changes := if Number_isInteger (get result "changes")
                then Some (integer_of (get result "changes"))
                else None |}.

(** A D1 binding on which every statement succeeds and changes [n] rows. *)
Definition db_d1 (n : Z) : D1Database :=
  {| d1_run := fun _ => Normal (read_changes (D1Result n));
     d1_all := fun _ =>
       Normal {| results := Some [];
                 meta := Some (JObj [("changes", num n)]) |};
     d1_batch := fun sts =>
       Normal (map (fun _ => {| results := Some [];
                                meta := Some (JObj [("changes", num n)]) |})
                   sts);
     d1_exec := fun _ => Normal tt |}.

(** An environment with a secret and a binding that changes one row. *)
Definition sample_env : Env :=
  {| DA_WRITE_TOKEN := Some "s3cret";
     DB := db_changing (Some 1%Z);
     INSTANCEID := None |}.

(** A POST to [/api] with a header and a parsed body. *)
Definition sample_request (auth : option string) (body : json) : Request :=
  {| method := "POST"; pathname := "/api";
     authorization := auth; json_body := Normal body |}.

(** A page request and the statement it is answered from. *)
Definition sample_get : object :=
  [("table_name", JStr "sensor_logs"); ("c1", JStr "device_A");
   ("orderby", JStr "v2"); ("order", JStr "desc"); ("minId", num 5);
   ("limit", num 50)].

Definition sample_get_statement : statement :=
  Statement
    "SELECT * FROM sensor_logs WHERE c1 = ? AND v2 < ? ORDER BY v2 DESC LIMIT 50"
    [Some (JStr "device_A"); Some (num 5)].

(** ** Vocabulary of the specification *)

(** Every code unit of [s] is white space (the empty string included). *)
Fixpoint whitespace_only (s : string) : Prop :=
  match s with
  | EmptyString => True
  | String c r => isWhiteSpace c = true /\ whitespace_only r
  end.

(** [s] neither starts nor ends with white space. *)
Definition no_outer_space (s : string) : Prop :=
  (forall c r, s = String c r -> isWhiteSpace c = false)
  /\ (forall r c, s = r ++ String c EmptyString -> isWhiteSpace c = false).

(** [c] is the letter [d] in one of its two cases, or [d] itself. *)
Definition same_letter (c d : ascii) : bool :=
  Ascii.eqb c d
  || ((65 <=? code c) && (code c <=? 90) && (code c + 32 =? code d))%N
  || ((65 <=? code d) && (code d <=? 90) && (code d + 32 =? code c))%N.

(** [s] spells [pat], letter by letter, in any mix of cases. *)
Fixpoint in_any_case (s pat : string) : bool :=
  match s, pat with
  | EmptyString, EmptyString => true
  | String c s', String d pat' => same_letter c d && in_any_case s' pat'
  | _, _ => false
  end.


(** The value is the positive integer [n]. *)
Definition positive_integer (v : value) (n : Z) : Prop :=
  exists q, v = Some (JNum q) /\ (q == inject_Z n)%Q /\ (0 < n)%Z.

(** The value is absent, a number that is zero or negative, a number that
    is not an integer, or not a number at all. *)
Definition no_usable_limit (v : value) : Prop :=
  v = undefined
  \/ (exists q, v = Some (JNum q) /\ (q <= 0)%Q)
  \/ (exists q, v = Some (JNum q) /\ forall n, ~ (q == inject_Z n)%Q)
  \/ (exists j, v = Some j /\ forall q, j <> JNum q).

(** No call reached the store adapter. *)
Definition no_store_call {A} (m : M A) : Prop := store_calls (trace m) = [].

(** The request was answered with [{ error }]. *)
Definition rejected (m : M reply) : Prop :=
  exists msg, outcome m = Normal (Error msg).


(** The UPDATE that only refreshes the last-modified column of row [id]. *)
Definition touch_statement (tableName : string) (id : value) : statement :=
  Statement ("UPDATE " ++ tableName
             ++ " SET v2 = CURRENT_TIMESTAMP WHERE id = ?")
            [id].

(** The message with which the binding rejects the call [e], if it does. *)
Definition thrown_by (db : D1Database) (e : event) : option string :=
  match e with
  | Log _ => None
  | Run st => match d1_run db st with Throw m => Some m | Normal _ => None end
  | All st => match d1_all db st with Throw m => Some m | Normal _ => None end
  | Batch sts =>
      match d1_batch db sts with Throw m => Some m | Normal _ => None end
  | Exec text =>
      match d1_exec db text with Throw m => Some m | Normal _ => None end
  end.

(** The statement texts a store call carries. *)
Definition sql_texts (e : event) : list string :=
  match e with
  | Log _ => []
  | Run st | All st => [sql st]
  | Batch sts => map sql sts
  | Exec text => [text]
  end.

(** The action names each listing has a [case] for. *)
Definition actions_of (src : listing) : list string :=
  match src with
  | Worker => [ "post"; "put"; "get"; "delete"; "index" ]
  | Rack =>
      [ "exec"; "create_table"; "list_tables"; "batch_post"; "drop_table";
        "create_index"; "list_indices"; "drop_index";
        "post"; "put"; "get"; "delete"; "index" ]
  end.

(** [table_name] is there, truthy, and not a string. *)
Definition table_name_not_text (payload : object) : Prop :=
  exists v, get payload "table_name" = Some v
            /\ truthy (Some v) = true /\ forall s, v <> JStr s.

(** No code unit of [s] is [c]. *)
Fixpoint lacks (c : ascii) (s : string) : Prop :=
  match s with
  | EmptyString => True
  | String d r => d <> c /\ lacks c r
  end.

(** The header is [Bearer <secret>], alone or followed by a space and
    anything, for a configured secret without a space in it. *)
Definition presents (auth secret : option string) : Prop :=
  exists t rest,
    secret = Some t
    /\ auth = Some ("Bearer " ++ t ++ rest)
    /\ lacks " " t
    /\ (rest = "" \/ exists r, rest = String " " r).

(** The number of [?] placeholders in a statement text. *)
Fixpoint placeholders (s : string) : nat :=
  match s with
  | EmptyString => 0
  | String c r => (if Ascii.eqb c "?" then 1 else 0) + placeholders r
  end.

(** The statement a store call of one statement carries. *)
Definition statement_of (e : event) : option statement :=
  match e with
  | Run st | All st => Some st
  | _ => None
  end.

(** The keys of a payload that are neither [table_name] nor a query option:
    the filter columns of [get]. *)
Definition filter_keys (payload : object) : list string :=
  filter (fun k => negb (includes_key allowedQueryOptions k))
         (filter not_table_name (Object_keys payload)).

(** The pagination bound of [get]: [offset] when it is neither undefined
    nor null, else [minId] when it is neither, else none. *)
Definition page_bound (payload : object) : list value :=
  if not_nullish (get payload "offset") then [get payload "offset"]
  else if not_nullish (get payload "minId") then [get payload "minId"]
  else [].

(** The WHERE clause for a list of conditions: none for no condition. *)
Definition where_clause (conditions : list string) : string :=
  match conditions with
  | [] => ""
  | _ => " WHERE " ++ join " AND " conditions
  end.

(** No code unit of [s] is white space. *)
Fixpoint spaceless (s : string) : Prop :=
  match s with
  | EmptyString => True
  | String c r => isWhiteSpace c = false /\ spaceless r
  end.

(** Unfolds the handler down to its events and oracle calls. *)
Ltac open_cases :=
  unfold handle, IndexJs.handleApiRequest, UsageMd.handleApiRequest,
    case_post, case_put, case_get, case_delete, case_index, case_exec,
    case_create_table, case_list_tables, case_batch_post, case_drop_table,
    case_create_index, case_list_indices, case_drop_index, on_error,
    bind, ret, throw, lift, await_run, await_all, await_batch, await_exec,
    errDelegate, try_catch, trace, outcome.

(** Case analysis on the innermost test or oracle answer of the goal. *)
Ltac split_innermost :=
  match goal with
  | |- context [match ?x with _ => _ end] =>
      lazymatch x with
      | context [match _ with _ => _ end] => fail
      | _ => destruct x eqn:?
      end
  end.

Ltac split_cases := repeat (cbv beta iota zeta; split_innermost).

(** Case analysis on which event of a literal trace is meant. *)
Ltac pick_event :=
  repeat match goal with
         | H : _ \/ _ |- _ => destruct H as [H|H]
         | H : False |- _ => destruct H
         end.

(** Reads [thrown_by] in [H] with the recorded answer of the oracle. *)
Ltac use_answer H :=
  cbn [thrown_by] in H;
  try discriminate H;
  try match goal with
      | Hc : d1_run _ _ = _ |- _ => rewrite Hc in H
      | Hc : d1_all _ _ = _ |- _ => rewrite Hc in H
      | Hc : d1_batch _ _ = _ |- _ => rewrite Hc in H
      | Hc : d1_exec _ _ = _ |- _ => rewrite Hc in H
      end;
  try discriminate H;
  try (injection H as H; subst).

Ltac by_action :=
  repeat match goal with
         | H : (_ =? _) = true |- _ => apply String.eqb_eq in H
         | H : (_ =? _) = false |- _ => apply String.eqb_neq in H
         end.

(** Unfolds the wrapper down to the handler call. *)
Ltac open_wrapper :=
  unfold fetch, handleApi, handleMeta, call_handler, no_case_matches,
    respond, ack, nack, jsonResponse, member, on_error,
    bind, ret, throw, lift, errDelegate, trace, outcome.

(** Unfolds the draft handler down to its events and oracle calls. *)
Ltac open_draft :=
  unfold Draft.run, Draft.table_after, Draft.handleApiRequest,
    Draft.errDelegate, bind, ret, throw, lift, await_run, await_all,
    try_catch, trace, outcome.

(** Closes [~ In k xs] for a literal [k] and a literal list [xs]. *)
Ltac not_listed :=
  let H := fresh "H" in
  intros H; simpl in H;
  repeat (destruct H as [H|H]; [discriminate H|]);
  exact H.

(** ** Strings: [trim], [toLowerCase], [includes] *)

Section StringFacts.

Lemma append_nil_r (s : string) : s ++ "" = s.
Proof. induction s as [|c s IH]; simpl; [reflexivity | now rewrite IH]. Qed.

Lemma append_assoc (a b c : string) : (a ++ b) ++ c = a ++ b ++ c.
Proof. induction a as [|x a IH]; simpl; [reflexivity | now rewrite IH]. Qed.

Lemma whitespace_only_app (a b : string) :
  whitespace_only a -> whitespace_only b -> whitespace_only (a ++ b).
Proof.
  induction a as [|c a IH]; simpl; intros Ha Hb; [exact Hb|].
  destruct Ha as [Hc Ha]. split; [exact Hc | now apply IH].
Qed.

Lemma trimStart_split (s : string) :
  exists w, whitespace_only w /\ s = w ++ trimStart s.
Proof.
  induction s as [|c s [w [Hw Hs]]].
  - exists "". simpl. split; [exact I | reflexivity].
  - simpl. destruct (isWhiteSpace c) eqn:Hc.
    + exists (String c w). simpl. split; [split; assumption|].
      now rewrite <- Hs.
    + exists "". simpl. split; [exact I | reflexivity].
Qed.

Lemma trimStart_head (s : string) (c : ascii) (r : string) :
  trimStart s = String c r -> isWhiteSpace c = false.
Proof.
  induction s as [|d s IH]; simpl; [discriminate|].
  destruct (isWhiteSpace d) eqn:Hd; [exact IH|].
  intros [= -> _]. exact Hd.
Qed.

Lemma trimStart_whitespace (s : string) :
  whitespace_only s -> trimStart s = "".
Proof.
  induction s as [|c s IH]; simpl; [reflexivity|].
  intros [-> Hs]. now apply IH.
Qed.

Lemma trimEnd_split (s : string) :
  exists w, whitespace_only w /\ s = trimEnd s ++ w.
Proof.
  induction s as [|c s [w [Hw Hs]]].
  - exists "". simpl. split; [exact I | reflexivity].
  - simpl. destruct (trimEnd s) as [|d t] eqn:Ht.
    + destruct (isWhiteSpace c) eqn:Hc.
      * exists (String c w). simpl. split; [split; assumption|].
        simpl in Hs. now rewrite <- Hs.
      * exists w. simpl. split; [assumption|]. simpl in Hs. now rewrite <- Hs.
    + exists w. split; [assumption|]. simpl. simpl in Hs. now rewrite <- Hs.
Qed.

Lemma trimEnd_last (s r : string) (c : ascii) :
  trimEnd s = r ++ String c "" -> isWhiteSpace c = false.
Proof.
  revert r. induction s as [|d s IH]; intros r; simpl.
  - destruct r; discriminate.
  - destruct (trimEnd s) as [|e t] eqn:Ht.
    + destruct (isWhiteSpace d) eqn:Hd.
      * destruct r; discriminate.
      * destruct r as [|x r]; simpl.
        -- intros [= ->]. exact Hd.
        -- intros [= _ H]. destruct r; discriminate.
    + destruct r as [|x r]; simpl.
      * discriminate.
      * intros [= _ H]. now apply (IH r).
Qed.

Lemma trimEnd_keeps_head (s : string) (c : ascii) (r : string) :
  trimEnd s = String c r -> exists r', s = String c r'.
Proof.
  destruct s as [|d s]; simpl; [discriminate|].
  destruct (trimEnd s).
  - destruct (isWhiteSpace d); [discriminate|]. intros [= -> _]. now exists s.
  - intros [= -> _]. now exists s.
Qed.

Lemma trimEnd_whitespace (s : string) :
  whitespace_only s -> trimEnd s = "".
Proof.
  induction s as [|c s IH]; simpl; [reflexivity|].
  intros [Hc Hs]. rewrite (IH Hs). now rewrite Hc.
Qed.

(** What [trim] removes and what it leaves. *)
Lemma trim_split (s : string) :
  exists l r, s = l ++ trim s ++ r
              /\ whitespace_only l /\ whitespace_only r
              /\ no_outer_space (trim s).
Proof.
  unfold trim.
  destruct (trimStart_split s) as [l [Hl Hs]].
  destruct (trimEnd_split (trimStart s)) as [r [Hr Ht]].
  exists l, r. repeat split; try assumption.
  - now rewrite <- Ht.
  - intros c t Hc.
    destruct (trimEnd_keeps_head _ _ _ Hc) as [t' Ht'].
    exact (trimStart_head _ _ _ Ht').
  - intros t c Hc. exact (trimEnd_last _ _ _ Hc).
Qed.

Lemma trim_whitespace (s : string) : whitespace_only s -> trim s = "".
Proof.
  intros Hs. unfold trim. now rewrite (trimStart_whitespace s Hs).
Qed.

Lemma trim_empty_whitespace (s : string) : trim s = "" -> whitespace_only s.
Proof.
  intros Ht. destruct (trim_split s) as [l [r [Hs [Hl [Hr _]]]]].
  rewrite Ht in Hs. simpl in Hs. rewrite Hs.
  now apply whitespace_only_app.
Qed.

End StringFacts.

Section Occurrences.








Lemma same_letter_lower (c d : ascii) :
  same_letter c d = true -> lowerChar c = lowerChar d.
Proof.
  unfold same_letter. intros H.
  apply orb_true_iff in H. destruct H as [H | H].
  - apply orb_true_iff in H. destruct H as [H | H].
    + apply Ascii.eqb_eq in H. now subst.
    + apply andb_true_iff in H. destruct H as [H Hd].
      apply N.eqb_eq in Hd.
      assert (d = ascii_of_N (code c + 32)) as ->
          by (rewrite Hd; unfold code; now rewrite ascii_N_embedding).
      clear Hd.
      destruct c as [[] [] [] [] [] [] [] []]; try discriminate H;
        reflexivity.
  - apply andb_true_iff in H. destruct H as [H Hc].
    apply N.eqb_eq in Hc.
    assert (c = ascii_of_N (code d + 32)) as ->
        by (rewrite Hc; unfold code; now rewrite ascii_N_embedding).
    clear Hc.
    destruct d as [[] [] [] [] [] [] [] []]; try discriminate H;
      reflexivity.
Qed.

Lemma in_any_case_lower (s pat : string) :
  in_any_case s pat = true -> toLowerCase s = toLowerCase pat.
Proof.
  revert pat. induction s as [|c s IH]; intros [|d pat]; simpl;
    try discriminate; [reflexivity|].
  intros H. apply andb_true_iff in H. destruct H as [Hc Hs].
  now rewrite (same_letter_lower c d Hc), (IH pat Hs).
Qed.


End Occurrences.

(** ** The table gate and the dispatch *)

Section Dispatch.

Variable DoubleToString : Q -> string.
Variable db : D1Database.

Lemma includes_key_In (xs : list string) (k : string) :
  includes_key xs k = true <-> In k xs.
Proof.
  unfold includes_key, Array_includes. rewrite existsb_exists. split.
  - intros [x [Hx Hk]]. apply String.eqb_eq in Hk. now subst.
  - intros Hk. exists k. split; [assumption | apply String.eqb_refl].
Qed.

Lemma not_allowed_true (xs : list string) (k : string) :
  not_allowed xs k = true <-> ~ In k xs.
Proof.
  unfold not_allowed. rewrite negb_true_iff, <- not_true_iff_false.
  now rewrite includes_key_In.
Qed.

Lemma not_table_name_true (k : string) :
  not_table_name k = true <-> k <> "table_name".
Proof.
  unfold not_table_name. rewrite negb_true_iff. apply String.eqb_neq.
Qed.

(** A request whose table name does not resolve is answered at the gate. *)
Lemma handle_unresolved (src : listing) (action : string) (payload : object) :
  resolveTableName payload = Normal None ->
  handle src DoubleToString db action payload
  = ([Log "Invalid or missing table_name"],
     Normal (Error "Invalid or missing table_name")).
Proof.
  intros H. destruct src; unfold handle, IndexJs.handleApiRequest,
    UsageMd.handleApiRequest, lift, bind; rewrite H; reflexivity.
Qed.

(** A [table_name] without [trim] makes the handler throw before its [try]. *)
Lemma handle_throws (src : listing) (action : string) (payload : object)
      (e : string) :
  resolveTableName payload = Throw e ->
  handle src DoubleToString db action payload = ([], Throw e).
Proof.
  intros H. destruct src; unfold handle, IndexJs.handleApiRequest,
    UsageMd.handleApiRequest, lift, bind; rewrite H; reflexivity.
Qed.

Lemma handle_post (src : listing) (payload : object) (t : string) :
  resolveTableName payload = Normal (Some t) ->
  handle src DoubleToString db "post" payload
  = try_catch (case_post (columns_of src) db t payload) on_error.
Proof.
  intros H. destruct src; unfold handle, IndexJs.handleApiRequest,
    UsageMd.handleApiRequest, lift, bind; rewrite H; simpl;
    destruct (try_catch _ _); reflexivity.
Qed.

Lemma handle_put (src : listing) (payload : object) (t : string) :
  resolveTableName payload = Normal (Some t) ->
  handle src DoubleToString db "put" payload
  = try_catch (case_put DoubleToString (columns_of src) db t payload)
              on_error.
Proof.
  intros H. destruct src; unfold handle, IndexJs.handleApiRequest,
    UsageMd.handleApiRequest, lift, bind; rewrite H; simpl;
    destruct (try_catch _ _); reflexivity.
Qed.

Lemma handle_get (src : listing) (payload : object) (t : string) :
  resolveTableName payload = Normal (Some t) ->
  handle src DoubleToString db "get" payload
  = try_catch (case_get (columns_of src) db t payload)
              on_error.
Proof.
  intros H. destruct src; unfold handle, IndexJs.handleApiRequest,
    UsageMd.handleApiRequest, lift, bind; rewrite H; simpl;
    destruct (try_catch _ _); reflexivity.
Qed.

Lemma handle_delete (src : listing) (payload : object) (t : string) :
  resolveTableName payload = Normal (Some t) ->
  handle src DoubleToString db "delete" payload
  = try_catch (case_delete (columns_of src) db t payload) on_error.
Proof.
  intros H. destruct src; unfold handle, IndexJs.handleApiRequest,
    UsageMd.handleApiRequest, lift, bind; rewrite H; simpl;
    destruct (try_catch _ _); reflexivity.
Qed.

Lemma resolve_absent (payload : object) :
  get payload "table_name" = undefined ->
  resolveTableName payload = Normal None.
Proof. unfold resolveTableName. intros ->. reflexivity. Qed.

(** What [resolveTableName] can return. *)
Lemma resolved_name (payload : object) (t : string) :
  resolveTableName payload = Normal (Some t) ->
  exists s, get payload "table_name" = Some (JStr s)
            /\ t = trim s /\ t <> "" /\ ~ In t FORBIDDEN_TABLES.
Proof.
  unfold resolveTableName.
  destruct (truthy (get payload "table_name")); cbn [negb]; [|discriminate].
  destruct (get payload "table_name") as [[| | |s| |]|]; try discriminate.
  destruct (trim s =? "") eqn:He; [discriminate|].
  destruct (Set_has FORBIDDEN_TABLES (trim s)) eqn:Hf; [discriminate|].
  intros [= <-]. exists s. repeat split.
  - now apply String.eqb_neq.
  - intros Hin. apply includes_key_In in Hin.
    unfold includes_key, Array_includes in Hin. unfold Set_has in Hf.
    congruence.
Qed.

End Dispatch.

(** ** [resolveTableName] *)

(** C4. [resolveTableName] returns null when [table_name] is absent, when it
    is the empty or a whitespace-only string, and when its trimmed text is
    one of the reserved names; for every other string it returns the text
    that is left when the white space at both ends is taken away. *)
Theorem resolveTableName_spec (payload : object) :
  (get payload "table_name" = undefined ->
   resolveTableName payload = Normal None)
  /\ (forall s, get payload "table_name" = Some (JStr s) ->
        (whitespace_only s -> resolveTableName payload = Normal None)
        /\ (In (trim s) FORBIDDEN_TABLES ->
            resolveTableName payload = Normal None)
        /\ (~ whitespace_only s -> ~ In (trim s) FORBIDDEN_TABLES ->
            resolveTableName payload = Normal (Some (trim s)))
        /\ exists l r, s = l ++ trim s ++ r
                       /\ whitespace_only l /\ whitespace_only r
                       /\ no_outer_space (trim s)).
Proof.
  unfold resolveTableName. split.
  - intros ->. reflexivity.
  - intros s ->. cbn [truthy].
    repeat split.
    + intros Hs. destruct (s =? ""); cbn [negb]; [reflexivity|].
      now rewrite (trim_whitespace s Hs).
    + intros Hin. destruct (s =? ""); cbn [negb]; [reflexivity|].
      destruct (trim s =? ""); [reflexivity|].
      apply (includes_key_In FORBIDDEN_TABLES) in Hin.
      unfold includes_key, Array_includes in Hin. unfold Set_has.
      now rewrite Hin.
    + intros Hs Hin.
      destruct (s =? "") eqn:He.
      { apply String.eqb_eq in He. subst s. now elim Hs. }
      cbn [negb].
      destruct (trim s =? "") eqn:Ht.
      { apply String.eqb_eq in Ht. elim Hs.
        now apply trim_empty_whitespace. }
      destruct (Set_has FORBIDDEN_TABLES (trim s)) eqn:Hf; [|reflexivity].
      elim Hin. apply (includes_key_In FORBIDDEN_TABLES). exact Hf.
    + apply trim_split.
Qed.

Lemma resolveTableName_spec_witness :
  resolveTableName [("table_name", JStr "  sensor_logs ")]
  = Normal (Some "sensor_logs")
  /\ resolveTableName [("table_name", JStr "sqlite_master ")] = Normal None
  /\ resolveTableName [("table_name", JStr "   ")] = Normal None
  /\ resolveTableName [("c1", JStr "a")] = Normal None.
Proof.
  split; [|split; [|split]].
  - destruct (resolveTableName_spec [("table_name", JStr "  sensor_logs ")])
      as [_ H].
    destruct (H "  sensor_logs " eq_refl) as [_ [_ [H3 _]]].
    apply H3.
    + simpl. intros [_ [_ [H' _]]]. discriminate H'.
    + simpl. intros [H'|[H'|[H'|[H'|[]]]]]; discriminate H'.
  - destruct (resolveTableName_spec [("table_name", JStr "sqlite_master ")])
      as [_ H].
    destruct (H "sqlite_master " eq_refl) as [_ [H2 _]].
    apply H2. simpl. left. reflexivity.
  - destruct (resolveTableName_spec [("table_name", JStr "   ")]) as [_ H].
    destruct (H "   " eq_refl) as [H1 _].
    apply H1. simpl. repeat split.
  - destruct (resolveTableName_spec [("c1", JStr "a")]) as [H _].
    apply H. reflexivity.
Defined.

(** ** The gate in front of every action *)

(** C9. Every action of both listings, [exec] and [list_tables] included,
    passes the table gate first: a payload without [table_name] (or with one
    that resolves to null) is answered with "Invalid or missing table_name"
    after the one log line and without a store call, whatever the action;
    and a call reaches the store only for a payload whose [table_name]
    resolves to a non-empty name outside the reserved set, so no value of
    [table_name] exempts an action from the check. *)
Theorem table_gate_every_action (src : listing) (D : Q -> string)
        (db : D1Database) (action : string) (payload : object) :
  (get payload "table_name" = undefined ->
   handle src D db action payload
   = ([Log "Invalid or missing table_name"],
      Normal (Error "Invalid or missing table_name")))
  /\ (resolveTableName payload = Normal None ->
      handle src D db action payload
      = ([Log "Invalid or missing table_name"],
         Normal (Error "Invalid or missing table_name")))
  /\ (forall e, In e (trace (handle src D db action payload)) ->
        is_store_call e = true ->
        exists t, resolveTableName payload = Normal (Some t)
                  /\ t <> "" /\ ~ In t FORBIDDEN_TABLES).
Proof.
  repeat split.
  - intros H. apply handle_unresolved. now apply resolve_absent.
  - apply handle_unresolved.
  - intros e He Hcall.
    destruct (resolveTableName payload) as [[t|]|msg] eqn:Hr.
    + exists t. split; [reflexivity|].
      destruct (resolved_name payload t Hr) as [s [_ [_ [Hne Hf]]]].
      now split.
    + rewrite (handle_unresolved D db src action payload Hr) in He.
      destruct He as [<-|[]]. discriminate Hcall.
    + rewrite (handle_throws D db src action payload msg Hr) in He.
      destruct He.
Qed.

Lemma table_gate_every_action_witness :
  UsageMd.handleApiRequest no_exponent "exec"
    [("query", JStr "SELECT c1, AVG(i1) FROM sensor_logs GROUP BY c1 HAVING AVG(i1) > ?");
     ("params", JArr [num 50])]
    (db_changing (Some 1%Z))
  = ([Log "Invalid or missing table_name"],
     Normal (Error "Invalid or missing table_name"))
  /\ exists t,
      resolveTableName [("table_name", JStr "any")] = Normal (Some t)
      /\ t <> "" /\ ~ In t FORBIDDEN_TABLES.
Proof.
  split.
  - exact (proj1 (table_gate_every_action Rack no_exponent
                    (db_changing (Some 1%Z)) "exec"
                    [("query", JStr "SELECT c1, AVG(i1) FROM sensor_logs GROUP BY c1 HAVING AVG(i1) > ?");
                     ("params", JArr [num 50])])
                 eq_refl).
  - assert (exists e,
               In e (trace (handle Rack no_exponent (db_changing (Some 1%Z))
                                   "list_tables" [("table_name", JStr "any")]))
               /\ is_store_call e = true) as [e [Hin Hcall]].
    { vm_compute. eexists. split; [left; reflexivity | reflexivity]. }
    exact (proj2 (proj2 (table_gate_every_action Rack no_exponent
                           (db_changing (Some 1%Z)) "list_tables"
                           [("table_name", JStr "any")]))
                 e Hin Hcall).
Defined.

(** ** Validation comes before the store *)

Section Validation.

Variable DoubleToString : Q -> string.
Variable allowedColumns : list string.
Variable db : D1Database.
Variable tableName : string.
Variable payload : object.

Lemma filter_nonempty {A} (f : A -> bool) (xs : list A) (x : A) :
  In x xs -> f x = true -> (0 <? length (filter f xs))%nat = true.
Proof.
  intros Hin Hf. assert (In x (filter f xs)) as H by now apply filter_In.
  destruct (filter f xs); [destruct H | reflexivity].
Qed.

Lemma filter_empty {A} (f : A -> bool) (xs : list A) :
  (forall x, In x xs -> f x = false) ->
  (0 <? length (filter f xs))%nat = false.
Proof.
  intros H. destruct (filter f xs) as [|y ys] eqn:E; [reflexivity|].
  assert (In y (filter f xs)) as Hy by (rewrite E; now left).
  apply filter_In in Hy. destruct Hy as [Hy Hf].
  rewrite (H y Hy) in Hf. discriminate.
Qed.


(** The options of [get] are the payload without [table_name]. *)
Lemma get_options (k : string) :
  k <> "table_name" ->
  get (filter (fun kv => not_table_name (fst kv)) payload) k = get payload k.
Proof.
  intros Hk. induction payload as [|[k' v] rest IH]; [reflexivity|].
  simpl. destruct (not_table_name k') eqn:Hn; simpl.
  - destruct (k' =? k); [reflexivity | exact IH].
  - destruct (k' =? k) eqn:Hkk; [|exact IH].
    apply String.eqb_eq in Hkk. subst k'.
    apply not_table_name_true in Hk. congruence.
Qed.

Lemma keys_of_options (k : string) :
  In k (Object_keys (filter (fun kv => not_table_name (fst kv)) payload))
  <-> In k (Object_keys payload) /\ k <> "table_name".
Proof.
  unfold Object_keys. rewrite !in_map_iff. split.
  - intros [[k' v] [<- Hin]]. apply filter_In in Hin.
    destruct Hin as [Hin Hn]. split.
    + exists (k', v). now split.
    + now apply not_table_name_true.
  - intros [[[k' v] [<- Hin]] Hn]. exists (k', v). split; [reflexivity|].
    apply filter_In. split; [assumption|]. now apply not_table_name_true.
Qed.



Lemma case_put_falsy_id :
  truthy (get payload "id") = false ->
  case_put DoubleToString allowedColumns db tableName payload
  = ([], Normal (Error "Missing 'id' for update")).
Proof. intros H. unfold case_put. now rewrite H. Qed.





End Validation.

Section FailClosed.

Variable DoubleToString : Q -> string.
Variable db : D1Database.

(** A case that answers with an error before its first store call leaves
    the whole request without a store call. *)
Lemma answered_before_store (src : listing) (action : string)
      (payload : object) (body : string -> M reply) :
  (forall t, resolveTableName payload = Normal (Some t) ->
             handle src DoubleToString db action payload
             = try_catch (body t) on_error) ->
  (forall t, exists msg, body t = ([], Normal (Error msg))) ->
  no_store_call (handle src DoubleToString db action payload)
  /\ (forall r, resolveTableName payload = Normal r ->
                rejected (handle src DoubleToString db action payload)).
Proof.
  intros Hdispatch Hbody. unfold no_store_call, rejected.
  destruct (resolveTableName payload) as [[t|]|e] eqn:Hr.
  - rewrite (Hdispatch t eq_refl). destruct (Hbody t) as [msg ->].
    split; [reflexivity|]. intros _ _. now exists msg.
  - rewrite (handle_unresolved DoubleToString db src action payload Hr).
    split; [reflexivity|]. intros _ _. eexists. reflexivity.
  - rewrite (handle_throws DoubleToString db src action payload e Hr).
    split; [reflexivity|]. intros r Hr'. discriminate Hr'.
Qed.

End FailClosed.







(** C10. A [put] request whose [id] is falsy (the number 0, the empty
    string, null, false, or no [id] at all) never reaches the store adapter,
    and once its table name has resolved the handler answers
    "Missing 'id' for update". *)
Theorem put_falsy_id_rejected (src : listing) (D : Q -> string)
        (db : D1Database) (payload : object) :
  truthy (get payload "id") = false ->
  no_store_call (handle src D db "put" payload)
  /\ (forall t, resolveTableName payload = Normal (Some t) ->
                handle src D db "put" payload
                = ([], Normal (Error "Missing 'id' for update"))).
Proof.
  intros Hid.
  destruct (answered_before_store D db src "put" payload
              (fun t => case_put D (columns_of src) db t payload))
    as [Hstore _].
  - intros t. apply handle_put.
  - intros t. eexists. now apply case_put_falsy_id.
  - split; [exact Hstore|].
    intros t Hr. rewrite (handle_put D db src payload t Hr).
    now rewrite (case_put_falsy_id D _ db t payload Hid).
Qed.

Lemma put_falsy_id_rejected_witness :
  handle Worker no_exponent (db_changing (Some 1%Z)) "put"
         [("table_name", JStr "sensor_logs"); ("id", num 0); ("i1", num 105)]
  = ([], Normal (Error "Missing 'id' for update"))
  /\ handle Rack no_exponent (db_changing (Some 1%Z)) "put"
            [("table_name", JStr "sensor_logs"); ("id", JStr "")]
     = ([], Normal (Error "Missing 'id' for update")).
Proof.
  split.
  - exact (proj2 (put_falsy_id_rejected Worker no_exponent
                    (db_changing (Some 1%Z))
                    [("table_name", JStr "sensor_logs"); ("id", num 0);
                     ("i1", num 105)] eq_refl)
                 "sensor_logs" eq_refl).
  - exact (proj2 (put_falsy_id_rejected Rack no_exponent
                    (db_changing (Some 1%Z))
                    [("table_name", JStr "sensor_logs"); ("id", JStr "")]
                    eq_refl)
                 "sensor_logs" eq_refl).
Defined.

(** It does not follow that the row with identity 0 can never be touched
    through [put]: the text "0" is a truthy [id], and the handler sends the
    UPDATE keyed by it, which the store compares with its integer row
    identity. *)
Lemma put_falsy_id_rejected_counterexample :
  truthy (Some (JStr "0")) = true
  /\ handle Worker no_exponent (db_changing (Some 1%Z)) "put"
            [("table_name", JStr "sensor_logs"); ("id", JStr "0")]
     = ([Run (Statement
                "UPDATE sensor_logs SET v2 = CURRENT_TIMESTAMP WHERE id = ?"
                [Some (JStr "0")])],
        Normal Null).
Proof. split; reflexivity. Qed.

(** ** One round trip to the store *)

Section RoundTrip.

Variable db : D1Database.

Lemma store_calls_all {A} (st : statement) (f : AllResult -> A)
      (h : string -> M A) :
  (forall e, store_calls (trace (h e)) = []) ->
  store_calls
    (trace (try_catch (result <- await_all db st ;; ret (f result)) h))
  = [All st].
Proof.
  intros Hh. unfold bind, await_all, try_catch, ret, trace.
  destruct (d1_all db st) as [r|e]; [reflexivity|].
  specialize (Hh e). unfold trace in Hh.
  destruct (h e) as [tr c]. simpl in *. now rewrite Hh.
Qed.

Lemma on_error_no_store (e : string) :
  store_calls (trace (on_error e)) = [].
Proof. reflexivity. Qed.

Lemma In_store_calls (e : event) (tr : list event) :
  In e tr -> is_store_call e = true -> In e (store_calls tr).
Proof. intros. apply filter_In. now split. Qed.

End RoundTrip.

Section Limit.

Variable DoubleToString : Q -> string.
Variable allowedColumns : list string.
Variable db : D1Database.
Variable tableName : string.
Variable payload : object.

Lemma integer_of_inject (q : Q) (n : Z) :
  (q == inject_Z n)%Q ->
  Number_isInteger (Some (JNum q)) = true
  /\ integer_of (Some (JNum q)) = n.
Proof.
  unfold Qeq, inject_Z, Number_isInteger, integer_of. simpl.
  rewrite Z.mul_1_r. intros ->. split.
  - apply Z.eqb_eq. apply Z_mod_mult.
  - apply Z_div_mult. reflexivity.
Qed.

Lemma inject_integer_of (q : Q) :
  Number_isInteger (Some (JNum q)) = true ->
  (q == inject_Z (integer_of (Some (JNum q))))%Q.
Proof.
  unfold Qeq, inject_Z, Number_isInteger, integer_of. simpl.
  rewrite Z.mul_1_r. intros H. apply Z.eqb_eq in H.
  rewrite Z.mul_comm. apply Z_div_exact_full_2; [discriminate | exact H].
Qed.

(** The limit of [get], case by case. *)
Lemma get_limit_spec (v : value) :
  (forall n, positive_integer v n -> get_limit v = Z.min n 500)
  /\ ((forall n, ~ positive_integer v n) -> get_limit v = 100%Z)
  /\ (1 <= get_limit v <= 500)%Z.
Proof.
  unfold get_limit. repeat split.
  - intros n [q [-> [Hq Hn]]].
    destruct (integer_of_inject q n Hq) as [-> ->].
    apply Z.ltb_lt in Hn. now rewrite Hn.
  - intros Hnone.
    destruct (Number_isInteger v) eqn:Hi; [|reflexivity].
    destruct (0 <? integer_of v)%Z eqn:Hp; [|reflexivity].
    destruct v as [[| |q| | |]|]; try discriminate Hi.
    elim (Hnone (integer_of (Some (JNum q)))).
    exists q. split; [reflexivity|]. split.
    + now apply inject_integer_of.
    + now apply Z.ltb_lt.
  - destruct (Number_isInteger v && (0 <? integer_of v)%Z) eqn:H; [|lia].
    apply andb_true_iff in H. destruct H as [_ H]. apply Z.ltb_lt in H. lia.
  - destruct (Number_isInteger v && (0 <? integer_of v)%Z); lia.
Qed.

Lemma no_usable_limit_not_positive (v : value) (n : Z) :
  no_usable_limit v -> ~ positive_integer v n.
Proof.
  intros Hv [q [Hq [Heq Hn]]].
  destruct Hv as [->|[[q' [-> Hle]]|[[q' [-> Hni]]|[j [-> Hj]]]]].
  - discriminate Hq.
  - injection Hq as <-. rewrite Heq in Hle.
    unfold Qle, inject_Z in Hle. simpl in Hle. lia.
  - injection Hq as <-. exact (Hni n Heq).
  - injection Hq as ->. now elim (Hj q).
Qed.

(** [get] either answers before the store or asks it one query, whose
    text ends with the limit. *)
Lemma case_get_query :
  (exists msg,
      case_get allowedColumns db tableName payload
      = ([], Normal (Error msg)))
  \/ (exists pre params,
         case_get allowedColumns db tableName payload
         = (result <- await_all db
               (Statement
                  (pre ++ " LIMIT "
                       ++ decimal (get_limit (get payload "limit")))
                  params) ;;
            ret (Rows (results_or_empty result)))).
Proof.
  unfold case_get. cbv zeta.
  destruct (find _ _); [left; eexists; reflexivity|].
  destruct (is_defined _ && is_defined _); [left; eexists; reflexivity|].
  right. rewrite !get_options by discriminate.
  destruct (not_nullish (get payload "offset"));
    [|destruct (not_nullish (get payload "minId"))];
    eexists; eexists; reflexivity.
Qed.

(** A [get] whose keys are all known and that does not set both bounds asks
    the store its one query. *)
Lemma case_get_sends :
  (forall k, In k (Object_keys payload) ->
             k = "table_name" \/ In k allowedQueryOptions
             \/ In k allowedColumns) ->
  is_defined (get payload "minId") && is_defined (get payload "offset")
  = false ->
  exists pre params,
    case_get allowedColumns db tableName payload
    = (result <- await_all db
          (Statement
             (pre ++ " LIMIT " ++ decimal (get_limit (get payload "limit")))
             params) ;;
       ret (Rows (results_or_empty result))).
Proof.
  intros Hok Hbounds. unfold case_get. cbv zeta.
  destruct (find _ _) as [k|] eqn:Hfind.
  - exfalso. apply find_some in Hfind. destruct Hfind as [Hin Hna].
    apply filter_In in Hin. destruct Hin as [Hin Hq].
    apply keys_of_options in Hin. destruct Hin as [Hin Hn].
    apply not_allowed_true in Hna.
    apply negb_true_iff, not_true_iff_false in Hq.
    rewrite includes_key_In in Hq.
    destruct (Hok k Hin) as [H|[H|H]]; tauto.
  - rewrite !get_options by discriminate. rewrite Hbounds.
    destruct (not_nullish (get payload "offset"));
      [|destruct (not_nullish (get payload "minId"))];
      eexists; eexists; reflexivity.
Qed.

End Limit.

(** C5. A [get] request whose table name resolves, whose keys are all
    the table name, query options or whitelisted columns, and that does not
    set both [minId] and [offset], sends the store exactly one query, and
    that query, like whatever query any [get] request sends, ends in a LIMIT
    clause whose number is min(limit, 500) when [payload.limit] is a positive
    integer (so 10000 gives 500) and 100 when it is absent, zero, negative,
    not an integer or not a number; it always lies between 1 and 500. *)
Theorem get_limit_clause (src : listing) (D : Q -> string) (db : D1Database)
        (payload : object) :
  exists L,
    (forall n, positive_integer (get payload "limit") n -> L = Z.min n 500)
    /\ ((forall n, ~ positive_integer (get payload "limit") n) -> L = 100%Z)
    /\ (no_usable_limit (get payload "limit") -> L = 100%Z)
    /\ (1 <= L <= 500)%Z
    /\ (forall st,
          In (All st) (trace (handle src D db "get" payload)) ->
          exists pre, sql st = pre ++ " LIMIT " ++ decimal L)
    /\ (forall t,
          resolveTableName payload = Normal (Some t) ->
          (forall k, In k (Object_keys payload) ->
                     k = "table_name" \/ In k allowedQueryOptions
                     \/ In k (columns_of src)) ->
          ~ (get payload "minId" <> None /\ get payload "offset" <> None) ->
          exists st pre,
            store_calls (trace (handle src D db "get" payload)) = [All st]
            /\ sql st = pre ++ " LIMIT " ++ decimal L).
Proof.
  exists (get_limit (get payload "limit")).
  destruct (get_limit_spec (get payload "limit")) as [Hpos [Hother Hrange]].
  split; [exact Hpos|]. split; [exact Hother|].
  split.
  { intros Hv. apply Hother. intros n.
    now apply no_usable_limit_not_positive. }
  split; [exact Hrange|]. split.
  - intros st Hin.
    destruct (resolveTableName payload) as [[t|]|e] eqn:Hr.
    + rewrite (handle_get D db src payload t Hr) in Hin.
      destruct (case_get_query (columns_of src) db t payload)
        as [[msg Hc]|[pre [params Hc]]]; rewrite Hc in Hin.
      * destruct Hin.
      * apply In_store_calls in Hin; [|reflexivity].
        rewrite store_calls_all in Hin by apply on_error_no_store.
        destruct Hin as [[= <-]|[]].
        exists pre. reflexivity.
    + rewrite (handle_unresolved D db src "get" payload Hr) in Hin.
      destruct Hin as [H|[]]. discriminate H.
    + rewrite (handle_throws D db src "get" payload e Hr) in Hin.
      destruct Hin.
  - intros t Hr Hok Hbounds.
    destruct (case_get_sends (columns_of src) db t payload Hok)
      as [pre [params Hc]].
    { destruct (get payload "minId"); destruct (get payload "offset");
        try reflexivity.
      exfalso. apply Hbounds. split; discriminate. }
    rewrite (handle_get D db src payload t Hr), Hc.
    rewrite store_calls_all by apply on_error_no_store.
    eexists. exists pre. split; reflexivity.
Qed.

Lemma get_limit_clause_witness :
  store_calls
    (trace (handle Worker no_exponent (db_changing (Some 1%Z)) "get"
                   [("table_name", JStr "sensor_logs");
                    ("c1", JStr "device_A"); ("limit", num 10000)]))
  = [All (Statement
            "SELECT * FROM sensor_logs WHERE c1 = ? ORDER BY id ASC LIMIT 500"
            [Some (JStr "device_A")])]
  /\ exists pre,
      "SELECT * FROM sensor_logs WHERE c1 = ? ORDER BY id ASC LIMIT 500"
      = pre ++ " LIMIT " ++ decimal 500.
Proof.
  destruct (get_limit_clause Worker no_exponent (db_changing (Some 1%Z))
              [("table_name", JStr "sensor_logs");
               ("c1", JStr "device_A"); ("limit", num 10000)])
    as [L [Hpos [_ [_ [_ [Hany Hsends]]]]]].
  rewrite (Hpos 10000%Z) in Hany, Hsends.
  2,3: exists (inject_Z 10000); split; [reflexivity|];
       split; [reflexivity | lia].
  split.
  - destruct (Hsends "sensor_logs" eq_refl) as [st [pre [Hcalls _]]].
    + intros k Hk. simpl in Hk. pick_event; subst k; simpl; tauto.
    + intros [_ Hoff]. now apply Hoff.
    + reflexivity.
  - exact (Hany _ (or_introl eq_refl)).
Defined.

(** ** Updates and deletions *)

Section Mutations.

Variable DoubleToString : Q -> string.
Variable allowedColumns : list string.
Variable db : D1Database.
Variable tableName : string.
Variable payload : object.

Lemma filter_nil {A} (f : A -> bool) (xs : list A) :
  (forall x, In x xs -> f x = false) -> filter f xs = [].
Proof.
  induction xs as [|x xs IH]; intros H; [reflexivity|].
  simpl. rewrite (H x (or_introl eq_refl)). apply IH.
  intros y Hy. apply H. now right.
Qed.

(** The round trip of [put]: one [run], then the reply read off
    [result.changes]. *)
Lemma put_round_trip (st : statement) (missing : M reply) (updated : reply) :
  store_calls (trace missing) = [] ->
  store_calls
    (trace (try_catch
              (result <- await_run db st ;;
               if changes_is_zero result then missing else ret updated)
              on_error))
  = [Run st]
  /\ (forall r, d1_run db st = Normal r ->
        changes_is_zero r = false ->
        try_catch
          (result <- await_run db st ;;
           if changes_is_zero result then missing else ret updated)
          on_error
        = ([Run st], Normal updated)).
Proof.
  intros Hmissing.
  unfold bind, await_run, try_catch, ret, trace, on_error, errDelegate.
  destruct (d1_run db st) as [r|e]; split; try reflexivity.
  - destruct (changes_is_zero r); [|reflexivity].
    destruct missing as [tr [a|e]]; unfold trace, store_calls in *;
      cbn -[filter] in *; cbn [filter is_store_call];
      rewrite ?filter_app, Hmissing; reflexivity.
  - intros r' [= <-] ->. reflexivity.
  - intros r' H. discriminate H.
Qed.

(** Printing a value into a message reaches no store. *)
Lemma message_no_store (v : value) (f : string -> reply) :
  store_calls (trace (text <- lift (ToString DoubleToString v) ;;
                      ret (f text)))
  = [].
Proof.
  unfold bind, lift, ret, trace.
  destruct (ToString DoubleToString v); reflexivity.
Qed.

(** A [put] that passes its checks is one [run] of an UPDATE, which is the
    touch statement when no field is supplied. *)
Lemma case_put_valid :
  truthy (get payload "id") = true ->
  (forall k, In k (Object_keys payload) ->
             k = "table_name" \/ k = "id" \/ In k allowedColumns) ->
  exists st,
    case_put DoubleToString allowedColumns db tableName payload
    = (result <- await_run db st ;;
       if changes_is_zero result then
         id <- lift (ToString DoubleToString (get payload "id")) ;;
         ret (Error ("Record not found: id=" ++ id))
       else ret Null)
    /\ ((forall k, In k (Object_keys payload) ->
                   k = "table_name" \/ k = "id") ->
        st = touch_statement tableName (get payload "id")).
Proof.
  intros Hid Hok. unfold case_put. rewrite Hid. cbn [negb]. cbv zeta.
  rewrite filter_empty.
  2:{ intros k Hk. apply filter_In in Hk. destruct Hk as [Hk Hf].
      apply andb_true_iff in Hf. destruct Hf as [Hn Hi].
      apply not_table_name_true in Hn.
      apply negb_true_iff, String.eqb_neq in Hi.
      apply not_true_iff_false. rewrite not_allowed_true.
      destruct (Hok k Hk) as [H|[H|H]]; tauto. }
  destruct (length _ =? 0)%nat eqn:Hlen.
  - eexists. split; [reflexivity|]. intros _. reflexivity.
  - eexists. split; [reflexivity|]. intros Honly.
    rewrite filter_nil in Hlen; [discriminate Hlen|].
    intros k Hk. destruct (Honly k Hk) as [->| ->]; reflexivity.
Qed.

(** A [delete] without filter keys logs, then runs the bare DELETE. *)
Lemma case_delete_all :
  (forall k, In k (Object_keys payload) -> k = "table_name") ->
  exists rest,
    try_catch (case_delete allowedColumns db tableName payload) on_error
    = (Log ("DELETE ALL from " ++ tableName)
         :: Run (Statement ("DELETE FROM " ++ tableName) []) :: fst rest,
       snd rest)
    /\ store_calls (fst rest) = [].
Proof.
  intros Honly. unfold case_delete. cbv zeta.
  rewrite (filter_nil not_table_name).
  2:{ intros k Hk. now rewrite (Honly k Hk). }
  cbn [filter length Nat.ltb Nat.leb Nat.eqb].
  unfold bind, await_run, errDelegate, try_catch, ret, on_error.
  cbn [app].
  destruct (d1_run db _) as [r|e].
  - exists ([], Normal (Deleted match changes r with
                                | Some n => n
                                | None => 0%Z
                                end)). split; reflexivity.
  - exists ([Log ("DB operation failed: " ++ e)], Normal (Error e)).
    split; reflexivity.
Qed.

End Mutations.

(** C7. The D1 binding resolves [run()] to
    [{ success, meta: { changes }, results }]: the number of changed rows
    is under [meta], and [result.changes], which [put] compares with 0, is
    undefined.  A [put] that passes the checks of the handler therefore runs
    its one UPDATE (the statement that only refreshes [v2] when the payload
    has nothing but [table_name] and [id]) and is answered null whatever
    number of changed rows D1 reports, zero included: a [put] on an [id]
    that matches no row is answered as a success, not with
    "Record not found". *)
Theorem put_missing_row_is_success (src : listing) (D : Q -> string)
        (payload : object) (t : string) (n : Z) :
  resolveTableName payload = Normal (Some t) ->
  truthy (get payload "id") = true ->
  (forall k, In k (Object_keys payload) ->
             k = "table_name" \/ k = "id" \/ In k (columns_of src)) ->
  exists st,
    handle src D (db_d1 n) "put" payload = ([Run st], Normal Null)
    /\ ((forall k, In k (Object_keys payload) ->
                   k = "table_name" \/ k = "id") ->
        st = touch_statement t (get payload "id")).
Proof.
  intros Hr Hid Hok.
  destruct (case_put_valid D (columns_of src) (db_d1 n) t payload Hid Hok)
    as [st [Hc Htouch]].
  exists st. split; [|exact Htouch].
  rewrite (handle_put D (db_d1 n) src payload t Hr), Hc.
  destruct (put_round_trip (db_d1 n) st
              (id <- lift (ToString D (get payload "id")) ;;
               ret (Error ("Record not found: id=" ++ id)))
              Null
              (message_no_store D (get payload "id")
                 (fun id => Error ("Record not found: id=" ++ id))))
    as [_ Hreply].
  apply (Hreply (read_changes (D1Result n))); reflexivity.
Qed.

Lemma put_missing_row_is_success_witness :
  handle Worker no_exponent (db_d1 0) "put"
         [("table_name", JStr "sensor_logs"); ("id", num 999)]
  = ([Run (Statement
             "UPDATE sensor_logs SET v2 = CURRENT_TIMESTAMP WHERE id = ?"
             [Some (num 999)])],
     Normal Null).
Proof.
  destruct (put_missing_row_is_success Worker no_exponent
              [("table_name", JStr "sensor_logs"); ("id", num 999)]
              "sensor_logs" 0 eq_refl eq_refl)
    as [st [Hh Hst]].
  - intros k [<-|[<-|[]]]; [left | right; left]; reflexivity.
  - rewrite Hh, Hst; [reflexivity|].
    intros k [<-|[<-|[]]]; [left | right]; reflexivity.
Defined.

(** C8. For a [delete] request whose payload has no key besides
    [table_name]: once the table name has resolved, the handler logs
    "DELETE ALL from <table>" and then runs "DELETE FROM <table>" with no
    WHERE clause and no bound value, its only store call; and any call such
    a request makes to the store is that statement, with that log line
    before it in the trace, so it is never run silently. *)
Theorem delete_all_is_logged_first (src : listing) (D : Q -> string)
        (db : D1Database) (payload : object) :
  (forall k, In k (Object_keys payload) -> k = "table_name") ->
  (forall t, resolveTableName payload = Normal (Some t) ->
     exists rest,
       trace (handle src D db "delete" payload)
       = Log ("DELETE ALL from " ++ t)
           :: Run (Statement ("DELETE FROM " ++ t) []) :: rest
       /\ store_calls rest = [])
  /\ (forall before e after,
        trace (handle src D db "delete" payload) = (before ++ e :: after)%list ->
        is_store_call e = true ->
        exists t,
          e = Run (Statement ("DELETE FROM " ++ t) [])
          /\ In (Log ("DELETE ALL from " ++ t)) before).
Proof.
  intros Honly.
  assert (forall t, resolveTableName payload = Normal (Some t) ->
            exists rest,
              trace (handle src D db "delete" payload)
              = Log ("DELETE ALL from " ++ t)
                  :: Run (Statement ("DELETE FROM " ++ t) []) :: rest
              /\ store_calls rest = []) as Hshape.
  { intros t Hr. rewrite (handle_delete D db src payload t Hr).
    destruct (case_delete_all (columns_of src) db t payload Honly)
      as [rest [-> Hrest]].
    exists (fst rest). split; [reflexivity | exact Hrest]. }
  split; [exact Hshape|].
  intros before e after Htrace Hcall.
  destruct (resolveTableName payload) as [[t|]|msg] eqn:Hr.
  - destruct (Hshape t eq_refl) as [rest [Heq Hrest]].
    rewrite Heq in Htrace. exists t.
    destruct before as [|b1 [|b2 before]]; simpl in Htrace.
    + injection Htrace as <- _. discriminate Hcall.
    + injection Htrace as <- <- _. split; [reflexivity | now left].
    + injection Htrace as <- _ Hrest'.
      assert (In e (store_calls rest)) as Hin.
      { apply In_store_calls; [|exact Hcall].
        rewrite Hrest'. apply in_or_app. right. now left. }
      rewrite Hrest in Hin. destruct Hin.
  - rewrite (handle_unresolved D db src "delete" payload Hr) in Htrace.
    destruct before as [|b1 [|b2 before]]; simpl in Htrace;
      try discriminate Htrace.
    injection Htrace as <- _. discriminate Hcall.
  - rewrite (handle_throws D db src "delete" payload msg Hr) in Htrace.
    destruct before; discriminate Htrace.
Qed.

Lemma delete_all_is_logged_first_witness :
  exists rest,
    trace (handle Worker no_exponent (db_changing (Some 3%Z)) "delete"
                  [("table_name", JStr "sensor_logs")])
    = Log "DELETE ALL from sensor_logs"
        :: Run (Statement "DELETE FROM sensor_logs" []) :: rest
    /\ store_calls rest = [].
Proof.
  refine (proj1 (delete_all_is_logged_first Worker no_exponent
                   (db_changing (Some 3%Z))
                   [("table_name", JStr "sensor_logs")] _)
                "sensor_logs" eq_refl).
  intros k [<-|[]]. reflexivity.
Defined.


(** ** The raw statement action *)

Section RawStatements.

Variable DoubleToString : Q -> string.
Variable db : D1Database.

Lemma handle_exec (payload : object) (t : string) :
  resolveTableName payload = Normal (Some t) ->
  handle Rack DoubleToString db "exec" payload
  = try_catch (case_exec db payload) on_error.
Proof.
  intros H. unfold handle, UsageMd.handleApiRequest, lift, bind.
  rewrite H. simpl. destruct (try_catch _ _). reflexivity.
Qed.

Lemma handle_batch_post (payload : object) (t : string) :
  resolveTableName payload = Normal (Some t) ->
  handle Rack DoubleToString db "batch_post" payload
  = try_catch (case_batch_post UsageMd.allowedColumns db t payload) on_error.
Proof.
  intros H. unfold handle, UsageMd.handleApiRequest, lift, bind.
  rewrite H. simpl. destruct (try_catch _ _). reflexivity.
Qed.



End RawStatements.




(** ** Batch insert *)

Section BatchInsert.

Variable DoubleToString : Q -> string.
Variable db : D1Database.

Lemma statements_of_records (cols : list string) (t : string)
      (records : list json) :
  (forall r, In r records -> r <> JNull) ->
  exists sts,
    map_completion (insert_statement cols t) records = Normal sts
    /\ length sts = length records
    /\ (forall st, In st sts ->
          exists keys,
            sql st = "INSERT INTO " ++ t ++ " (" ++ join "," keys
                     ++ ") VALUES (" ++ join "," (map (fun _ => "?") keys)
                     ++ ")"
            /\ forall k, In k keys -> In k cols).
Proof.
  induction records as [|r records IH]; intros Hnn.
  - exists []. repeat split. intros st [].
  - destruct IH as [sts [Hsts [Hlen Hcols]]].
    { intros r' Hr'. apply Hnn. now right. }
    assert (exists props, own_properties r = Normal props) as [props Hp].
    { destruct r; try (eexists; reflexivity).
      now elim (Hnn JNull (or_introl eq_refl)). }
    eexists. cbn [map_completion]. unfold insert_statement at 1.
    rewrite Hp, Hsts. split; [reflexivity|]. split.
    + cbn [length]. now rewrite Hlen.
    + intros st [<-|Hst]; [|now apply Hcols].
      eexists. split; [reflexivity|].
      intros k Hk. apply filter_In in Hk. destruct Hk as [_ Hk].
      now apply includes_key_In.
Qed.

End BatchInsert.

(** C1 (as the code has it). [batch_post] does not reject a batch in which
    a record carries a key outside the whitelist: the key is dropped, the
    INSERT for the remaining columns is prepared, and the whole batch is
    submitted and counted.  Here the second record has the unknown key
    [colour]. *)
Theorem batch_post_drops_unknown_keys (D : Q -> string) (db : D1Database) :
  let payload :=
    [("table_name", JStr "sensor_logs");
     ("data", JArr [JObj [("c1", JStr "device_A"); ("i1", num 42)];
                    JObj [("c1", JStr "device_B"); ("colour", JStr "red")]])]
  in
  let statements :=
    [Statement "INSERT INTO sensor_logs (c1,i1) VALUES (?,?)"
               [Some (JStr "device_A"); Some (num 42)];
     Statement "INSERT INTO sensor_logs (c1) VALUES (?)"
               [Some (JStr "device_B")]]
  in
  store_calls (trace (UsageMd.handleApiRequest D "batch_post" payload db))
  = [Batch statements]
  /\ (forall rs, d1_batch db statements = Normal rs ->
        UsageMd.handleApiRequest D "batch_post" payload db
        = ([Batch statements], Normal (Inserted (length rs)))).
Proof.
  cbv zeta.
  set (statements := [Statement "INSERT INTO sensor_logs (c1,i1) VALUES (?,?)" _;
                      Statement "INSERT INTO sensor_logs (c1) VALUES (?)" _]).
  assert (UsageMd.handleApiRequest D "batch_post"
            [("table_name", JStr "sensor_logs");
             ("data", JArr [JObj [("c1", JStr "device_A"); ("i1", num 42)];
                            JObj [("c1", JStr "device_B");
                                  ("colour", JStr "red")]])] db
          = try_catch (results <- await_batch db statements ;;
                       ret (Inserted (length results))) on_error) as ->.
  { unfold UsageMd.handleApiRequest, case_batch_post, bind, lift, try_catch,
      await_batch, ret.
    cbn -[String.append length].
    destruct (d1_batch db _); reflexivity. }
  unfold bind, await_batch, try_catch, ret, trace, on_error.
  destruct (d1_batch db statements) as [rs|e]; split; try reflexivity.
  - intros rs' [= <-]. reflexivity.
  - intros rs H. discriminate H.
Qed.

(** With records that are objects (anything but null), [batch_post] prepares
    one INSERT per record over whitelisted columns only, submits them as a
    single batch, and reports as inserted the number of results the adapter
    returns for that batch. *)
Theorem batch_post_one_batch (D : Q -> string) (db : D1Database)
        (payload : object) (t : string) (records : list json) :
  resolveTableName payload = Normal (Some t) ->
  get payload "data" = Some (JArr records) ->
  (forall r, In r records -> r <> JNull) ->
  exists sts,
    store_calls (trace (UsageMd.handleApiRequest D "batch_post" payload db))
    = [Batch sts]
    /\ length sts = length records
    /\ (forall st, In st sts ->
          exists keys,
            sql st = "INSERT INTO " ++ t ++ " (" ++ join "," keys
                     ++ ") VALUES (" ++ join "," (map (fun _ => "?") keys)
                     ++ ")"
            /\ forall k, In k keys -> In k UsageMd.allowedColumns)
    /\ (forall rs, d1_batch db sts = Normal rs ->
          UsageMd.handleApiRequest D "batch_post" payload db
          = ([Batch sts], Normal (Inserted (length rs)))).
Proof.
  intros Hr Hdata Hnn.
  change (UsageMd.handleApiRequest D "batch_post" payload db)
    with (handle Rack D db "batch_post" payload).
  rewrite (handle_batch_post D db payload t Hr).
  destruct (statements_of_records UsageMd.allowedColumns t records Hnn)
    as [sts [Hsts [Hlen Hcols]]].
  exists sts. unfold case_batch_post. rewrite Hdata.
  unfold lift, bind, await_batch, try_catch, ret, on_error, errDelegate, trace.
  rewrite Hsts. cbn [app fst].
  destruct (d1_batch db sts) as [rs|e].
  - split; [reflexivity|]. split; [exact Hlen|]. split; [exact Hcols|].
    intros rs' [= <-]. reflexivity.
  - split; [reflexivity|]. split; [exact Hlen|]. split; [exact Hcols|].
    intros rs H. discriminate H.
Qed.

Lemma batch_post_one_batch_witness :
  UsageMd.handleApiRequest no_exponent "batch_post"
    [("table_name", JStr "sensor_logs");
     ("data", JArr [JObj [("c1", JStr "device_A"); ("i1", num 42);
                          ("t1", JStr "Normal status")];
                    JObj [("c1", JStr "device_B"); ("i1", num 99);
                          ("t1", JStr "Warning triggered")]])]
    (db_changing (Some 1%Z))
  = ([Batch [Statement "INSERT INTO sensor_logs (c1,i1,t1) VALUES (?,?,?)"
                       [Some (JStr "device_A"); Some (num 42);
                        Some (JStr "Normal status")];
             Statement "INSERT INTO sensor_logs (c1,i1,t1) VALUES (?,?,?)"
                       [Some (JStr "device_B"); Some (num 99);
                        Some (JStr "Warning triggered")]]],
     Normal (Inserted 2)).
Proof.
  destruct (batch_post_one_batch no_exponent (db_changing (Some 1%Z))
              [("table_name", JStr "sensor_logs");
               ("data", JArr [JObj [("c1", JStr "device_A"); ("i1", num 42);
                                    ("t1", JStr "Normal status")];
                              JObj [("c1", JStr "device_B"); ("i1", num 99);
                                    ("t1", JStr "Warning triggered")]])]
              "sensor_logs"
              [JObj [("c1", JStr "device_A"); ("i1", num 42);
                     ("t1", JStr "Normal status")];
               JObj [("c1", JStr "device_B"); ("i1", num 99);
                     ("t1", JStr "Warning triggered")]]
              eq_refl eq_refl)
    as [sts [Hcalls _]].
  - intros r [<-|[<-|[]]]; discriminate.
  - reflexivity.
Defined.

(** A truthy [table_name] that is not a string (a number, [true], an array,
    an object) makes [resolveTableName] throw outside the handler's [try]:
    the request gets no reply from [handleApiRequest] and reaches no log
    line and no store call. *)
Theorem table_name_not_text_throws (src : listing) (D : Q -> string)
        (db : D1Database) (action : string) (payload : object) (v : json) :
  get payload "table_name" = Some v ->
  truthy (Some v) = true ->
  (forall s, v <> JStr s) ->
  exists e, handle src D db action payload = ([], Throw e).
Proof.
  intros Hv Ht Hs. eexists. apply handle_throws.
  unfold resolveTableName. rewrite Hv, Ht. cbn [negb].
  destruct v; try reflexivity. now elim (Hs s).
Qed.

Lemma table_name_not_text_throws_witness :
  exists e,
    handle Worker no_exponent (db_changing (Some 1%Z)) "post"
           [("table_name", num 5); ("c1", JStr "a")]
    = ([], Throw e).
Proof.
  apply (table_name_not_text_throws Worker no_exponent
           (db_changing (Some 1%Z)) "post"
           [("table_name", num 5); ("c1", JStr "a")] (num 5) eq_refl eq_refl).
  intros s H. discriminate H.
Defined.

(** ** The handler as a whole *)

Section WholeHandler.

Variable DoubleToString : Q -> string.
Variable db : D1Database.

(** Past the gate, the handler is its [switch] inside [try]/[catch]. *)
Lemma handle_resolved (src : listing) (action : string) (payload : object)
      (t : string) :
  resolveTableName payload = Normal (Some t) ->
  exists body,
    handle src DoubleToString db action payload = try_catch body on_error.
Proof.
  intros H. destruct src; unfold handle, IndexJs.handleApiRequest,
    UsageMd.handleApiRequest, lift, bind; rewrite H;
    match goal with
    | |- context [try_catch ?b on_error] => exists b
    end;
    destruct (try_catch _ _); reflexivity.
Qed.

Lemma try_catch_on_error_returns (body : M reply) :
  exists r, outcome (try_catch body on_error) = Normal r.
Proof.
  destruct body as [tr [r|e]]; eexists; reflexivity.
Qed.

Lemma resolve_throws_iff (payload : object) :
  (exists e, resolveTableName payload = Throw e)
  <-> table_name_not_text payload.
Proof.
  unfold resolveTableName, table_name_not_text. split.
  - intros [e H].
    destruct (get payload "table_name") as [v|] eqn:Hv; [|discriminate H].
    destruct (truthy (Some v)) eqn:Ht; [|discriminate H].
    exists v. split; [reflexivity|]. split; [exact Ht|].
    intros s ->. cbn [negb] in H.
    destruct (trim s =? ""); [discriminate H|].
    destruct (Set_has FORBIDDEN_TABLES (trim s)); discriminate H.
  - intros [v [-> [Ht Hs]]]. rewrite Ht. cbn [negb].
    destruct v; try (eexists; reflexivity). now elim (Hs s).
Qed.

End WholeHandler.

(** [handleApiRequest] throws exactly when [table_name] is truthy and not a
    string; in every other case it resolves to a reply: whatever is thrown
    past the gate, by the store or by the case itself, is caught and turned
    into [{ error }]. *)
Theorem handler_throws_only_at_the_gate (src : listing) (D : Q -> string)
        (db : D1Database) (action : string) (payload : object) :
  (exists e, outcome (handle src D db action payload) = Throw e)
  <-> table_name_not_text payload.
Proof.
  rewrite <- resolve_throws_iff.
  destruct (resolveTableName payload) as [[t|]|e] eqn:Hr.
  - destruct (handle_resolved D db src action payload t Hr) as [body ->].
    destruct (try_catch_on_error_returns body) as [r ->].
    split; intros [e H]; discriminate H.
  - rewrite (handle_unresolved D db src action payload Hr).
    split; intros [e H]; discriminate H.
  - rewrite (handle_throws D db src action payload e Hr).
    split; intros _; now exists e.
Qed.

(** A request makes at most one call to the store, whatever the action and
    the payload, in both listings. *)
Theorem single_round_trip (src : listing) (D : Q -> string)
        (db : D1Database) (action : string) (payload : object) :
  (length (store_calls (trace (handle src D db action payload))) <= 1)%nat.
Proof.
  destruct src; open_cases; split_cases;
    cbn [fst snd app store_calls filter is_store_call length]; lia.
Qed.

(** When the one store call of a request is rejected with [msg]: [exec]
    answers "SQL Execution Error: msg" and logs nothing; every other action
    answers [{ error: msg }] and its last event is the log line
    "DB operation failed: msg", right after the rejected call. *)
Theorem store_failure_is_reported (src : listing) (D : Q -> string)
        (db : D1Database) (action : string) (payload : object)
        (e : event) (msg : string) :
  In e (trace (handle src D db action payload)) ->
  thrown_by db e = Some msg ->
  (src = Rack /\ action = "exec" ->
   handle src D db action payload
   = ([e], Normal (Error ("SQL Execution Error: " ++ msg))))
  /\ (~ (src = Rack /\ action = "exec") ->
      outcome (handle src D db action payload) = Normal (Error msg)
      /\ exists before,
          trace (handle src D db action payload)
          = (before ++ [e; Log ("DB operation failed: " ++ msg)])%list).
Proof.
  destruct src; open_cases; split_cases; cbn [fst snd app In];
    intros Hin Hthrown; pick_event; try subst e;
    cbn [negb app] in *; try congruence; use_answer Hthrown.
  all: (split;
        [ intros [Hsrc Hact]; first [ discriminate Hsrc | reflexivity
                                    | by_action; congruence ]
        | intros Hnot; first [ split; [reflexivity|];
                               first [ exists []; reflexivity
                                     | eexists [_]; reflexivity ]
                             | by_action; elim Hnot; split; congruence ] ]).
Qed.

Lemma store_failure_is_reported_witness :
  (outcome (handle Worker no_exponent (db_failing "D1_ERROR: no such table")
                   "delete" [("table_name", JStr "sensor_logs")])
   = Normal (Error "D1_ERROR: no such table")
   /\ exists before,
       trace (handle Worker no_exponent
                     (db_failing "D1_ERROR: no such table")
                     "delete" [("table_name", JStr "sensor_logs")])
       = (before ++ [Run (Statement "DELETE FROM sensor_logs" []);
                     Log "DB operation failed: D1_ERROR: no such table"])%list)
  /\ handle Rack no_exponent (db_failing "D1_ERROR: syntax error") "exec"
            [("table_name", JStr "sensor_logs"); ("query", JStr "SELEC 1")]
     = ([All (Statement "SELEC 1" [])],
        Normal (Error "SQL Execution Error: D1_ERROR: syntax error")).
Proof.
  split.
  - refine (proj2 (store_failure_is_reported Worker no_exponent
                     (db_failing "D1_ERROR: no such table") "delete"
                     [("table_name", JStr "sensor_logs")]
                     (Run (Statement "DELETE FROM sensor_logs" []))
                     "D1_ERROR: no such table"
                     (or_intror (or_introl eq_refl)) eq_refl) _).
    intros [Hsrc _]. discriminate Hsrc.
  - exact (proj1 (store_failure_is_reported Rack no_exponent
                    (db_failing "D1_ERROR: syntax error") "exec"
                    [("table_name", JStr "sensor_logs");
                     ("query", JStr "SELEC 1")]
                    (All (Statement "SELEC 1" []))
                    "D1_ERROR: syntax error"
                    (or_introl eq_refl) eq_refl)
                 (conj eq_refl eq_refl)).
Defined.

(** Past the gate, an action name for which the listing has no [case] is
    answered with "Unknown action: <name>", without a log line or a store
    call; the worker has no [case] for the rack's table, index, batch and
    raw-statement actions. *)
Theorem unknown_action_is_an_error (src : listing) (D : Q -> string)
        (db : D1Database) (action : string) (payload : object) (t : string) :
  resolveTableName payload = Normal (Some t) ->
  ~ In action (actions_of src) ->
  handle src D db action payload
  = ([], Normal (Error ("Unknown action: " ++ action))).
Proof.
  intros Hr Hnone.
  destruct src; unfold handle, IndexJs.handleApiRequest,
    UsageMd.handleApiRequest, lift, bind; rewrite Hr;
    repeat match goal with
           | |- context [action =? ?n] =>
               replace (action =? n) with false
                 by (symmetry; apply String.eqb_neq; intros ->;
                     apply Hnone; simpl; tauto)
           end;
    reflexivity.
Qed.

Lemma unknown_action_is_an_error_witness :
  handle Worker no_exponent (db_changing (Some 1%Z)) "batch_post"
         [("table_name", JStr "sensor_logs");
          ("data", JArr [JObj [("c1", JStr "device_A")]])]
  = ([], Normal (Error "Unknown action: batch_post")).
Proof.
  apply (unknown_action_is_an_error Worker no_exponent
           (db_changing (Some 1%Z)) "batch_post"
           [("table_name", JStr "sensor_logs");
            ("data", JArr [JObj [("c1", JStr "device_A")]])]
           "sensor_logs" eq_refl).
  not_listed.
Defined.

(** ** The statements of the four data actions *)

Section Statements.

Variable DoubleToString : Q -> string.
Variable allowedColumns : list string.
Variable db : D1Database.
Variable tableName : string.
Variable payload : object.

Lemma all_keys_allowed (keys : list string) :
  (0 <? length (filter (not_allowed allowedColumns) keys))%nat = false ->
  forall k, In k keys -> In k allowedColumns.
Proof.
  intros H k Hk.
  destruct (includes_key allowedColumns k) eqn:Hi.
  - now apply includes_key_In.
  - rewrite (filter_nonempty (not_allowed allowedColumns) keys k Hk) in H.
    + discriminate H.
    + unfold not_allowed. now rewrite Hi.
Qed.

Lemma Object_keys_filter (f : string -> bool) (o : object) :
  Object_keys (filter (fun kv => f (fst kv)) o) = filter f (Object_keys o).
Proof.
  unfold Object_keys. induction o as [|[k v] o IH]; [reflexivity|].
  simpl. destruct (f k); simpl; now rewrite IH.
Qed.

(** The one store call [post] can make. *)
Lemma case_post_call (e : event) :
  In e (trace (try_catch (case_post allowedColumns db tableName payload)
                         on_error)) ->
  is_store_call e = true ->
  let keys := filter not_table_name (Object_keys payload) in
  e = Run (Statement
             ("INSERT INTO " ++ tableName ++ " (" ++ join "," keys
              ++ ") VALUES (" ++ join "," (map (fun _ => "?") keys) ++ ")")
             (map (fun k => get payload k) keys))
  /\ forall k, In k keys -> In k allowedColumns.
Proof.
  unfold case_post. cbv zeta.
  destruct (0 <? length _)%nat eqn:Hvalid; [intros []|].
  unfold on_error, bind, await_run, try_catch, ret, errDelegate, trace.
  destruct (d1_run db _); cbn [fst app In]; intros Hin Hcall; pick_event;
    subst e; try discriminate Hcall;
    (split; [reflexivity | exact (all_keys_allowed _ Hvalid)]).
Qed.

(** The one store call [put] can make. *)
Lemma case_put_call (e : event) :
  In e (trace (try_catch
                 (case_put DoubleToString allowedColumns db tableName payload)
                 on_error)) ->
  is_store_call e = true ->
  let keysPut :=
    filter (fun k => not_table_name k && negb (k =? "id"))
           (Object_keys payload) in
  truthy (get payload "id") = true
  /\ (forall k, In k keysPut -> In k allowedColumns)
  /\ ((keysPut = []
       /\ e = Run (Statement
                     ("UPDATE " ++ tableName
                      ++ " SET v2 = CURRENT_TIMESTAMP WHERE id = ?")
                     [get payload "id"]))
      \/ (keysPut <> []
          /\ e = Run (Statement
                        ("UPDATE " ++ tableName ++ " SET "
                         ++ join ", " (map (fun k => k ++ " = ?") keysPut)
                         ++ ", v2 = CURRENT_TIMESTAMP WHERE id = ?")
                        (map (fun k => get payload k) keysPut
                           ++ [get payload "id"])%list))).
Proof.
  unfold case_put.
  destruct (truthy (get payload "id")) eqn:Hid; cbn [negb]; [|intros []].
  cbv zeta.
  destruct (0 <? length _)%nat eqn:Hvalid; [intros []|].
  destruct (length _ =? 0)%nat eqn:Hlen;
    unfold on_error, bind, await_run, try_catch, ret, errDelegate, lift,
      trace;
    destruct (d1_run db _) as [r|msg]; try destruct (changes_is_zero r);
    try destruct (ToString DoubleToString _);
    cbn [fst app In]; intros Hin Hcall; pick_event; subst e;
    try discriminate Hcall;
    (split; [reflexivity|]; split; [exact (all_keys_allowed _ Hvalid)|]).
  all: match goal with
       | H : (length ?l =? 0)%nat = true |- _ =>
           left; destruct l; [split; reflexivity | discriminate H]
       | H : (length ?l =? 0)%nat = false |- _ =>
           right; destruct l; [discriminate H | split; [discriminate | reflexivity]]
       end.
Qed.

(** The one store call [delete] can make. *)
Lemma case_delete_call (e : event) :
  In e (trace (try_catch (case_delete allowedColumns db tableName payload)
                         on_error)) ->
  is_store_call e = true ->
  let keys := filter not_table_name (Object_keys payload) in
  (forall k, In k keys -> In k allowedColumns)
  /\ ((keys = []
       /\ e = Run (Statement ("DELETE FROM " ++ tableName) []))
      \/ (keys <> []
          /\ e = Run (Statement
                        ("DELETE FROM " ++ tableName ++ " WHERE "
                         ++ join " AND " (map (fun k => k ++ " = ?") keys))
                        (map (fun k => get payload k) keys)))).
Proof.
  unfold case_delete. cbv zeta.
  destruct (0 <? length _)%nat eqn:Hvalid; [intros []|].
  destruct (length _ =? 0)%nat eqn:Hlen;
    unfold on_error, bind, await_run, try_catch, ret, errDelegate, trace;
    destruct (d1_run db _) as [r|msg];
    cbn [fst app In]; intros Hin Hcall; pick_event; subst e;
    try discriminate Hcall;
    (split; [exact (all_keys_allowed _ Hvalid)|]).
  all: match goal with
       | H : (length ?l =? 0)%nat = true |- _ =>
           left; destruct l; [split; reflexivity | discriminate H]
       | H : (length ?l =? 0)%nat = false |- _ =>
           right; destruct l; [discriminate H | split; [discriminate | reflexivity]]
       end.
Qed.

End Statements.

Section Statements2.

Variable DoubleToString : Q -> string.
Variable allowedColumns : list string.
Variable db : D1Database.
Variable tableName : string.
Variable payload : object.

Lemma filter_keys_not_table_name (k : string) :
  In k (filter_keys payload) -> k <> "table_name".
Proof.
  unfold filter_keys. intros H. apply filter_In in H. destruct H as [H _].
  apply filter_In in H. destruct H as [_ H]. now apply not_table_name_true.
Qed.

(** The one store call [get] can make. *)
Lemma case_get_call (e : event) :
  In e (trace (try_catch
                 (case_get allowedColumns db tableName payload)
                 on_error)) ->
  is_store_call e = true ->
  let col :=
    if Array_includes allowedColumns (get payload "orderby")
    then string_of (get payload "orderby") else "id" in
  let dir :=
    if is_string (get payload "order") "desc" then "DESC" else "ASC" in
  let conditions :=
    (map (fun k => (k ++ " = ?")%string) (filter_keys payload)
     ++ map (fun _ : value =>
               (col ++ " " ++ (if dir =? "ASC" then ">" else "<") ++ " ?")
               %string)
            (page_bound payload))%list in
  (forall k, In k (filter_keys payload) -> In k allowedColumns)
  /\ e = All (Statement
                (((if (0 <? length conditions)%nat
                   then ("SELECT * FROM " ++ tableName)
                        ++ " WHERE " ++ join " AND " conditions
                   else "SELECT * FROM " ++ tableName)
                  ++ " ORDER BY " ++ col ++ " " ++ dir)
                 ++ " LIMIT " ++ decimal (get_limit (get payload "limit")))
                (map (fun k => get payload k) (filter_keys payload)
                   ++ page_bound payload)%list).
Proof.
  unfold case_get. cbv zeta.
  rewrite Object_keys_filter. fold (filter_keys payload).
  destruct (find _ _) eqn:Hfind; [intros []|].
  destruct (is_defined _ && is_defined _); [intros []|].
  rewrite !get_options by discriminate.
  rewrite (map_ext_in (fun k => get (filter _ payload) k)
                      (fun k => get payload k)).
  2:{ intros k Hk. apply get_options.
      now apply filter_keys_not_table_name. }
  assert (forall k, In k (filter_keys payload) -> In k allowedColumns) as Hok.
  { intros k Hk. apply includes_key_In.
    pose proof (find_none _ _ Hfind k Hk) as Hn. unfold not_allowed in Hn.
    now apply negb_false_iff in Hn. }
  unfold page_bound.
  destruct (not_nullish (get payload "offset"));
    [|destruct (not_nullish (get payload "minId"))];
    unfold on_error, bind, await_all, try_catch, ret, errDelegate, trace;
    destruct (d1_all db _) as [r|msg];
    cbn [fst app In map]; rewrite ?app_nil_r;
    intros Hin Hcall; pick_event; subst e; try discriminate Hcall;
    (split; [exact Hok | reflexivity]).
Qed.

End Statements2.

Section DataActions.

Variable D : Q -> string.
Variable db : D1Database.

Lemma store_call_needs_table (src : listing) (action : string)
      (payload : object) (e : event) :
  In e (trace (handle src D db action payload)) ->
  is_store_call e = true ->
  exists t, resolveTableName payload = Normal (Some t).
Proof.
  intros Hin Hcall.
  destruct (resolveTableName payload) as [[t|]|msg] eqn:Hr.
  - now exists t.
  - rewrite (handle_unresolved D db src action payload Hr) in Hin.
    destruct Hin as [<-|[]]. discriminate Hcall.
  - rewrite (handle_throws D db src action payload msg Hr) in Hin.
    destruct Hin.
Qed.

End DataActions.

(** Every query a [get] request sends is
    SELECT * FROM <table> [WHERE ...] ORDER BY <column> <direction> LIMIT <n>:
    one equality per filter key of the payload, in payload order, then at
    most one pagination bound on the sort column ([>] ascending, [<]
    descending); the values are bound in the same order.  The sort column is
    the requested [orderby] when that is a whitelisted column and [id] in
    every other case, and the direction is DESC only for [order] equal to
    "desc": an unusable [orderby] or [order] is replaced, not rejected. *)
Theorem get_query_shape (src : listing) (D : Q -> string) (db : D1Database)
        (payload : object) (st : statement) :
  In (All st) (trace (handle src D db "get" payload)) ->
  exists (t col dir cmp : string) (L : Z),
    resolveTableName payload = Normal (Some t)
    /\ sql st
       = "SELECT * FROM " ++ t
         ++ where_clause
              (map (fun k => (k ++ " = ?")%string) (filter_keys payload)
               ++ map (fun _ : value => (col ++ " " ++ cmp ++ " ?")%string)
                      (page_bound payload))%list
         ++ " ORDER BY " ++ col ++ " " ++ dir ++ " LIMIT " ++ decimal L
    /\ binds st
       = (map (fun k => get payload k) (filter_keys payload)
          ++ page_bound payload)%list
    /\ (forall k, In k (filter_keys payload) -> In k (columns_of src))
    /\ (col = "id" \/ In col (columns_of src))
    /\ (forall c, get payload "orderby" = Some (JStr c) ->
                  In c (columns_of src) -> col = c)
    /\ ((forall c, get payload "orderby" = Some (JStr c) ->
                   ~ In c (columns_of src)) -> col = "id")
    /\ ((get payload "order" = Some (JStr "desc")
         /\ dir = "DESC" /\ cmp = "<")
        \/ (get payload "order" <> Some (JStr "desc")
            /\ dir = "ASC" /\ cmp = ">")).
Proof.
  intros Hin.
  destruct (store_call_needs_table D db src "get" payload _ Hin eq_refl)
    as [t Hr].
  rewrite (handle_get D db src payload t Hr) in Hin.
  destruct (case_get_call (columns_of src) db t payload _ Hin eq_refl)
    as [Hok Hst].
  pose proof (f_equal (fun e => match e with All s => s | _ => st end) Hst)
    as Hst'.
  cbv beta iota in Hst'. clear Hst Hin. subst st.
  set (col := if Array_includes (columns_of src) (get payload "orderby")
              then string_of (get payload "orderby") else "id").
  set (dir := if is_string (get payload "order") "desc"
              then "DESC" else "ASC").
  exists t, col, dir, (if dir =? "ASC" then ">" else "<"),
    (get_limit (get payload "limit")).
  split; [exact Hr|]. split.
  { cbn [sql].
    destruct (map _ (filter_keys payload) ++ map _ (page_bound payload))%list
      as [|c0 cs]; cbn [length Nat.ltb Nat.leb where_clause];
      rewrite ?append_assoc; reflexivity. }
  split; [reflexivity|]. split; [exact Hok|].
  assert (Hcol : (exists c, get payload "orderby" = Some (JStr c)
                            /\ In c (columns_of src) /\ col = c)
                 \/ (col = "id"
                     /\ forall c, get payload "orderby" = Some (JStr c) ->
                                  ~ In c (columns_of src))).
  { subst col. destruct (get payload "orderby") as [[| | |c| |]|] eqn:Ho;
      try (right; split; [reflexivity | intros c' H; discriminate H]).
    cbn [Array_includes]. destruct (existsb (String.eqb c) _) eqn:Hc.
    - left. exists c. repeat split.
      now apply (includes_key_In (columns_of src) c).
    - right. split; [reflexivity|]. intros c' [= <-] Hin'.
      apply (includes_key_In (columns_of src) c) in Hin'.
      unfold includes_key, Array_includes in Hin'. congruence. }
  split.
  { destruct Hcol as [[c [_ [Hc ->]]]|[-> _]]; [now right | now left]. }
  split.
  { intros c Hc Hin'. destruct Hcol as [[c' [Hc' [_ ->]]]|[_ Hno]].
    - congruence.
    - now elim (Hno c Hc). }
  split.
  { intros Hno. destruct Hcol as [[c [Hc [Hin' _]]]|[-> _]]; [|reflexivity].
    now elim (Hno c Hc). }
  subst dir.
  destruct (get payload "order") as [[| | |o| |]|] eqn:Ho;
    try (right; split; [discriminate | split; reflexivity]).
  cbn [is_string]. destruct (o =? "desc") eqn:Hd.
  - apply String.eqb_eq in Hd. subst o. left. repeat split.
  - apply String.eqb_neq in Hd. right. split; [congruence|].
    split; reflexivity.
Qed.

Lemma get_query_shape_witness :
  exists t col dir cmp : string,
    resolveTableName sample_get = Normal (Some t)
    /\ (col = "id" \/ In col (columns_of Worker))
    /\ ((get sample_get "order" = Some (JStr "desc")
         /\ dir = "DESC" /\ cmp = "<")
        \/ (get sample_get "order" <> Some (JStr "desc")
            /\ dir = "ASC" /\ cmp = ">")).
Proof.
  destruct (get_query_shape Worker no_exponent (db_changing (Some 1%Z))
              sample_get sample_get_statement (or_introl eq_refl))
    as [t [col [dir [cmp [L [Hr [_ [_ [_ [Hcol [_ [_ Hdir]]]]]]]]]]]].
  exists t, col, dir, cmp. split; [exact Hr|]. split; [exact Hcol | exact Hdir].
Defined.

(** ** Placeholders and bound values *)

Section Placeholders.

Lemma placeholders_app (a b : string) :
  placeholders (a ++ b) = (placeholders a + placeholders b)%nat.
Proof.
  induction a as [|c a IH]; [reflexivity|].
  simpl. rewrite IH. lia.
Qed.

Lemma placeholders_join (sep : string) (n : nat) (xs : list string) :
  placeholders sep = 0%nat ->
  (forall x, In x xs -> placeholders x = n) ->
  placeholders (join sep xs) = (n * length xs)%nat.
Proof.
  intros Hsep. unfold join.
  induction xs as [|x xs IH]; intros Hx; [simpl; lia|].
  destruct xs as [|y xs].
  - simpl. rewrite (Hx x (or_introl eq_refl)). lia.
  - change (String.concat sep (x :: y :: xs))
      with (x ++ sep ++ String.concat sep (y :: xs)).
    rewrite !placeholders_app, Hsep, IH, (Hx x (or_introl eq_refl)).
    + cbn [length]. lia.
    + intros z Hz. apply Hx. now right.
Qed.

Lemma placeholders_column (src : listing) (k : string) :
  In k (columns_of src) -> placeholders k = 0%nat.
Proof.
  destruct src; simpl; intros H; pick_event; subst k; reflexivity.
Qed.

Lemma placeholders_limit (L : Z) :
  (1 <= L <= 500)%Z -> placeholders (decimal L) = 0%nat.
Proof.
  intros HL.
  assert (forallb (fun n => Nat.eqb (placeholders (decimal (Z.of_nat n))) 0)
                  (seq 1 500) = true) as Hall by (vm_compute; reflexivity).
  rewrite forallb_forall in Hall.
  specialize (Hall (Z.to_nat L)).
  rewrite Z2Nat.id in Hall by lia.
  apply Nat.eqb_eq, Hall, in_seq. lia.
Qed.

Lemma placeholders_assignments (src : listing) (keys : list string) :
  (forall k, In k keys -> In k (columns_of src)) ->
  forall x, In x (map (fun k => k ++ " = ?") keys) ->
            placeholders x = 1%nat.
Proof.
  intros Hok x Hx. apply in_map_iff in Hx. destruct Hx as [k [<- Hk]].
  rewrite placeholders_app, (placeholders_column src k (Hok k Hk)).
  reflexivity.
Qed.

Lemma placeholders_marks (keys : list string) :
  forall x, In x (map (fun _ : string => "?") keys) -> placeholders x = 1%nat.
Proof.
  intros x Hx. apply in_map_iff in Hx. destruct Hx as [k [<- _]]. reflexivity.
Qed.

Lemma placeholders_keys (src : listing) (keys : list string) :
  (forall k, In k keys -> In k (columns_of src)) ->
  forall x, In x keys -> placeholders x = 0%nat.
Proof. intros Hok x Hx. exact (placeholders_column src x (Hok x Hx)). Qed.

End Placeholders.

Lemma statement_of_run (s st : statement) :
  statement_of (Run s) = Some st -> st = s.
Proof. intros [= <-]. reflexivity. Qed.

Lemma statement_of_all (s st : statement) :
  statement_of (All s) = Some st -> st = s.
Proof. intros [= <-]. reflexivity. Qed.

(** In every statement [post], [put], [get] and [delete] send to the store,
    the number of [?] placeholders equals the number of bound values, for a
    table name that has no [?] in it. *)
Theorem placeholders_match_binds (src : listing) (D : Q -> string)
        (db : D1Database) (action : string) (payload : object)
        (e : event) (st : statement) :
  In action ["post"; "put"; "get"; "delete"] ->
  In e (trace (handle src D db action payload)) ->
  statement_of e = Some st ->
  (forall t, resolveTableName payload = Normal (Some t) ->
             placeholders t = 0%nat) ->
  placeholders (sql st) = length (binds st).
Proof.
  intros Haction Hin Hst Htable.
  assert (is_store_call e = true) as Hcall by (destruct e; try discriminate Hst; reflexivity).
  destruct (store_call_needs_table D db src action payload e Hin Hcall)
    as [t Hr].
  pose proof (Htable t Hr) as Ht.
  destruct Haction as [<-|[<-|[<-|[<-|[]]]]].
  - rewrite (handle_post D db src payload t Hr) in Hin.
    destruct (case_post_call (columns_of src) db t payload e Hin Hcall)
      as [-> Hok].
    apply statement_of_run in Hst. subst st. cbn [sql binds].
    rewrite !placeholders_app, Ht.
    rewrite (placeholders_join "," 0 _ eq_refl (placeholders_keys src _ Hok)).
    rewrite (placeholders_join "," 1 _ eq_refl (placeholders_marks _)).
    rewrite !length_map. cbn [placeholders Ascii.eqb Bool.eqb]. lia.
  - rewrite (handle_put D db src payload t Hr) in Hin.
    destruct (case_put_call D (columns_of src) db t payload e Hin Hcall)
      as [_ [Hok [[Hnil ->]|[_ ->]]]];
      apply statement_of_run in Hst; subst st; cbn [sql binds].
    + rewrite !placeholders_app, Ht. reflexivity.
    + rewrite !placeholders_app, Ht.
      rewrite (placeholders_join ", " 1 _ eq_refl
                 (placeholders_assignments src _ Hok)).
      rewrite length_app, !length_map.
      cbn [placeholders Ascii.eqb Bool.eqb length]. lia.
  - rewrite (handle_get D db src payload t Hr) in Hin.
    destruct (case_get_call (columns_of src) db t payload e Hin Hcall)
      as [Hok ->].
    apply statement_of_all in Hst. subst st. cbn [sql binds].
    set (col := if Array_includes (columns_of src) (get payload "orderby")
                then string_of (get payload "orderby") else "id").
    set (dir := if is_string (get payload "order") "desc"
                then "DESC" else "ASC").
    assert (placeholders col = 0%nat) as Hcol.
    { subst col. destruct (get payload "orderby") as [[| | |c| |]|];
        try reflexivity.
      cbn [Array_includes]. destruct (existsb (String.eqb c) _) eqn:Hc;
        [|reflexivity].
      apply (placeholders_column src). cbn [ToString ToStringJson].
      now apply (includes_key_In (columns_of src) c). }
    assert (placeholders dir = 0%nat) as Hdir
        by (subst dir; destruct (is_string _ _); reflexivity).
    assert (placeholders (decimal (get_limit (get payload "limit"))) = 0%nat)
      as Hlimit by (apply placeholders_limit, get_limit_spec).
    rewrite !placeholders_app, Hcol, Hdir, Hlimit.
    match goal with
    | |- context [join " AND " ?c] => set (conds := c)
    end.
    assert (forall x, In x conds -> placeholders x = 1%nat) as Hconds.
    { intros x Hx. apply in_app_or in Hx. destruct Hx as [Hx|Hx].
      - exact (placeholders_assignments src _ Hok x Hx).
      - apply in_map_iff in Hx. destruct Hx as [v [<- _]].
        rewrite !placeholders_app, Hcol.
        destruct (dir =? "ASC"); reflexivity. }
    assert (length conds
            = length (map (fun k => get payload k) (filter_keys payload)
                        ++ page_bound payload)%list) as Hlen
        by (subst conds; now rewrite !length_app, !length_map).
    rewrite <- Hlen.
    destruct conds as [|c0 cs].
    + cbn [length Nat.ltb Nat.leb]. rewrite placeholders_app, Ht.
      reflexivity.
    + cbn [Nat.ltb Nat.leb length].
      rewrite !placeholders_app, Ht.
      rewrite (placeholders_join " AND " 1 _ eq_refl Hconds).
      cbn [placeholders Ascii.eqb Bool.eqb length]. lia.
  - rewrite (handle_delete D db src payload t Hr) in Hin.
    destruct (case_delete_call (columns_of src) db t payload e Hin Hcall)
      as [Hok [[Hnil ->]|[_ ->]]];
      apply statement_of_run in Hst; subst st; cbn [sql binds].
    + rewrite !placeholders_app, Ht. reflexivity.
    + rewrite !placeholders_app, Ht.
      rewrite (placeholders_join " AND " 1 _ eq_refl
                 (placeholders_assignments src _ Hok)).
      rewrite !length_map.
      cbn [placeholders Ascii.eqb Bool.eqb length]. lia.
Qed.

Lemma placeholders_match_binds_witness :
  placeholders (sql sample_get_statement)
  = length (binds sample_get_statement).
Proof.
  apply (placeholders_match_binds Worker no_exponent
           (db_changing (Some 1%Z)) "get" sample_get
           (All sample_get_statement) sample_get_statement).
  - simpl. tauto.
  - left. reflexivity.
  - reflexivity.
  - intros t [= <-]. reflexivity.
Defined.

Lemma resolve_ext (p1 p2 : object) :
  get p1 "table_name" = get p2 "table_name" ->
  resolveTableName p1 = resolveTableName p2.
Proof. unfold resolveTableName. now intros ->. Qed.

(** The text of the statement [post], [put], [get] or [delete] sends does
    not depend on the values of the payload's columns: two payloads with the
    same keys in the same order, the same [table_name] and the same query
    options give the same statement text, whatever their other values and
    whatever the store answers.  Column values only ever travel as bound
    parameters. *)
Theorem values_are_bound_not_spliced (src : listing) (D : Q -> string)
        (db1 db2 : D1Database) (action : string) (p1 p2 : object)
        (e1 e2 : event) :
  In action ["post"; "put"; "get"; "delete"] ->
  Object_keys p1 = Object_keys p2 ->
  (forall k, In k allowedQueryOptions -> get p1 k = get p2 k) ->
  In e1 (trace (handle src D db1 action p1)) ->
  In e2 (trace (handle src D db2 action p2)) ->
  is_store_call e1 = true ->
  is_store_call e2 = true ->
  sql_texts e1 = sql_texts e2.
Proof.
  intros Haction Hkeys Hopts Hin1 Hin2 Hcall1 Hcall2.
  destruct (store_call_needs_table D db1 src action p1 e1 Hin1 Hcall1)
    as [t Hr1].
  assert (resolveTableName p2 = Normal (Some t)) as Hr2.
  { rewrite <- Hr1. symmetry. apply resolve_ext, Hopts. simpl. tauto. }
  destruct Haction as [<-|[<-|[<-|[<-|[]]]]].
  - rewrite (handle_post D db1 src p1 t Hr1) in Hin1.
    rewrite (handle_post D db2 src p2 t Hr2) in Hin2.
    destruct (case_post_call (columns_of src) db1 t p1 e1 Hin1 Hcall1)
      as [-> _].
    destruct (case_post_call (columns_of src) db2 t p2 e2 Hin2 Hcall2)
      as [-> _].
    cbn [sql_texts sql]. now rewrite Hkeys.
  - rewrite (handle_put D db1 src p1 t Hr1) in Hin1.
    rewrite (handle_put D db2 src p2 t Hr2) in Hin2.
    destruct (case_put_call D (columns_of src) db1 t p1 e1 Hin1 Hcall1)
      as [_ [_ [[Hk1 ->]|[Hk1 ->]]]];
      destruct (case_put_call D (columns_of src) db2 t p2 e2 Hin2 Hcall2)
        as [_ [_ [[Hk2 ->]|[Hk2 ->]]]];
      rewrite Hkeys in Hk1; try contradiction;
      cbn [sql_texts sql]; now rewrite ?Hkeys.
  - rewrite (handle_get D db1 src p1 t Hr1) in Hin1.
    rewrite (handle_get D db2 src p2 t Hr2) in Hin2.
    destruct (case_get_call (columns_of src) db1 t p1 e1 Hin1 Hcall1)
      as [_ ->].
    destruct (case_get_call (columns_of src) db2 t p2 e2 Hin2 Hcall2)
      as [_ ->].
    cbn [sql_texts sql]. unfold filter_keys, page_bound. rewrite Hkeys.
    rewrite (Hopts "orderby"), (Hopts "order"), (Hopts "offset"),
      (Hopts "minId"), (Hopts "limit") by (simpl; tauto).
    reflexivity.
  - rewrite (handle_delete D db1 src p1 t Hr1) in Hin1.
    rewrite (handle_delete D db2 src p2 t Hr2) in Hin2.
    destruct (case_delete_call (columns_of src) db1 t p1 e1 Hin1 Hcall1)
      as [_ [[Hk1 ->]|[Hk1 ->]]];
      destruct (case_delete_call (columns_of src) db2 t p2 e2 Hin2 Hcall2)
        as [_ [[Hk2 ->]|[Hk2 ->]]];
      rewrite Hkeys in Hk1; try contradiction;
      cbn [sql_texts sql]; now rewrite ?Hkeys.
Qed.

Lemma values_are_bound_not_spliced_witness :
  sql_texts
    (Run (Statement "INSERT INTO sensor_logs (c1,t1) VALUES (?,?)"
                    [Some (JStr "device_A"); Some (JStr "ok")]))
  = sql_texts
      (Run (Statement "INSERT INTO sensor_logs (c1,t1) VALUES (?,?)"
                      [Some (JStr "x'); DROP TABLE sensor_logs; --");
                       Some JNull])).
Proof.
  apply (values_are_bound_not_spliced Worker no_exponent
           (db_changing (Some 1%Z)) (db_failing "busy") "post"
           [("table_name", JStr "sensor_logs"); ("c1", JStr "device_A");
            ("t1", JStr "ok")]
           [("table_name", JStr "sensor_logs");
            ("c1", JStr "x'); DROP TABLE sensor_logs; --"); ("t1", JNull)]).
  - left. reflexivity.
  - reflexivity.
  - intros k Hk. simpl in Hk. pick_event; subst k; reflexivity.
  - left. reflexivity.
  - left. reflexivity.
  - reflexivity.
  - reflexivity.
Defined.

(** A [delete] request with at least one key besides [table_name] never
    runs the unconditioned DELETE and never logs the wildcard warning: what
    it sends is DELETE FROM <table> WHERE k1 = ? AND k2 = ? ..., one
    equality per key in payload order, each key a whitelisted column, with
    the payload's values bound in the same order. *)
Theorem delete_with_filters (src : listing) (D : Q -> string)
        (db : D1Database) (payload : object) (t k : string) (e : event) :
  resolveTableName payload = Normal (Some t) ->
  In k (Object_keys payload) -> k <> "table_name" ->
  In e (trace (handle src D db "delete" payload)) ->
  e <> Log ("DELETE ALL from " ++ t)
  /\ (is_store_call e = true ->
      let keys := filter not_table_name (Object_keys payload) in
      e = Run (Statement
                 ("DELETE FROM " ++ t ++ " WHERE "
                  ++ join " AND " (map (fun k => k ++ " = ?") keys))
                 (map (fun k => get payload k) keys))
      /\ forall k, In k keys -> In k (columns_of src)).
Proof.
  intros Hr Hk Hn Hin.
  assert (In k (filter not_table_name (Object_keys payload))) as Hkeys
      by (apply filter_In; split; [exact Hk | now apply not_table_name_true]).
  split.
  - rewrite (handle_delete D db src payload t Hr) in Hin.
    intros ->. revert Hin. unfold case_delete. cbv zeta.
    destruct (0 <? length _)%nat; [intros []|].
    destruct (length _ =? 0)%nat eqn:Hlen.
    + destruct (filter not_table_name (Object_keys payload));
        [destruct Hkeys | discriminate Hlen].
    + unfold on_error, bind, await_run, try_catch, ret, errDelegate, trace.
      destruct (d1_run db _); cbn [fst app In]; intros Hin; pick_event;
        discriminate Hin.
  - intros Hcall.
    rewrite (handle_delete D db src payload t Hr) in Hin.
    destruct (case_delete_call (columns_of src) db t payload e Hin Hcall)
      as [Hok [[Hnil _]|[_ ->]]].
    + rewrite Hnil in Hkeys. destruct Hkeys.
    + split; [reflexivity | exact Hok].
Qed.

Lemma delete_with_filters_witness :
  Run (Statement "DELETE FROM sensor_logs WHERE c1 = ? AND i1 = ?"
                 [Some (JStr "device_A"); Some (num 42)])
  <> Log "DELETE ALL from sensor_logs"
  /\ forall k, In k ["c1"; "i1"] -> In k (columns_of Worker).
Proof.
  destruct (delete_with_filters Worker no_exponent (db_changing (Some 2%Z))
              [("table_name", JStr "sensor_logs"); ("c1", JStr "device_A");
               ("i1", num 42)]
              "sensor_logs" "c1"
              (Run (Statement "DELETE FROM sensor_logs WHERE c1 = ? AND i1 = ?"
                              [Some (JStr "device_A"); Some (num 42)]))
              eq_refl (or_intror (or_introl eq_refl)))
    as [Hlog Hcall].
  - discriminate.
  - left. reflexivity.
  - split; [exact Hlog|]. exact (proj2 (Hcall eq_refl)).
Defined.

(** Every UPDATE a [put] request sends sets [v2 = CURRENT_TIMESTAMP], is
    restricted by [WHERE id = ?] and binds [payload.id] last, after one
    value per assigned column; the assigned columns are the payload's keys
    other than [table_name] and [id], each a whitelisted column.  No [put]
    reaches the store without a truthy [id]. *)
Theorem put_is_keyed_by_id (src : listing) (D : Q -> string)
        (db : D1Database) (payload : object) (e : event) :
  In e (trace (handle src D db "put" payload)) ->
  is_store_call e = true ->
  let columns :=
    filter (fun k => not_table_name k && negb (k =? "id"))
           (Object_keys payload) in
  exists t assignments,
    resolveTableName payload = Normal (Some t)
    /\ truthy (get payload "id") = true
    /\ (forall k, In k columns -> In k (columns_of src))
    /\ e = Run (Statement
                  ("UPDATE " ++ t ++ " SET " ++ assignments
                   ++ "v2 = CURRENT_TIMESTAMP WHERE id = ?")
                  (map (fun k => get payload k) columns
                     ++ [get payload "id"])%list)
    /\ ((columns = [] /\ assignments = "")
        \/ (columns <> []
            /\ assignments
               = join ", " (map (fun k => k ++ " = ?") columns) ++ ", ")).
Proof.
  intros Hin Hcall columns.
  destruct (store_call_needs_table D db src "put" payload e Hin Hcall)
    as [t Hr].
  rewrite (handle_put D db src payload t Hr) in Hin.
  destruct (case_put_call D (columns_of src) db t payload e Hin Hcall)
    as [Hid [Hok [[Hnil ->]|[Hsome ->]]]]; fold columns in Hok.
  - exists t, "". fold columns in Hnil.
    split; [exact Hr|]. split; [exact Hid|]. split; [exact Hok|].
    rewrite Hnil. split; [reflexivity | left; split; reflexivity].
  - fold columns in Hsome.
    exists t, (join ", " (map (fun k => k ++ " = ?") columns) ++ ", ").
    split; [exact Hr|]. split; [exact Hid|]. split; [exact Hok|].
    split; [|right; split; [exact Hsome | reflexivity]].
    fold columns. rewrite append_assoc. reflexivity.
Qed.

Lemma put_is_keyed_by_id_witness :
  exists t assignments,
    resolveTableName [("table_name", JStr "sensor_logs"); ("id", num 1);
                      ("i1", num 105)] = Normal (Some t)
    /\ Run (Statement
              "UPDATE sensor_logs SET i1 = ?, v2 = CURRENT_TIMESTAMP WHERE id = ?"
              [Some (num 105); Some (num 1)])
       = Run (Statement
                ("UPDATE " ++ t ++ " SET " ++ assignments
                 ++ "v2 = CURRENT_TIMESTAMP WHERE id = ?")
                [Some (num 105); Some (num 1)]).
Proof.
  destruct (put_is_keyed_by_id Rack no_exponent (db_changing (Some 1%Z))
              [("table_name", JStr "sensor_logs"); ("id", num 1);
               ("i1", num 105)]
              (Run (Statement
                      "UPDATE sensor_logs SET i1 = ?, v2 = CURRENT_TIMESTAMP WHERE id = ?"
                      [Some (num 105); Some (num 1)]))
              (or_introl eq_refl) eq_refl)
    as [t [assignments [Hr [_ [_ [He _]]]]]].
  exists t, assignments. split; [exact Hr | exact He].
Defined.

(** ** Indices *)

Section Indices.

Variable D : Q -> string.
Variable db : D1Database.

Lemma handle_index (src : listing) (payload : object) (t : string) :
  resolveTableName payload = Normal (Some t) ->
  handle src D db "index" payload
  = try_catch (case_index (columns_of src) db t payload) on_error.
Proof.
  intros H. destruct src; unfold handle, IndexJs.handleApiRequest,
    UsageMd.handleApiRequest, lift, bind; rewrite H; simpl;
    destruct (try_catch _ _); reflexivity.
Qed.

Lemma handle_create_index (payload : object) (t : string) :
  resolveTableName payload = Normal (Some t) ->
  handle Rack D db "create_index" payload
  = try_catch (case_create_index D UsageMd.allowedColumns db t payload)
              on_error.
Proof.
  intros H. unfold handle, UsageMd.handleApiRequest, lift, bind.
  rewrite H. simpl. destruct (try_catch _ _). reflexivity.
Qed.

Lemma handle_drop_index (payload : object) (t : string) :
  resolveTableName payload = Normal (Some t) ->
  handle Rack D db "drop_index" payload
  = try_catch (case_drop_index D db t payload) on_error.
Proof.
  intros H. unfold handle, UsageMd.handleApiRequest, lift, bind.
  rewrite H. simpl. destruct (try_catch _ _). reflexivity.
Qed.

Lemma data_column_of (src : listing) (c : string) :
  Array_includes (columns_of src) (Some (JStr c)) = true ->
  (c =? "id") = false -> In c dataColumns.
Proof.
  intros Hc Hid. apply (includes_key_In (columns_of src) c) in Hc.
  apply String.eqb_neq in Hid.
  destruct src; [exact Hc|]. destruct Hc as [Hc|Hc]; [congruence | exact Hc].
Qed.

Lemma append_cancel (a b c : string) : a ++ b = a ++ c -> b = c.
Proof.
  induction a as [|x a IH]; simpl; [trivial|]. intros [= H]. now apply IH.
Qed.

Lemma append_length (a b : string) :
  String.length (a ++ b) = (String.length a + String.length b)%nat.
Proof. induction a as [|x a IH]; simpl; [reflexivity | now rewrite IH]. Qed.

End Indices.

(** [drop_index] puts any non-empty column text into its one statement. *)
Lemma drop_index_call (D : Q -> string) (db : D1Database) (payload : object)
      (t c : string) :
  resolveTableName payload = Normal (Some t) ->
  get payload "column" = Some (JStr c) ->
  c <> "" ->
  exists rest,
    trace (handle Rack D db "drop_index" payload)
    = Run (Statement
             ("DROP INDEX IF EXISTS " ++ ("idx_" ++ t ++ "_" ++ c)) [])
        :: rest
    /\ store_calls rest = [].
Proof.
  intros Hr Hcol Hne.
  assert (truthy (Some (JStr c)) = true) as Htruthy
      by (cbn [truthy]; now apply negb_true_iff, String.eqb_neq).
  rewrite (handle_drop_index D db payload t Hr).
  unfold case_drop_index. cbv zeta. rewrite Hcol, Htruthy. cbn [negb].
  unfold on_error, bind, lift, await_run, try_catch, ret, errDelegate, trace.
  cbn [ToString ToStringJson].
  destruct (d1_run db _); cbn [fst app]; eexists; split; reflexivity.
Qed.

(** The action [index] creates an index only on a string column of the
    whitelist other than [id] (in the rack too, whose whitelist has [id]):
    its one store call is [db.exec] of CREATE INDEX IF NOT EXISTS
    idx_<table>__<column> ON <table> (<column>), and when that call
    succeeds the handler logs "INDEX created: <table>.<column>" after it
    and replies [{ indexed: column }]. *)
Theorem index_action (src : listing) (D : Q -> string) (db : D1Database)
        (payload : object) (e : event) :
  In e (trace (handle src D db "index" payload)) ->
  is_store_call e = true ->
  exists t c,
    resolveTableName payload = Normal (Some t)
    /\ get payload "column" = Some (JStr c)
    /\ In c dataColumns
    /\ e = Exec ("CREATE INDEX IF NOT EXISTS " ++ ("idx_" ++ t ++ "__" ++ c)
                 ++ " ON " ++ t ++ " (" ++ c ++ ")")
    /\ (thrown_by db e = None ->
        handle src D db "index" payload
        = ([e; Log ("INDEX created: " ++ t ++ "." ++ c)],
           Normal (Indexed c))).
Proof.
  intros Hin Hcall.
  destruct (store_call_needs_table D db src "index" payload e Hin Hcall)
    as [t Hr].
  rewrite (handle_index D db src payload t Hr) in Hin |- *.
  exists t. revert Hin. unfold case_index.
  destruct (get payload "column") as [[| | |c| |]|]; try (intros []).
  exists c. revert Hin.
  destruct (negb (truthy (Some (JStr c)))); [intros []|].
  destruct (Array_includes (columns_of src) (Some (JStr c))) eqn:Hc;
    cbn [negb orb]; [|intros []].
  destruct (c =? "id") eqn:Hid; [intros []|].
  unfold on_error, bind, await_exec, try_catch, ret, errDelegate, trace.
  destruct (d1_exec db _) as [[]|msg] eqn:Hexec; cbn [fst app In];
    intros Hin; pick_event; subst e; try discriminate Hcall;
    (split; [exact Hr|]; split; [reflexivity|];
     split; [exact (data_column_of src c Hc Hid)|];
     split; [reflexivity|]);
    cbn [thrown_by]; rewrite Hexec; [reflexivity | discriminate].
Qed.

Lemma index_action_witness :
  exists t c,
    resolveTableName [("table_name", JStr "sensor_logs");
                      ("column", JStr "i1")] = Normal (Some t)
    /\ In c dataColumns
    /\ handle Rack no_exponent (db_changing (Some 1%Z)) "index"
              [("table_name", JStr "sensor_logs"); ("column", JStr "i1")]
       = ([Exec "CREATE INDEX IF NOT EXISTS idx_sensor_logs__i1 ON sensor_logs (i1)";
           Log ("INDEX created: " ++ t ++ "." ++ c)],
          Normal (Indexed c)).
Proof.
  destruct (index_action Rack no_exponent (db_changing (Some 1%Z))
              [("table_name", JStr "sensor_logs"); ("column", JStr "i1")]
              (Exec "CREATE INDEX IF NOT EXISTS idx_sensor_logs__i1 ON sensor_logs (i1)")
              (or_introl eq_refl) eq_refl)
    as [t [c [Hr [_ [Hc [_ Hok]]]]]].
  exists t, c. split; [exact Hr|]. split; [exact Hc | exact (Hok eq_refl)].
Defined.

(** In the rack, [create_index] and [drop_index] agree on the index name
    idx_<table>_<column>: what [create_index] creates for a column,
    [drop_index] with the same column drops.  [create_index] accepts only a
    whitelisted column; [drop_index] takes any non-empty column text and
    puts it into the statement unchecked.  The name the action [index]
    gives the same table and column, with its double underscore, is a
    different one, so [drop_index] with that column does not name it; it is
    the name [drop_index] builds for the column text "_<column>". *)
Theorem index_names (D : Q -> string) (db : D1Database)
        (payload : object) (t c : string) :
  resolveTableName payload = Normal (Some t) ->
  get payload "column" = Some (JStr c) ->
  c <> "" ->
  (forall e,
      In e (trace (handle Rack D db "create_index" payload)) ->
      is_store_call e = true ->
      In c UsageMd.allowedColumns
      /\ exists unique,
          (unique = "" \/ unique = "UNIQUE")
          /\ e = Run (Statement
                        ("CREATE " ++ unique ++ " INDEX IF NOT EXISTS "
                         ++ ("idx_" ++ t ++ "_" ++ c)
                         ++ " ON " ++ t ++ " (" ++ c ++ ")") []))
  /\ (exists rest,
         trace (handle Rack D db "drop_index" payload)
         = Run (Statement
                  ("DROP INDEX IF EXISTS " ++ ("idx_" ++ t ++ "_" ++ c)) [])
             :: rest
         /\ store_calls rest = [])
  /\ "idx_" ++ t ++ "__" ++ c <> "idx_" ++ t ++ "_" ++ c
  /\ (forall other,
         resolveTableName other = Normal (Some t) ->
         get other "column" = Some (JStr ("_" ++ c)) ->
         exists rest,
           trace (handle Rack D db "drop_index" other)
           = Run (Statement
                    ("DROP INDEX IF EXISTS " ++ ("idx_" ++ t ++ "__" ++ c))
                    [])
               :: rest
           /\ store_calls rest = []).
Proof.
  intros Hr Hcol Hne.
  assert (truthy (Some (JStr c)) = true) as Htruthy
      by (cbn [truthy]; now apply negb_true_iff, String.eqb_neq).
  split; [|split; [|split]].
  - intros e Hin Hcall.
    rewrite (handle_create_index D db payload t Hr) in Hin.
    revert Hin. unfold case_create_index. cbv zeta.
    rewrite Hcol, Htruthy. cbn [negb orb].
    destruct (Array_includes UsageMd.allowedColumns (Some (JStr c))) eqn:Hc;
      cbn [negb].
    2:{ unfold on_error, bind, lift, try_catch, ret, errDelegate, trace.
        cbn [ToString ToStringJson fst app]. intros []. }
    unfold on_error, bind, await_run, try_catch, ret, errDelegate, trace.
    cbn [string_of].
    destruct (d1_run db _); cbn [fst app In]; intros Hin; pick_event;
      subst e; try discriminate Hcall;
      (split; [now apply (includes_key_In UsageMd.allowedColumns c)|]);
      exists (if truthy (get payload "unique") then "UNIQUE" else "");
      (split; [destruct (truthy (get payload "unique")); [right|left];
                 reflexivity
              | reflexivity]).
  - exact (drop_index_call D db payload t c Hr Hcol Hne).
  - intros H.
    apply (append_cancel "idx_") in H. apply append_cancel in H.
    apply (append_cancel "_") in H.
    apply (f_equal String.length) in H. simpl in H. lia.
  - intros other Hr' Hcol'.
    exact (drop_index_call D db other t ("_" ++ c) Hr' Hcol'
             ltac:(discriminate)).
Qed.

Lemma index_names_witness :
  "idx_" ++ "sensor_logs" ++ "__" ++ "i1"
  <> "idx_" ++ "sensor_logs" ++ "_" ++ "i1"
  /\ (exists rest,
         trace (handle Rack no_exponent (db_changing (Some 1%Z)) "drop_index"
                       [("table_name", JStr "sensor_logs");
                        ("column", JStr "i1")])
         = Run (Statement
                  ("DROP INDEX IF EXISTS "
                   ++ ("idx_" ++ "sensor_logs" ++ "_" ++ "i1"))
                  [])
             :: rest
         /\ store_calls rest = [])
  /\ exists rest,
      trace (handle Rack no_exponent (db_changing (Some 1%Z)) "drop_index"
                    [("table_name", JStr "sensor_logs");
                     ("column", JStr "_i1")])
      = Run (Statement
               ("DROP INDEX IF EXISTS "
                ++ ("idx_" ++ "sensor_logs" ++ "__" ++ "i1"))
               [])
          :: rest
      /\ store_calls rest = [].
Proof.
  destruct (index_names no_exponent (db_changing (Some 1%Z))
              [("table_name", JStr "sensor_logs"); ("column", JStr "i1")]
              "sensor_logs" "i1" eq_refl eq_refl)
    as [_ [Hdrop [Hdiff Hother]]].
  - discriminate.
  - split; [exact Hdiff|]. split; [exact Hdrop|].
    exact (Hother [("table_name", JStr "sensor_logs");
                   ("column", JStr "_i1")] eq_refl eq_refl).
Defined.

(** ** Raw statements that pass *)

(** [exec] reaches the store exactly when the table name resolves and the
    query is a non-empty string whose lower-cased, trimmed text contains
    neither "sqlite_master" nor "_cf_"; the statement it then sends is the
    query text as given (not lower-cased, not trimmed), with the elements of
    [params] bound when [params] is an array and nothing bound otherwise.
    The other reserved catalog names are not looked for. *)
Theorem exec_reaches_the_store_iff (D : Q -> string) (db : D1Database)
        (payload : object) (e : event) :
  (In e (trace (handle Rack D db "exec" payload)) /\ is_store_call e = true)
  <-> (exists t q,
          resolveTableName payload = Normal (Some t)
          /\ get payload "query" = Some (JStr q)
          /\ q <> ""
          /\ includes (trim (toLowerCase q)) "sqlite_master" = false
          /\ includes (trim (toLowerCase q)) "_cf_" = false
          /\ e = All (Statement q
                        match get payload "params" with
                        | Some (JArr ps) => map Some ps
                        | _ => []
                        end)).
Proof.
  split.
  - intros [Hin Hcall].
    destruct (store_call_needs_table D db Rack "exec" payload e Hin Hcall)
      as [t Hr].
    rewrite (handle_exec D db payload t Hr) in Hin.
    exists t. revert Hin. unfold case_exec. cbv zeta.
    destruct (get payload "query") as [[| |n|q| |]|];
      cbn [truthy negb];
      try solve [ unfold on_error, bind, throw, try_catch, ret, errDelegate,
                    trace;
                  split_cases; cbn [fst app In]; intros Hin; pick_event;
                  subst e; discriminate Hcall ].
    destruct (q =? "") eqn:Hq; cbn [negb]; [intros []|].
    destruct (includes (trim (toLowerCase q)) "sqlite_master") eqn:Hm;
      [intros []|].
    destruct (includes (trim (toLowerCase q)) "_cf_") eqn:Hc;
      cbn [orb]; [intros []|].
    unfold on_error, bind, await_all, try_catch, ret, errDelegate, trace.
    destruct (d1_all db _); cbn [fst app In]; intros Hin; pick_event;
      subst e; exists q; apply String.eqb_neq in Hq;
      (split; [exact Hr|]; split; [reflexivity|]; split; [exact Hq|];
       split; [exact Hm|]; split; [exact Hc | reflexivity]).
  - intros [t [q [Hr [Hq [Hne [Hm [Hc ->]]]]]]].
    split; [|reflexivity].
    rewrite (handle_exec D db payload t Hr).
    unfold case_exec. cbv zeta. rewrite Hq. cbn [truthy].
    apply String.eqb_neq in Hne. rewrite Hne, Hm, Hc. cbn [negb orb].
    unfold on_error, bind, await_all, try_catch, ret, errDelegate, trace.
    destruct (d1_all db _); cbn [fst app In]; now left.
Qed.

Lemma exec_reaches_the_store_iff_witness :
  In (All (Statement "SELECT name FROM sqlite_schema" []))
     (trace (handle Rack no_exponent (db_changing (Some 1%Z)) "exec"
                    [("table_name", JStr "any");
                     ("query", JStr "SELECT name FROM sqlite_schema")]))
  /\ is_store_call (All (Statement "SELECT name FROM sqlite_schema" []))
     = true.
Proof.
  apply (proj2 (exec_reaches_the_store_iff no_exponent
                  (db_changing (Some 1%Z))
                  [("table_name", JStr "any");
                   ("query", JStr "SELECT name FROM sqlite_schema")]
                  (All (Statement "SELECT name FROM sqlite_schema" [])))).
  exists "any", "SELECT name FROM sqlite_schema".
  split; [reflexivity|]. split; [reflexivity|]. split; [discriminate|].
  split; [reflexivity|]. split; reflexivity.
Defined.

(** ** Tables *)

(** [create_table] submits one batch: the CREATE TABLE IF NOT EXISTS
    statement first, then the index on [c1] unless [c1_unique] is truthy,
    then the index on [v2]; nothing is bound, and the reply on success names
    the indices. *)
Theorem create_table_batch (D : Q -> string) (db : D1Database)
        (payload : object) (t : string) :
  resolveTableName payload = Normal (Some t) ->
  let unique := truthy (get payload "c1_unique") in
  let index_on (c : string) :=
    Statement ("CREATE INDEX IF NOT EXISTS idx_" ++ t ++ "_" ++ c
               ++ " ON " ++ t ++ "(" ++ c ++ ")") [] in
  exists create tail,
    store_calls (trace (handle Rack D db "create_table" payload))
    = [Batch (create
               :: map index_on (if unique then ["v2"] else ["c1"; "v2"]))]
    /\ binds create = []
    /\ sql create
       = LF ++ "          CREATE TABLE IF NOT EXISTS " ++ t ++ " ("
         ++ LF ++ "            id INTEGER PRIMARY KEY AUTOINCREMENT,"
         ++ LF ++ "            c1 VARCHAR(255) "
         ++ (if unique then "UNIQUE" else "") ++ tail
    /\ (forall rs,
          d1_batch db (create
                         :: map index_on
                              (if unique then ["v2"] else ["c1"; "v2"]))
          = Normal rs ->
          outcome (handle Rack D db "create_table" payload)
          = Normal (Message ("Table " ++ t ++ " is ready with indices on "
                             ++ (if unique then "v2" else "c1, v2") ++ "."))).
Proof.
  intros Hr unique index_on.
  assert (handle Rack D db "create_table" payload
          = try_catch (case_create_table db t payload) on_error) as ->.
  { unfold handle, UsageMd.handleApiRequest, lift, bind.
    rewrite Hr. simpl. destruct (try_catch _ _). reflexivity. }
  unfold case_create_table. cbv zeta. fold unique.
  unfold on_error, bind, await_batch, try_catch, ret, errDelegate, trace,
    outcome.
  subst index_on. destruct unique; cbn [negb app map];
    match goal with
    | |- context [d1_batch db (?c :: ?rest)] =>
        exists c; eexists; destruct (d1_batch db (c :: rest)) eqn:Hb
    end;
    (split; [reflexivity|]; split; [reflexivity|];
     split; [cbn [sql];
             do 7 (apply (f_equal (String.append _))); reflexivity|]);
    intros rs Hrs; first [ discriminate Hrs | reflexivity ].
Qed.

Lemma create_table_batch_witness :
  exists create tail,
    store_calls
      (trace (handle Rack no_exponent (db_changing (Some 1%Z)) "create_table"
                     [("table_name", JStr "sensor_logs");
                      ("c1_unique", JBool true)]))
    = [Batch [create;
              Statement
                ("CREATE INDEX IF NOT EXISTS idx_" ++ "sensor_logs" ++ "_"
                 ++ "v2" ++ " ON " ++ "sensor_logs" ++ "(" ++ "v2" ++ ")")
                []]]
    /\ sql create
       = LF ++ "          CREATE TABLE IF NOT EXISTS " ++ "sensor_logs" ++ " ("
         ++ LF ++ "            id INTEGER PRIMARY KEY AUTOINCREMENT,"
         ++ LF ++ "            c1 VARCHAR(255) " ++ "UNIQUE" ++ tail.
Proof.
  destruct (create_table_batch no_exponent (db_changing (Some 1%Z))
              [("table_name", JStr "sensor_logs"); ("c1_unique", JBool true)]
              "sensor_logs" eq_refl)
    as [create [tail [Hcalls [_ [Hsql _]]]]].
  exists create, tail. split; [exact Hcalls | exact Hsql].
Defined.

(** ** More on table names *)

Section TableNames.

Lemma trimEnd_fixed (x : string) :
  (forall r c, x = r ++ String c "" -> isWhiteSpace c = false) ->
  trimEnd x = x.
Proof.
  induction x as [|c x IH]; intros Hlast; [reflexivity|].
  destruct x as [|d x].
  - simpl. now rewrite (Hlast "" c eq_refl).
  - assert (trimEnd (String d x) = String d x) as Hx.
    { apply IH. intros r c' Hr. apply (Hlast (String c r) c').
      simpl. now rewrite Hr. }
    change (trimEnd (String c (String d x)))
      with (match trimEnd (String d x) with
            | EmptyString =>
                if isWhiteSpace c then EmptyString else String c EmptyString
            | r' => String c r'
            end).
    now rewrite Hx.
Qed.

Lemma trim_fixed (x : string) : no_outer_space x -> trim x = x.
Proof.
  intros [Hfirst Hlast]. unfold trim.
  assert (trimStart x = x) as ->.
  { destruct x as [|c r]; [reflexivity|]. simpl.
    now rewrite (Hfirst c r eq_refl). }
  now apply trimEnd_fixed.
Qed.

Lemma trim_idempotent (s : string) : trim (trim s) = trim s.
Proof.
  destruct (trim_split s) as [l [r [_ [_ [_ H]]]]]. now apply trim_fixed.
Qed.

End TableNames.

(** A name [resolveTableName] returns resolves to itself: it is non-empty,
    has no white space at either end, is none of the reserved names, and
    sending it back as [table_name] gives the same name again. *)
Theorem resolved_name_is_stable (payload : object) (t : string) :
  resolveTableName payload = Normal (Some t) ->
  t <> "" /\ no_outer_space t /\ ~ In t FORBIDDEN_TABLES
  /\ forall other, get other "table_name" = Some (JStr t) ->
                   resolveTableName other = Normal (Some t).
Proof.
  intros Hr.
  destruct (resolved_name payload t Hr) as [s [_ [-> [Hne Hf]]]].
  split; [exact Hne|]. split.
  { destruct (trim_split s) as [l [r [_ [_ [_ H]]]]]. exact H. }
  split; [exact Hf|].
  intros other Hother. unfold resolveTableName. rewrite Hother.
  cbn [truthy]. rewrite trim_idempotent.
  assert ((trim s =? "") = false) as Hne' by now apply String.eqb_neq.
  assert (trim s <> "") as Hne'' by exact Hne.
  destruct (trim s) as [|c r] eqn:Ht; [now elim Hne''|].
  cbn [String.eqb negb]. rewrite ?Hne'.
  destruct (Set_has FORBIDDEN_TABLES (String c r)) eqn:Hs; [|reflexivity].
  elim Hf. apply (includes_key_In FORBIDDEN_TABLES). exact Hs.
Qed.

Lemma resolved_name_is_stable_witness :
  resolveTableName [("table_name", JStr "sensor_logs"); ("c1", JStr "a")]
  = Normal (Some "sensor_logs").
Proof.
  apply (proj2 (proj2 (proj2
           (resolved_name_is_stable
              [("table_name", JStr "  sensor_logs  ")] "sensor_logs"
              eq_refl)))).
  reflexivity.
Defined.

Section CaseVariants.

Lemma same_letter_space (c d : ascii) :
  same_letter c d = true -> isWhiteSpace d = false -> isWhiteSpace c = false.
Proof.
  unfold same_letter. intros H Hd.
  apply orb_true_iff in H. destruct H as [H | H].
  - apply orb_true_iff in H. destruct H as [H | H].
    + apply Ascii.eqb_eq in H. now subst.
    + apply andb_true_iff in H. destruct H as [H _].
      destruct c as [[] [] [] [] [] [] [] []]; try discriminate H;
        reflexivity.
  - apply andb_true_iff in H. destruct H as [H Hc].
    apply N.eqb_eq in Hc.
    assert (c = ascii_of_N (code d + 32)) as ->
        by (rewrite Hc; unfold code; now rewrite ascii_N_embedding).
    destruct d as [[] [] [] [] [] [] [] []]; try discriminate H;
      reflexivity.
Qed.

Lemma in_any_case_spaceless (s pat : string) :
  in_any_case s pat = true -> spaceless pat -> spaceless s.
Proof.
  revert pat. induction s as [|c s IH]; intros [|d pat]; simpl;
    try discriminate; [trivial|].
  intros H [Hd Hpat]. apply andb_true_iff in H. destruct H as [Hc Hs].
  split; [exact (same_letter_space c d Hc Hd) | exact (IH pat Hs Hpat)].
Qed.

Lemma spaceless_last (s r : string) (c : ascii) :
  spaceless s -> s = r ++ String c "" -> isWhiteSpace c = false.
Proof.
  revert s. induction r as [|d r IH]; intros s Hs ->; simpl in Hs.
  - tauto.
  - destruct Hs as [_ Hs]. exact (IH _ Hs eq_refl).
Qed.

Lemma spaceless_no_outer_space (s : string) :
  spaceless s -> no_outer_space s.
Proof.
  intros Hs. split.
  - intros c r ->. simpl in Hs. tauto.
  - intros r c Hr. exact (spaceless_last s r c Hs Hr).
Qed.

Lemma reserved_is_lower_spaceless (f : string) :
  In f FORBIDDEN_TABLES -> toLowerCase f = f /\ spaceless f /\ f <> "".
Proof.
  simpl. intros H. pick_event; subst f; repeat split; discriminate.
Qed.

End CaseVariants.

(** The reserved names are compared exactly as spelled: a name that spells
    one of them with some letter in the other case is not reserved, and
    [resolveTableName] returns it as it is. *)
Theorem reserved_names_are_case_sensitive (payload : object) (s f : string) :
  get payload "table_name" = Some (JStr s) ->
  In f FORBIDDEN_TABLES ->
  in_any_case s f = true ->
  s <> f ->
  resolveTableName payload = Normal (Some s).
Proof.
  intros Hs Hf Hcase Hdiff.
  destruct (reserved_is_lower_spaceless f Hf) as [Hlow [Hsp Hne]].
  pose proof (in_any_case_lower s f Hcase) as Hlower. rewrite Hlow in Hlower.
  pose proof (in_any_case_spaceless s f Hcase Hsp) as Hsps.
  pose proof (trim_fixed s (spaceless_no_outer_space s Hsps)) as Htrim.
  assert (s <> "") as Hsne.
  { intros ->. destruct f; [now apply Hne | discriminate Hcase]. }
  unfold resolveTableName. rewrite Hs. cbn [truthy]. rewrite Htrim.
  apply String.eqb_neq in Hsne. rewrite Hsne. cbn [negb].
  destruct (Set_has FORBIDDEN_TABLES s) eqn:Hset; [|reflexivity].
  apply (includes_key_In FORBIDDEN_TABLES) in Hset.
  destruct (reserved_is_lower_spaceless s Hset) as [Hlow' _].
  elim Hdiff. congruence.
Qed.

Lemma reserved_names_are_case_sensitive_witness :
  resolveTableName [("table_name", JStr "SQLITE_MASTER")]
  = Normal (Some "SQLITE_MASTER").
Proof.
  apply (reserved_names_are_case_sensitive
           [("table_name", JStr "SQLITE_MASTER")]
           "SQLITE_MASTER" "sqlite_master" eq_refl).
  - left. reflexivity.
  - reflexivity.
  - discriminate.
Defined.

(** ** The HTTP wrapper *)

Section Bearer.

Lemma startsWith_iff (a p : string) :
  startsWith a p = true <-> exists x, a = p ++ x.
Proof.
  revert a. induction p as [|c p IH]; intros a; simpl.
  - split; [intros _; now exists a | reflexivity].
  - destruct a as [|d a]; [split; [discriminate | intros [x H]; discriminate H]|].
    rewrite andb_true_iff, Ascii.eqb_eq, IH. split.
    + intros [-> [x ->]]. now exists x.
    + intros [x [= -> ->]]. split; [reflexivity | now exists x].
Qed.

Lemma split_not_nil (sep : ascii) (s : string) : split sep s <> [].
Proof.
  destruct s as [|c s]; simpl; [discriminate|].
  destruct (Ascii.eqb c sep); [discriminate|].
  destruct (split sep s); discriminate.
Qed.

Lemma split_head (sep : ascii) (h rest : string) :
  lacks sep h ->
  (rest = "" \/ exists r, rest = String sep r) ->
  exists others, split sep (h ++ rest) = h :: others.
Proof.
  intros Hh Hrest. induction h as [|c h IH].
  - destruct Hrest as [->|[r ->]]; simpl.
    + now exists [].
    + rewrite Ascii.eqb_refl. now eexists.
  - destruct Hh as [Hc Hh]. destruct (IH Hh) as [others Ho].
    simpl. apply Ascii.eqb_neq in Hc. rewrite Hc, Ho. now exists others.
Qed.

Lemma split_head_inv (sep : ascii) (x h : string) (others : list string) :
  split sep x = h :: others ->
  lacks sep h
  /\ exists rest, x = h ++ rest /\ (rest = "" \/ exists r, rest = String sep r).
Proof.
  revert h others. induction x as [|c x IH]; intros h others; simpl.
  - intros [= <- <-]. split; [exact I|]. exists "". split; [reflexivity|now left].
  - destruct (Ascii.eqb c sep) eqn:Hc.
    + intros [= <- <-]. split; [exact I|]. apply Ascii.eqb_eq in Hc. subst c.
      exists (String sep x). split; [reflexivity|]. right. now exists x.
    + destruct (split sep x) as [|first rest'] eqn:Hx.
      * now elim (split_not_nil sep x).
      * intros [= <- <-]. destruct (IH first rest' eq_refl) as [Hl [rest [-> Hr]]].
        apply Ascii.eqb_neq in Hc. split; [split; assumption|].
        exists rest. split; [reflexivity | exact Hr].
Qed.

Lemma split_bearer (x : string) :
  split " " ("Bearer " ++ x) = "Bearer" :: split " " x.
Proof.
  simpl. destruct (split " " x) eqn:Hx; [now elim (split_not_nil " " x)|].
  reflexivity.
Qed.

(** The two tests of [handleApi] let through exactly the headers that
    present the secret. *)
Lemma presents_iff (auth secret : option string) :
  presents auth secret
  <-> (match auth with
       | None => true
       | Some a => (a =? "") || negb (startsWith a "Bearer ")
       end = false
       /\ differs (match auth with
                   | Some a => nth_error (split " " a) 1
                   | None => None
                   end) secret = false).
Proof.
  split.
  - intros [t [rest [-> [-> [Ht Hrest]]]]]. split; [reflexivity|].
    rewrite split_bearer. destruct (split_head " " t rest Ht Hrest) as [o ->].
    cbn [nth_error differs]. now rewrite String.eqb_refl.
  - intros [Htest Hsame]. destruct auth as [a|]; [|discriminate Htest].
    apply orb_false_iff in Htest. destruct Htest as [_ Hb].
    apply negb_false_iff, startsWith_iff in Hb. destruct Hb as [x ->].
    rewrite split_bearer in Hsame. cbn [nth_error] in Hsame.
    destruct (split " " x) as [|h others] eqn:Hx;
      [now elim (split_not_nil " " x)|].
    cbn [nth_error] in Hsame.
    destruct secret as [t|]; [|discriminate Hsame].
    cbn [differs] in Hsame. apply negb_false_iff, String.eqb_eq in Hsame.
    subst h. destruct (split_head_inv " " x t others Hx) as [Hl [rest [-> Hr]]].
    exists t, rest. repeat split; assumption.
Qed.

End Bearer.

Lemma bind_lift_normal {A B} (a : A) (k : A -> M B) :
  bind (lift (Normal a)) k = k a.
Proof. unfold bind, lift. destruct (k a). reflexivity. Qed.

Lemma trace_bind_pure {A B} (m : M A) (k : A -> M B) (e : event) :
  (forall a, trace (k a) = []) ->
  In e (trace (bind m k)) -> In e (trace m).
Proof.
  intros Hk. destruct m as [tr [a|msg]]; unfold bind, trace; cbn [fst];
    [|trivial].
  specialize (Hk a). unfold trace in Hk. destruct (k a) as [tr' c].
  cbn [fst] in *. subst tr'. now rewrite app_nil_r.
Qed.

(** [handleApi] answers UNAUTHORIZED or INVALID_TOKEN exactly when the
    [Authorization] header does not present the configured secret, that is,
    unless it reads [Bearer <secret>] alone or followed by a space and
    anything; such a request gets the request id "unknown", status 400, and
    causes no log line and no store call.  A secret that is not configured,
    or that has a space in it, can therefore never be presented. *)
Theorem handleApi_authentication (src : listing) (D : Q -> string)
        (request : Request) (env : Env) :
  let refused :=
    exists code,
      (code = "UNAUTHORIZED" \/ code = "INVALID_TOKEN")
      /\ exists msg,
          handleApi src D request env
          = ([], Normal (nack (JStr "unknown") code msg)) in
  (~ presents (authorization request) (DA_WRITE_TOKEN env) <-> refused)
  /\ (DA_WRITE_TOKEN env = None -> refused)
  /\ (forall t, DA_WRITE_TOKEN env = Some t -> ~ lacks " " t -> refused).
Proof.
  cbv zeta.
  assert (~ presents (authorization request) (DA_WRITE_TOKEN env)
          <-> exists code,
               (code = "UNAUTHORIZED" \/ code = "INVALID_TOKEN")
               /\ exists msg,
                   handleApi src D request env
                   = ([], Normal (nack (JStr "unknown") code msg))) as Hiff.
  { rewrite presents_iff. unfold handleApi. cbv zeta.
    destruct (match authorization request with
              | None => true
              | Some a => (a =? "") || negb (startsWith a "Bearer ")
              end) eqn:Htest.
    { split; [intros _ | intros _ [H _]; discriminate H].
      exists "UNAUTHORIZED". split; [now left|]. eexists. reflexivity. }
    destruct (differs _ (DA_WRITE_TOKEN env)) eqn:Hdiff.
    { split; [intros _ | intros _ [_ H]; discriminate H].
      exists "INVALID_TOKEN". split; [now right|]. eexists. reflexivity. }
    split; [intros H; elim H; now split|].
    intros [code [Hcode [msg H]]] _. revert H.
    open_wrapper. split_cases; intros H;
      apply (f_equal snd) in H; cbn [snd] in H;
      try discriminate H;
      destruct Hcode; subst code; congruence. }
  split; [exact Hiff|]. split.
  - intros Hnone. apply Hiff. intros [t [rest [Ht _]]]. congruence.
  - intros t Ht Hspace. apply Hiff. intros [t' [rest [Ht' [_ [Hl _]]]]].
    apply Hspace. congruence.
Qed.

Lemma handleApi_authentication_witness :
  exists code,
    (code = "UNAUTHORIZED" \/ code = "INVALID_TOKEN")
    /\ exists msg,
        handleApi Worker no_exponent
                  (sample_request (Some "Bearer my secret") (JObj []))
                  {| DA_WRITE_TOKEN := Some "my secret";
                     DB := db_changing (Some 1%Z);
                     INSTANCEID := None |}
        = ([], Normal (nack (JStr "unknown") code msg)).
Proof.
  apply (proj2 (proj2 (handleApi_authentication Worker no_exponent
                         (sample_request (Some "Bearer my secret") (JObj []))
                         {| DA_WRITE_TOKEN := Some "my secret";
                            DB := db_changing (Some 1%Z);
                            INSTANCEID := None |}))
               "my secret" eq_refl).
  simpl. intros [_ [_ [H _]]]. now apply H.
Defined.

(** Every response of [handleApi] is an acknowledgment with status 200 or a
    negative acknowledgment with status 400 whose code is one of
    UNAUTHORIZED, INVALID_TOKEN, INVALID_JSON, INVALID_FIELD and
    REQUEST_FAILED; no other status and no other code is produced. *)
Theorem api_responses (src : listing) (D : Q -> string)
        (request : Request) (env : Env) (resp : Response) :
  outcome (handleApi src D request env) = Normal resp ->
  (status resp = 200%Z
   /\ exists rid payload, content_of resp = AckBody rid payload)
  \/ (status resp = 400%Z
      /\ exists rid code msg,
          content_of resp = NackBody rid code msg
          /\ In code ["UNAUTHORIZED"; "INVALID_TOKEN"; "INVALID_JSON";
                      "INVALID_FIELD"; "REQUEST_FAILED"]).
Proof.
  open_wrapper. split_cases; cbn [snd]; intros H; try discriminate H;
    injection H as <-; cbn [status content_of];
    first [ left; split; [reflexivity|]; eexists; eexists; reflexivity
          | right; split; [reflexivity|]; eexists; eexists; eexists;
            split; [reflexivity | simpl; tauto] ].
Qed.

Lemma api_responses_witness :
  (status (nack (JStr "r-7") "REQUEST_FAILED" "Invalid columns: colour")
   = 200%Z
   /\ exists rid payload,
       content_of (nack (JStr "r-7") "REQUEST_FAILED"
                        "Invalid columns: colour")
       = AckBody rid payload)
  \/ (status (nack (JStr "r-7") "REQUEST_FAILED" "Invalid columns: colour")
      = 400%Z
      /\ exists rid code msg,
          content_of (nack (JStr "r-7") "REQUEST_FAILED"
                           "Invalid columns: colour")
          = NackBody rid code msg
          /\ In code ["UNAUTHORIZED"; "INVALID_TOKEN"; "INVALID_JSON";
                      "INVALID_FIELD"; "REQUEST_FAILED"]).
Proof.
  apply (api_responses Worker no_exponent
           (sample_request
              (Some "Bearer s3cret")
              (JObj [("request_id", JStr "r-7"); ("action", JStr "post");
                     ("payload",
                      JObj [("table_name", JStr "sensor_logs");
                            ("colour", JStr "red")])]))
           sample_env).
  reflexivity.
Defined.

(** For an authorized request whose body is an object with a truthy
    [payload] and a string [action], the response is read off the handler's
    reply: null gives an acknowledgment with the empty payload; [{ error }]
    with a non-empty message gives REQUEST_FAILED with that message; every
    other reply is acknowledged with the reply as payload, and so is
    [{ error: "" }], the reply to a store error without a message.  The
    request id is the body's [request_id] when truthy and "unknown"
    otherwise, and the wrapper adds no event of its own. *)
Theorem replies_become_envelopes (src : listing) (D : Q -> string)
        (request : Request) (env : Env) (body : object)
        (action : string) (payload : json) :
  presents (authorization request) (DA_WRITE_TOKEN env) ->
  json_body request = Normal (JObj body) ->
  get body "action" = Some (JStr action) ->
  get body "payload" = Some payload ->
  truthy (Some payload) = true ->
  let rid :=
    if truthy (get body "request_id")
    then match get body "request_id" with
         | Some id => id
         | None => JStr "unknown"
         end
    else JStr "unknown" in
  forall tr r,
    handle src D (DB env) action (payload_object payload) = (tr, Normal r) ->
    exists resp,
      handleApi src D request env = (tr, Normal resp)
      /\ (r = Null -> resp = ack rid None)
      /\ (forall msg, r = Error msg -> msg <> "" ->
                      resp = nack rid "REQUEST_FAILED" msg)
      /\ (r = Error "" -> resp = ack rid (Some r))
      /\ (r <> Null -> (forall msg, r <> Error msg) ->
          resp = ack rid (Some r)).
Proof.
  intros Hauth Hbody Haction Hpayload Htruthy rid tr r Hhandle.
  apply presents_iff in Hauth. destruct Hauth as [Htest Hdiff].
  unfold handleApi. cbv zeta. rewrite Htest, Hdiff, Hbody.
  unfold member, lift, bind. cbn [fst snd app]. rewrite Hpayload, Htruthy.
  cbn [negb]. rewrite Haction. unfold call_handler.
  assert ((if truthy (Some (JStr action))
           then handle src D (DB env) action (payload_object payload)
           else handle src D (DB env) "" (payload_object payload))
          = (tr, Normal r)) as ->.
  { cbn [truthy]. destruct (action =? "") eqn:Ha; cbn [negb];
      [apply String.eqb_eq in Ha; subst action|]; exact Hhandle. }
  unfold ret. cbn [app]. rewrite app_nil_r.
  assert (match get body "request_id" with
          | Some id => if truthy (get body "request_id") then id
                       else JStr "unknown"
          | None => JStr "unknown"
          end = rid) as ->.
  { subst rid. destruct (get body "request_id") as [id|]; [|reflexivity].
    destruct (truthy (Some id)); reflexivity. }
  eexists. split; [reflexivity|]. unfold respond.
  split; [intros ->; reflexivity|]. split.
  { intros msg -> Hne. apply String.eqb_neq in Hne. now rewrite Hne. }
  split; [intros ->; reflexivity|].
  intros Hn He. destruct r; try reflexivity; [now elim Hn | now elim (He msg)].
Qed.

Lemma replies_become_envelopes_witness :
  handleApi Worker no_exponent
            (sample_request
               (Some "Bearer s3cret")
               (JObj [("request_id", JStr "r-8"); ("action", JStr "post");
                      ("payload",
                       JObj [("table_name", JStr "sensor_logs");
                             ("c1", JStr "a")])]))
            {| DA_WRITE_TOKEN := Some "s3cret";
               DB := db_failing "";
               INSTANCEID := None |}
  = ([Run (Statement "INSERT INTO sensor_logs (c1) VALUES (?)"
                     [Some (JStr "a")]);
      Log "DB operation failed: "],
     Normal {| status := 200;
               content_of := AckBody (JStr "r-8") (Some (Error "")) |}).
Proof.
  destruct (replies_become_envelopes Worker no_exponent
              (sample_request
                 (Some "Bearer s3cret")
                 (JObj [("request_id", JStr "r-8"); ("action", JStr "post");
                        ("payload",
                         JObj [("table_name", JStr "sensor_logs");
                               ("c1", JStr "a")])]))
              {| DA_WRITE_TOKEN := Some "s3cret";
                 DB := db_failing "";
                 INSTANCEID := None |}
              [("request_id", JStr "r-8"); ("action", JStr "post");
               ("payload",
                JObj [("table_name", JStr "sensor_logs"); ("c1", JStr "a")])]
              "post"
              (JObj [("table_name", JStr "sensor_logs"); ("c1", JStr "a")]))
    with (tr := [Run (Statement "INSERT INTO sensor_logs (c1) VALUES (?)"
                                [Some (JStr "a")]);
                 Log "DB operation failed: "])
         (r := Error "")
    as [resp [Hresp [_ [_ [Hempty _]]]]].
  - exists "s3cret", "".
    split; [reflexivity|]. split; [reflexivity|].
    split; [simpl; repeat split; discriminate | left; reflexivity].
  - reflexivity.
  - reflexivity.
  - reflexivity.
  - reflexivity.
  - reflexivity.
  - rewrite Hresp, (Hempty eq_refl). reflexivity.
Defined.

(** An action that is not a string reaches no store. *)
Lemma no_case_matches_no_store (D : Q -> string) (action : json)
      (payload : object) :
  store_calls (trace (no_case_matches D action payload)) = [].
Proof.
  unfold no_case_matches, on_error, lift, bind, try_catch, errDelegate, ret,
    trace.
  destruct (resolveTableName payload) as [[t|]|msg]; try reflexivity.
  destruct (ToStringJson D action); reflexivity.
Qed.

(** A call reaches the store only for a POST to [/api] whose
    [Authorization] header presents the secret, whose body parses to an
    object, and whose [payload] is an object with a table name that
    resolves.  Everything else is answered without touching the store. *)
Theorem store_is_behind_the_front_door (src : listing) (D : Q -> string)
        (request : Request) (env : Env) (e : event) :
  In e (trace (fetch src D request env)) ->
  is_store_call e = true ->
  method request = "POST"
  /\ pathname request = "/api"
  /\ presents (authorization request) (DA_WRITE_TOKEN env)
  /\ exists body payload t,
      json_body request = Normal (JObj body)
      /\ get body "payload" = Some (JObj payload)
      /\ resolveTableName payload = Normal (Some t).
Proof.
  unfold fetch.
  destruct (method request =? "POST") eqn:Hm; cbn [negb]; [|intros []].
  destruct (pathname request =? "/api") eqn:Hp;
    [|destruct (pathname request =? "/meta"); intros []].
  apply String.eqb_eq in Hm, Hp. intros Hin Hcall.
  split; [exact Hm|]. split; [exact Hp|].
  revert Hin. unfold handleApi. cbv zeta.
  destruct (match authorization request with
            | None => true
            | Some a => (a =? "") || negb (startsWith a "Bearer ")
            end) eqn:Htest; [intros []|].
  destruct (differs _ (DA_WRITE_TOKEN env)) eqn:Hdiff; [intros []|].
  intros Hin. split; [apply presents_iff; now split|].
  revert Hin.
  destruct (json_body request) as [[| | | | |body]|msg];
    try solve [ unfold member, lift, bind, ret, trace; cbn [fst app];
                intros [] ].
  exists body. revert Hin. unfold member. rewrite !bind_lift_normal.
  destruct (get body "payload") as [payload|]; [|intros []].
  destruct (negb (truthy (Some payload))); [intros []|].
  rewrite bind_lift_normal.
  intros Hin. apply trace_bind_pure in Hin; [|intros r; reflexivity].
  assert (forall a,
             In e (trace (handle src D (DB env) a (payload_object payload))) ->
             exists payload0 t,
               Some payload = Some (JObj payload0)
               /\ resolveTableName payload0 = Normal (Some t)) as Hhandle.
  { intros a Hin'.
    destruct (store_call_needs_table D (DB env) src a _ e Hin' Hcall)
      as [t Ht].
    destruct payload as [| | | | |p]; try discriminate Ht.
    now exists p, t. }
  assert (exists payload0 t,
             Some payload = Some (JObj payload0)
             /\ resolveTableName payload0 = Normal (Some t))
    as [p [t [[= ->] Ht]]].
  { revert Hin. unfold call_handler.
    destruct (truthy (get body "action"));
      [destruct (get body "action") as [[| | |a| |]|]|];
      try (now apply Hhandle);
      intros Hin; pose proof (In_store_calls e _ Hin Hcall) as Hnone;
      rewrite no_case_matches_no_store in Hnone; destruct Hnone. }
  exists p, t. split; [reflexivity|]. now split.
Qed.

Lemma store_is_behind_the_front_door_witness :
  method (sample_request
            (Some "Bearer s3cret")
            (JObj [("action", JStr "post");
                   ("payload", JObj [("table_name", JStr "sensor_logs");
                                     ("c1", JStr "a")])]))
  = "POST"
  /\ presents (Some "Bearer s3cret") (Some "s3cret").
Proof.
  destruct (store_is_behind_the_front_door Worker no_exponent
              (sample_request
                 (Some "Bearer s3cret")
                 (JObj [("action", JStr "post");
                        ("payload", JObj [("table_name", JStr "sensor_logs");
                                          ("c1", JStr "a")])]))
              sample_env
              (Run (Statement "INSERT INTO sensor_logs (c1) VALUES (?)"
                              [Some (JStr "a")]))
              (or_introl eq_refl) eq_refl)
    as [Hm [_ [Hp _]]].
  split; [exact Hm | exact Hp].
Defined.

(** ** The draft ([src/unnamed/part_000]) *)

Section DraftFacts.

Lemma get_key (o : object) (k : string) :
  get o k <> None -> In k (Object_keys o).
Proof.
  unfold Object_keys. induction o as [|[k' v] o IH]; simpl.
  - intros H. now contradiction H.
  - destruct (k' =? k) eqn:Hk.
    + intros _. left. now apply String.eqb_eq.
    + intros H. right. now apply IH.
Qed.

Lemma draft_keys_allowed (payload : object) :
  (0 <? length (filter (not_allowed Draft.allowedColumns)
                       (filter not_table_name (Object_keys payload))))%nat
  = false ->
  forall k, In k (filter not_table_name (Object_keys payload)) ->
            In k dataColumns.
Proof.
  intros H k Hk.
  exact (all_keys_allowed Draft.allowedColumns _ H k Hk).
Qed.

(** A payload that passes the column check of the draft has no [id]. *)
Lemma draft_no_id (payload : object) :
  (0 <? length (filter (not_allowed Draft.allowedColumns)
                       (filter not_table_name (Object_keys payload))))%nat
  = false ->
  get payload "id" = None.
Proof.
  intros Hinv.
  destruct (get payload "id") as [v|] eqn:Hv; [|reflexivity].
  exfalso.
  assert (In "id" dataColumns) as Habs.
  { apply (draft_keys_allowed payload Hinv).
    apply filter_In. split; [|reflexivity].
    apply get_key. rewrite Hv. discriminate. }
  revert Habs. not_listed.
Qed.

End DraftFacts.

(** In the draft, [put] never reaches the store: a payload with an [id]
    fails the column check, which does not know [id], and a payload without
    one is answered "Missing 'id' for update". *)
Theorem draft_put_never_updates (D : Q -> string) (db : D1Database)
        (G : json) (payload : object) :
  no_store_call (Draft.run D db G "put" payload)
  /\ rejected (Draft.run D db G "put" payload)
  /\ exists line, trace (Draft.run D db G "put" payload) = [Log line].
Proof.
  unfold no_store_call, rejected.
  destruct (0 <? length (filter (not_allowed Draft.allowedColumns)
                                (filter not_table_name (Object_keys payload))))%nat
    eqn:Hinv.
  - open_draft. cbn [fst snd]. rewrite Hinv. cbn.
    repeat split; eexists; reflexivity.
  - pose proof (draft_no_id payload Hinv) as Hid.
    open_draft. cbn [fst snd]. rewrite Hinv, Hid. cbn.
    repeat split; eexists; reflexivity.
Qed.

(** Every call of the draft to the store comes from [post], [get] or
    [delete] on a payload whose keys, [table_name] apart, are all data
    columns; it is the only call of the request and binds the values of
    those keys in their order.  Its text is INSERT INTO <table> (...)
    VALUES (...), SELECT * FROM <table> with one equality per key, or
    DELETE FROM <table> WHERE with one equality per key, of which a
    [delete] has at least one; <table> is the global printed as it stands,
    unchecked. *)
Theorem draft_store_call (D : Q -> string) (db : D1Database) (G : json)
        (action : string) (payload : object) (e : event) :
  In e (trace (Draft.run D db G action payload)) ->
  is_store_call e = true ->
  let keys := filter not_table_name (Object_keys payload) in
  let equalities := map (fun k => k ++ " = ?") keys in
  let values := map (fun k => get payload k) keys in
  exists table,
    ToStringJson D (Draft.table_after D db G action payload) = Normal table
    /\ (forall k, In k keys -> In k dataColumns)
    /\ store_calls (trace (Draft.run D db G action payload)) = [e]
    /\ ((action = "post"
         /\ e = Run (Statement
                       ("INSERT INTO " ++ table ++ " (" ++ join "," keys
                        ++ ") VALUES ("
                        ++ join "," (map (fun _ => "?") keys) ++ ")")
                       values))
        \/ (action = "get"
            /\ e = All (Statement
                          ("SELECT * FROM " ++ table
                           ++ where_clause equalities)
                          values))
        \/ (action = "delete"
            /\ keys <> []
            /\ e = Run (Statement
                          ("DELETE FROM " ++ table ++ " WHERE "
                           ++ join " AND " equalities)
                          values))).
Proof.
  intros Hin Hcall keys equalities values.
  destruct (0 <? length (filter (not_allowed Draft.allowedColumns)
                                (filter not_table_name (Object_keys payload))))%nat
    eqn:Hinv.
  { revert Hin. open_draft. cbn [fst snd]. rewrite Hinv. cbn.
    intros Hin. pick_event. subst e. discriminate Hcall. }
  pose proof (draft_keys_allowed payload Hinv) as Hkeys.
  pose proof (draft_no_id payload Hinv) as Hid.
  fold keys in Hkeys, Hinv.
  revert Hin. open_draft. cbn [fst snd]. fold keys. rewrite Hinv, Hid.
  destruct (ToStringJson D (Draft.assigned_table G payload))
    as [table|failure] eqn:Htable.
  2:{ destruct (action =? "post");
        [|destruct (action =? "put");
          [|destruct (action =? "get");
            [|destruct (action =? "delete");
              [destruct (length keys =? 0)%nat|]]]];
        cbn; intros Hin; pick_event; subst e; discriminate Hcall. }
  exists table. split; [reflexivity|]. split; [exact Hkeys|].
  revert Hin.
  destruct (action =? "post") eqn:Hpost;
    [|destruct (action =? "put") eqn:Hput;
      [|destruct (action =? "get") eqn:Hget;
        [|destruct (action =? "delete") eqn:Hdel]]];
    by_action; subst.
  - destruct (d1_run db _) as [r|msg] eqn:Hrun; cbn [fst snd app In];
      intros Hin; pick_event; subst e; try discriminate Hcall;
      (split; [reflexivity|]); left; split; reflexivity.
  - cbn. intros Hin. pick_event. subst e. discriminate Hcall.
  - subst equalities values.
    destruct keys as [|k0 keys0] eqn:Hk; cbn [length Nat.ltb Nat.leb];
      cbv beta iota zeta;
      destruct (d1_all db _) as [r|msg] eqn:Hall; cbn [fst snd app In];
      try destruct (Draft.no_rows r); cbn [fst snd app In];
      intros Hin; pick_event; subst e; try discriminate Hcall;
      (split; [reflexivity|]); right; left; (split; [reflexivity|]);
      unfold where_clause; cbn [map];
      first [ now rewrite append_nil_r
            | now rewrite append_assoc ].
  - destruct keys as [|k0 keys0] eqn:Hk; cbn [length Nat.eqb];
      cbv beta iota zeta.
    + cbn. intros Hin. pick_event. subst e. discriminate Hcall.
    + destruct (d1_run db _) as [r|msg] eqn:Hrun; cbn [fst snd app In];
        intros Hin; pick_event; subst e; try discriminate Hcall;
        (split; [reflexivity|]); right; right;
        (split; [reflexivity|]); (split; [discriminate | reflexivity]).
  - cbn. intros Hin. pick_event. subst e. discriminate Hcall.
Qed.

Lemma draft_store_call_witness :
  store_calls
    (trace (Draft.run no_exponent (db_changing (Some 1%Z)) (JStr "data1")
                      "delete" [("c1", JStr "a")]))
  = [Run (Statement "DELETE FROM data1 WHERE c1 = ?" [Some (JStr "a")])]
  /\ forall k, In k ["c1"] -> In k dataColumns.
Proof.
  destruct (draft_store_call no_exponent (db_changing (Some 1%Z))
              (JStr "data1") "delete" [("c1", JStr "a")]
              (Run (Statement "DELETE FROM data1 WHERE c1 = ?"
                              [Some (JStr "a")]))
              (or_introl eq_refl) eq_refl)
    as [table [_ [Hkeys [Hcalls _]]]].
  split; [exact Hcalls | exact Hkeys].
Defined.

(** The draft takes the table from the request as it stands and keeps it:
    once a request named a table by a non-empty string [s], whatever became
    of that request, every statement of a later request without a table
    name is on [s], unchecked and untrimmed. *)
Theorem draft_table_carries_over (D : Q -> string) (db1 db2 : D1Database)
        (G : json) (a1 a2 : string) (p1 p2 : object) (s : string)
        (e : event) :
  get p1 "table_name" = Some (JStr s) -> s <> "" ->
  truthy (get p2 "table_name") = false ->
  In e (trace (Draft.run D db2 (Draft.table_after D db1 G a1 p1) a2 p2)) ->
  is_store_call e = true ->
  exists st verb tail,
    statement_of e = Some st
    /\ sql st = verb ++ s ++ tail
    /\ In verb ["INSERT INTO "; "SELECT * FROM "; "DELETE FROM "].
Proof.
  intros H1 Hs H2 Hin Hcall.
  assert (Draft.table_after D db1 G a1 p1 = JStr s) as HG.
  { unfold Draft.table_after, Draft.handleApiRequest, Draft.assigned_table.
    cbn [fst]. rewrite H1. cbn [truthy is_string].
    apply String.eqb_neq in Hs. rewrite Hs. reflexivity. }
  rewrite HG in Hin.
  assert (Draft.assigned_table (JStr s) p2 = JStr s) as Hkeep.
  { unfold Draft.assigned_table. destruct (get p2 "table_name") as [v|];
      [|reflexivity].
    rewrite H2. reflexivity. }
  revert Hin. open_draft. cbn [fst snd]. rewrite Hkeep.
  cbn [ToStringJson].
  destruct (0 <? length (filter (not_allowed Draft.allowedColumns)
                                (filter not_table_name (Object_keys p2))))%nat
    eqn:Hinv.
  { cbn. intros Hin. pick_event. subst e. discriminate Hcall. }
  cbv beta iota zeta.
  rewrite (draft_no_id p2 Hinv).
  destruct (a2 =? "post") eqn:Hpost;
    [|destruct (a2 =? "put") eqn:Hput;
      [|destruct (a2 =? "get") eqn:Hget;
        [|destruct (a2 =? "delete") eqn:Hdel]]];
    [| cbn; intros Hin; pick_event; subst e; discriminate Hcall
     | |
     | cbn; intros Hin; pick_event; subst e; discriminate Hcall ].
  - destruct (d1_run db2 _) as [r|msg] eqn:Hrun; cbn [fst snd app In];
      intros Hin; pick_event; subst e; try discriminate Hcall;
      eexists; exists "INSERT INTO "; eexists;
      (split; [reflexivity|]); (split; [reflexivity | simpl; tauto]).
  - destruct (filter not_table_name (Object_keys p2)) as [|k0 keys0] eqn:Hk;
      cbn [length Nat.ltb Nat.leb]; cbv beta iota zeta;
      destruct (d1_all db2 _) as [r|msg] eqn:Hall; cbn [fst snd app In];
      try destruct (Draft.no_rows r); cbn [fst snd app In];
      intros Hin; pick_event; subst e; try discriminate Hcall;
      eexists; exists "SELECT * FROM ";
      first [ exists ""; split; [reflexivity|];
              split; [cbn [sql]; now rewrite append_nil_r | simpl; tauto]
            | eexists; split; [reflexivity|];
              split; [cbn [sql]; rewrite append_assoc; reflexivity
                     | simpl; tauto] ].
  - destruct (filter not_table_name (Object_keys p2)) as [|k0 keys0] eqn:Hk;
      cbn [length Nat.eqb]; cbv beta iota zeta.
    + cbn. intros Hin. pick_event. subst e. discriminate Hcall.
    + destruct (d1_run db2 _) as [r|msg] eqn:Hrun; cbn [fst snd app In];
        intros Hin; pick_event; subst e; try discriminate Hcall;
        eexists; exists "DELETE FROM "; eexists;
        (split; [reflexivity|]); (split; [reflexivity | simpl; tauto]).
Qed.

Lemma draft_table_carries_over_witness :
  exists st verb tail,
    statement_of
      (All (Statement "SELECT * FROM sqlite_master WHERE c1 = ?"
                      [Some (JStr "a")]))
    = Some st
    /\ sql st = verb ++ "sqlite_master" ++ tail
    /\ In verb ["INSERT INTO "; "SELECT * FROM "; "DELETE FROM "].
Proof.
  apply (draft_table_carries_over no_exponent
           (db_failing "busy") (db_changing (Some 1%Z)) (JStr "data1")
           "post" "get"
           [("table_name", JStr "sqlite_master"); ("colour", JStr "red")]
           [("c1", JStr "a")]
           "sqlite_master"
           (All (Statement "SELECT * FROM sqlite_master WHERE c1 = ?"
                           [Some (JStr "a")]))).
  - reflexivity.
  - discriminate.
  - reflexivity.
  - left. reflexivity.
  - reflexivity.
Defined.
